(** * Web Log Analytics Dashboard: filtering, aggregation, credentials

    A shallow embedding of [app.py]: the data filter [filter_dataframe], the
    aggregations behind the overview page ([update_metrics],
    [update_request_type_pie], [update_age_group_chart],
    [update_statistics_table]), the registration and login callbacks and the
    page router [display_page].

    Conventions of the embedding.
    - A DataFrame is the list of its rows, in index order.  The global [df]
      is always the value returned by [load_data], which converts the
      [timestamp] column with [pd.to_datetime(..., errors='coerce')] and
      creates the columns country, request_type, age_group and continent
      when the file lacks them.  So a frame here has a datetime [timestamp]
      column, where a value that did not parse is [NaT], and the four
      categorical columns; the guards [is_datetime64_any_dtype] and
      ['col' in filtered_df.columns] of the source are then always
      satisfied.
    - A cell of a categorical column read from the CSV file may be missing
      (NaN): such cells are [None].
    - A Python string is the list of its characters, each with a code point
      below 256; among these the decimal digits are 0 to 9.
    - Floating point results are kept exact: a rational, the square root of
      a rational, or NaN.
    - Python exceptions are explicit ([Raise]); DataFrame objects live in a
      heap and are named by references, so that copies, fresh results and
      aliases of the input are told apart. *)

From Stdlib Require Import ZArith QArith Ascii String List DecimalString DecimalNat.
From stdpp Require Import gmap strings list sorting.

Local Open Scope Z_scope.

(** ** Calendar dates and [datetime.strptime(s, '%Y-%m-%d').date()] *)

Module Calendar.

Record date := Date { year : Z; month : Z; day : Z }.

(** Python orders dates as the triples (year, month, day). *)
Definition date_compare (a b : date) : comparison :=
  match year a ?= year b with
  | Eq => match month a ?= month b with
          | Eq => day a ?= day b
          | c => c
          end
  | c => c
  end.

(** [a <= b] on dates. *)
Definition date_leb (a b : date) : bool :=
  match date_compare a b with Gt => false | _ => true end.

Definition is_leap (y : Z) : bool :=
  (y mod 4 =? 0) && (negb (y mod 100 =? 0) || (y mod 400 =? 0)).

Definition days_in_month (y m : Z) : Z :=
  if m =? 2 then (if is_leap y then 29 else 28)
  else if (m =? 4) || (m =? 6) || (m =? 9) || (m =? 11) then 30
  else 31.

(** The constructor [date(y, m, d)] raises ValueError outside these ranges
    (MINYEAR = 1, MAXYEAR = 9999). *)
Definition valid_date (y m d : Z) : bool :=
  (1 <=? y) && (y <=? 9999) && (1 <=? m) && (m <=? 12)
  && (1 <=? d) && (d <=? days_in_month y m).

Definition digit (c : ascii) : option Z :=
  let n := Z.of_nat (nat_of_ascii c) in
  if (48 <=? n) && (n <=? 57) then Some (n - 48) else None.

Definition in_range (lo hi : Z) (o : option Z) : option Z :=
  match o with
  | Some n => if (lo <=? n) && (n <=? hi) then Some n else None
  | None => None
  end.

(** The directive %Y is the regular expression [\d\d\d\d]. *)
Definition directive_Y (cs : list ascii) : option Z :=
  match cs with
  | [a; b; c; d] =>
      match digit a, digit b, digit c, digit d with
      | Some a, Some b, Some c, Some d => Some (((a * 10 + b) * 10 + c) * 10 + d)
      | _, _, _, _ => None
      end
  | _ => None
  end.

(** The directive %m is [1[0-2]|0[1-9]|[1-9]]. *)
Definition directive_m (cs : list ascii) : option Z :=
  match cs with
  | [a; b] =>
      match digit a, digit b with
      | Some 1, Some b => in_range 10 12 (Some (10 + b))
      | Some 0, Some b => in_range 1 9 (Some b)
      | _, _ => None
      end
  | [a] => in_range 1 9 (digit a)
  | _ => None
  end.

(** The directive %d is [3[0-1]|[1-2]\d|0[1-9]|[1-9]| [1-9]]. *)
Definition directive_d (cs : list ascii) : option Z :=
  match cs with
  | [a; b] =>
      if Ascii.eqb a " " then in_range 1 9 (digit b)
      else match digit a, digit b with
           | Some 3, Some b => in_range 30 31 (Some (30 + b))
           | Some 1, Some b => Some (10 + b)
           | Some 2, Some b => Some (20 + b)
           | Some 0, Some b => in_range 1 9 (Some b)
           | _, _ => None
           end
  | [a] => in_range 1 9 (digit a)
  | _ => None
  end.

(** The characters before the first ["-"], and those after it. *)
Fixpoint split_dash (cs : list ascii) : option (list ascii * list ascii) :=
  match cs with
  | [] => None
  | c :: cs' =>
      if Ascii.eqb c "-" then Some ([], cs')
      else match split_dash cs' with
           | Some (l, r) => Some (c :: l, r)
           | None => None
           end
  end.

(** [datetime.strptime(s, '%Y-%m-%d').date()]; [None] stands for the
    ValueError raised when the string does not match the format, has
    unconverted data left, or names no day of the calendar. *)
Definition strptime (s : string) : option date :=
  match split_dash (list_ascii_of_string s) with
  | Some (ys, rest) =>
      match split_dash rest with
      | Some (ms, ds) =>
          match directive_Y ys, directive_m ms, directive_d ds with
          | Some y, Some m, Some d =>
              if valid_date y m d then Some (Date y m d) else None
          | _, _, _ => None
          end
      | None => None
      end
  | None => None
  end.

End Calendar.
Export Calendar.

(** ** Rows, frames and the arguments a callback receives *)

(** A parsed [timestamp] cell.  Only its date and its hour are read. *)
Record Timestamp := Ts { ts_date : date; ts_hour : Z; ts_minute : Z; ts_second : Z }.

(** One row of [df].  [timestamp = None] is NaT.  The column [hour] is
    [df['timestamp'].dt.hour] unless the file has a column of that name;
    a missing hour (NaN) is [None]. *)
Record row := Row {
  timestamp : option Timestamp;
  country : option string;
  continent : option string;
  age_group : option string;
  request_type : option string;
  hour : option Z
}.

Abbreviation frame := (list row) (only parsing).

(** The value of a multi-select dropdown: [None] or a list of strings. *)
Definition pylist := option (list string).

(** Truth value of [continents] in [if continents and ...]. *)
Definition truthy (l : pylist) : bool :=
  match l with
  | Some (_ :: _) => true
  | _ => false
  end.

Definition values (l : pylist) : list string := default [] l.

(** A date bound as a callback receives it: a string (what the date picker
    sends), a [date] object, or [None] (a cleared picker). *)
Inductive pyarg :=
  | PyStr (s : string)
  | PyDate (d : date)
  | PyNone.

(** [Series.isin(values)] on one cell; NaN is in no list of strings. *)
Definition isin (vals : list string) (cell : option string) : bool :=
  match cell with
  | Some v => bool_decide (v ∈ vals)
  | None => false
  end.

(** One cell of [filtered_df['timestamp'].dt.date >= start_date]: pandas
    compares a NaT cell, and any cell with a [None] bound, to [False]. *)
Definition date_ge (cell : option Timestamp) (bound : option date) : bool :=
  match cell, bound with
  | Some t, Some d => date_leb d (ts_date t)
  | _, _ => false
  end.

(** One cell of [filtered_df['timestamp'].dt.date <= end_date]. *)
Definition date_le (cell : option Timestamp) (bound : option date) : bool :=
  match cell, bound with
  | Some t, Some d => date_leb (ts_date t) d
  | _, _ => false
  end.

(** ** Python objects and exceptions: a state and error monad *)

Module Py.

Inductive exn := ValueError | KeyError.

Inductive outcome (A : Type) :=
  | Ret (a : A)
  | Raise (e : exn).
Arguments Ret {A} a.
Arguments Raise {A} e.

(** DataFrame objects are named by their position in the heap; objects are
    never freed, a new one is appended. *)
Abbreviation ref := nat (only parsing).
Abbreviation heap := (list (list row)) (only parsing).

Definition M (A : Type) : Type := heap → outcome A * heap.

#[global] Instance M_ret : MRet M := λ A a h, (Ret a, h).

#[global] Instance M_bind : MBind M := λ A B f m h,
  match m h with
  | (Ret a, h') => f a h'
  | (Raise e, h') => (Raise e, h')
  end.

Definition raise {A} (e : exn) : M A := λ h, (Raise e, h).

(** [try: body except Exception: handler]. *)
Definition try_except {A} (body : M A) (handler : exn → M A) : M A := λ h,
  match body h with
  | (Ret a, h') => (Ret a, h')
  | (Raise e, h') => handler e h'
  end.

Definition deref (h : heap) (r : ref) : frame := default [] (h !! r).

Definition read (r : ref) : M frame := λ h, (Ret (deref h r), h).

Definition alloc (f : frame) : M ref := λ h, (Ret (length h), h ++ [f]).

(** [df.copy()]: a new object with the same rows. *)
Definition frame_copy (r : ref) : M ref := f ← read r; alloc f.

(** [df[mask]] for a boolean mask computed row by row: a new object. *)
Definition getitem_mask (r : ref) (mask : row → bool) : M ref :=
  f ← read r; alloc (List.filter mask f).

End Py.
Export Py.

(** ** The filter engine: [filter_dataframe] *)

(** [datetime.strptime(s, '%Y-%m-%d').date()], raising ValueError. *)
Definition strptime_date (s : string) : M date :=
  match strptime s with
  | Some d => mret d
  | None => raise ValueError
  end.

(** [if isinstance(x, str): x = datetime.strptime(x, '%Y-%m-%d').date()] *)
Definition to_date (x : pyarg) : M (option date) :=
  match x with
  | PyStr s => d ← strptime_date s; mret (Some d)
  | PyDate d => mret (Some d)
  | PyNone => mret None
  end.

(** The body of the [try] block, on the copy [filtered_df]. *)
Definition filter_try (filtered_df : ref)
    (continents countries age_groups request_types : pylist)
    (start_date end_date : pyarg) : M ref :=
  start_date ← to_date start_date;
  end_date ← to_date end_date;
  filtered_df ← getitem_mask filtered_df
    (λ r, date_ge (timestamp r) start_date && date_le (timestamp r) end_date);
  filtered_df ←
    (if truthy continents
     then getitem_mask filtered_df (λ r, isin (values continents) (continent r))
     else mret filtered_df);
  filtered_df ←
    (if truthy countries
     then getitem_mask filtered_df (λ r, isin (values countries) (country r))
     else mret filtered_df);
  filtered_df ←
    (if truthy age_groups
     then getitem_mask filtered_df (λ r, isin (values age_groups) (age_group r))
     else mret filtered_df);
  filtered_df ←
    (if truthy request_types
     then getitem_mask filtered_df (λ r, isin (values request_types) (request_type r))
     else mret filtered_df);
  mret filtered_df.

(** [filter_dataframe(df, ...)]: the result is a new object, or [df] itself
    when the [try] block raised. *)
Definition filter_dataframe (df : ref)
    (continents countries age_groups request_types : pylist)
    (start_date end_date : pyarg) : M ref :=
  filtered_df ← frame_copy df;
  try_except
    (filter_try filtered_df continents countries age_groups request_types
       start_date end_date)
    (λ _, mret df).

(** The rows of the object a computation returns. *)
Definition rows_of (res : outcome ref * heap) : frame :=
  match res with
  | (Ret r, h) => deref h r
  | (Raise _, _) => []
  end.

(** The rows that [filter_dataframe] returns for a frame with rows [rows],
    read off a run on a heap that holds this frame only. *)
Definition filtered (rows : frame)
    (continents countries age_groups request_types : pylist)
    (start_date end_date : pyarg) : frame :=
  rows_of (filter_dataframe 0%nat continents countries age_groups
             request_types start_date end_date [rows]).

(** ** The rows kept, in closed form (used to reason about the runs) *)

(** The bound that [to_date] computes; [None] when it raises. *)
Definition bound_of (x : pyarg) : option (option date) :=
  match x with
  | PyStr s => Some <$> strptime s
  | PyDate d => Some (Some d)
  | PyNone => Some None
  end.

(** One optional predicate: [if vals and ...: filtered_df = filtered_df[...]]. *)
Definition narrow (vals : pylist) (col : row → option string) (rows : frame) : frame :=
  if truthy vals then List.filter (λ x, isin (values vals) (col x)) rows else rows.

(** The rows kept when both bounds were computed. *)
Definition selected (continents countries age_groups request_types : pylist)
    (s e : option date) (rows : frame) : frame :=
  narrow request_types request_type
    (narrow age_groups age_group
       (narrow countries country
          (narrow continents continent
             (List.filter
                (λ x, date_ge (timestamp x) s && date_le (timestamp x) e) rows)))).

(** The rows [filter_dataframe] returns, by cases on the two bounds. *)
Definition kept (cs1 cs2 cs3 cs4 : pylist) (x y : pyarg) (rows : frame) : frame :=
  match bound_of x, bound_of y with
  | Some s, Some e => selected cs1 cs2 cs3 cs4 s e rows
  | _, _ => rows
  end.

(** ** pandas helpers used by the aggregations *)

Section Pandas.

Context {A : Type} `{EqDecision A}.

(** [pd.unique]: the distinct values, in order of first appearance. *)
Fixpoint unique (l : list A) : list A :=
  match l with
  | [] => []
  | x :: l' => x :: List.filter (λ y, negb (bool_decide (y = x))) (unique l')
  end.

(** How many cells of [l] hold [v]. *)
Definition occurrences (v : A) (l : list A) : nat :=
  length (List.filter (λ y, bool_decide (y = v)) l).

End Pandas.

(** [Series.dropna()] on a column. *)
Definition dropna {A} (col : list (option A)) : list A := omap id col.

(** Descending order of the count, the order of [value_counts]. *)
Definition by_count_desc (a b : string * nat) : Prop := (snd b ≤ snd a)%nat.

#[global] Instance by_count_desc_dec : RelDecision by_count_desc :=
  λ a b, decide (snd b ≤ snd a)%nat.

(** One step of the sort by descending count: [x] goes behind the rows
    with a larger count and before all the others. *)
Fixpoint insert_by_count (x : string * nat) (l : list (string * nat))
  : list (string * nat) :=
  match l with
  | [] => [x]
  | y :: l' =>
      if decide (snd x < snd y)%nat then y :: insert_by_count x l' else x :: l
  end.

(** [sort_values(ascending=False)] on a table of counts: descending order
    of the count; rows with equal counts keep the order they had. *)
Definition sort_values_desc (table : list (string * nat)) : list (string * nat) :=
  foldr insert_by_count [] table.

(** [Series.value_counts()]: missing cells are dropped ([dropna=True]), each
    distinct value is counted, and the table is sorted by descending count.
    Rows with equal counts are kept in order of first appearance. *)
Definition value_counts (col : list (option string)) : list (string * nat) :=
  let vals := dropna col in
  sort_values_desc ((λ v, (v, occurrences v vals)) <$> unique vals).


(** [df.groupby('hour').size().reset_index(name='count')]: one row per hour
    that occurs, in ascending order of the hour; rows whose hour is missing
    belong to no group. *)
Definition groupby_size (keys : list (option Z)) : list (Z * nat) :=
  let ks := dropna keys in
  (λ k, (k, occurrences k ks)) <$> merge_sort Z.le (unique ks).

(** [Series.idxmax()] on a column with the default index 0, 1, ...: the
    position of the first maximum; ValueError ([None]) on an empty column. *)
Fixpoint idxmax (l : list nat) : option nat :=
  match l with
  | [] => None
  | x :: l' =>
      match idxmax l' with
      | None => Some 0%nat
      | Some i => if (l' !!! i <=? x)%nat then Some 0%nat else Some (S i)
      end
  end.

(** Floating point results, kept exact: NaN, a rational, or the square root
    of a rational. *)
Inductive pyfloat :=
  | NaN
  | Exact (q : Q)
  | Sqrt (q : Q).

Definition Qsum (l : list Q) : Q := foldr Qplus 0%Q l.

Definition mean_Q (l : list nat) : Q :=
  Z.of_nat (sum_list l) # Pos.of_nat (length l).

(** [Series.mean()]: NaN on an empty column. *)
Definition mean (l : list nat) : pyfloat :=
  match l with
  | [] => NaN
  | _ => Exact (mean_Q l)
  end.

(** [Series.std()] with the default [ddof=1]: NaN under two values. *)
Definition std (l : list nat) : pyfloat :=
  match l with
  | [] | [_] => NaN
  | _ =>
      let m := mean_Q l in
      let dev (x : nat) := (inject_Z (Z.of_nat x) - m)%Q in
      Sqrt (Qsum ((λ x, dev x * dev x)%Q <$> l)
            / inject_Z (Z.of_nat (length l) - 1))%Q
  end.

(** ** The aggregations of the overview page *)

(** [f"{n:,}"]: decimal digits with a comma between groups of three. *)
Fixpoint commas (rev_digits : list ascii) : list ascii :=
  match rev_digits with
  | a :: b :: c :: (_ :: _) as more => a :: b :: c :: "," % char :: commas more
  | _ => rev_digits
  end.

Definition format_thousands (n : nat) : string :=
  string_of_list_ascii
    (rev (commas (rev (list_ascii_of_string
                         (NilEmpty.string_of_uint (Nat.to_uint n)))))).

(** [len(filtered_df[filtered_df['request_type'] == name])]; a missing
    cell equals no name. *)
Definition count_requests (name : string) (filtered_df : frame) : nat :=
  length (List.filter (λ r, bool_decide (request_type r = Some name)) filtered_df).

Record metrics := Metrics {
  total_requests : nat;
  demo_requests : nat;
  job_placements : nat;
  ai_assistant : nat
}.

(** The four numbers computed by [update_metrics] on the filtered frame. *)
Definition metric_counts (filtered_df : frame) : metrics :=
  {| total_requests := length filtered_df;
     demo_requests := count_requests "demo" filtered_df;
     job_placements := count_requests "job" filtered_df;
     ai_assistant := count_requests "ai_assistant" filtered_df |}.

(** [update_metrics]: the four numbers as displayed. *)
Definition update_metrics (df : frame)
    (continents countries age_groups request_types : pylist)
    (start_date end_date : pyarg) : string * string * string * string :=
  let m := metric_counts (filtered df continents countries age_groups
                            request_types start_date end_date) in
  (format_thousands (total_requests m), format_thousands (demo_requests m),
   format_thousands (job_placements m), format_thousands (ai_assistant m)).

(** The table behind the request-type pie chart:
    [filtered_df['request_type'].value_counts().reset_index()]. *)
Definition request_type_counts (filtered_df : frame) : list (string * nat) :=
  value_counts (request_type <$> filtered_df).

Definition age_order : list string :=
  ["18-24"; "25-34"; "35-44"; "45-54"; "55-64"; "65+"].

(** [pd.Categorical(values, categories=cats, ordered=True)] on one cell: a
    value outside the categories becomes NaN. *)
Definition categorical (cats : list string) (v : string) : option string :=
  if bool_decide (v ∈ cats) then Some v else None.

(** The position of a categorical cell in the category order. *)
Definition code (cats : list string) (cell : option string) : nat :=
  match cell with
  | Some v => default (length cats) (fst <$> list_find (eq v) cats)
  | None => length cats
  end.

(** Ascending order of the category, the order of [sort_values]. *)
Definition by_category {B} (cats : list string) (a b : option string * B) : Prop :=
  (code cats (fst a) ≤ code cats (fst b))%nat.

#[global] Instance by_category_dec {B} cats : RelDecision (@by_category B cats) :=
  λ a b, decide (code cats (fst a) ≤ code cats (fst b))%nat.

Definition is_nan_cell {B} (p : option string * B) : bool :=
  match fst p with None => true | Some _ => false end.

(** [DataFrame.sort_values] on a categorical column: the rows with a
    category in ascending order of the category, then the NaN rows in the
    order they had. *)
Definition sort_values_categorical {B} (cats : list string)
    (table : list (option string * B)) : list (option string * B) :=
  merge_sort (by_category cats)
    (List.filter (λ p, negb (is_nan_cell p)) table)
  ++ List.filter is_nan_cell table.

(** The table behind the age-group bar chart of [update_age_group_chart]. *)
Definition age_group_counts (filtered_df : frame) : list (option string * nat) :=
  sort_values_categorical age_order
    ((λ p, (categorical age_order (fst p), snd p))
       <$> value_counts (age_group <$> filtered_df)).

(** [series == value] on one cell: NaN equals nothing, not even NaN. *)
Definition cell_eq (cell value : option string) : bool :=
  match cell, value with
  | Some a, Some b => bool_decide (a = b)
  | _, _ => false
  end.

(** One row of the statistics table. *)
Record stat := Stat {
  stat_request_type : option string;
  stat_total : nat;
  mean_requests : pyfloat;
  std_requests : pyfloat;
  peak_hour : Z
}.

(** [hourly_counts] for one request type. *)
Definition hourly_counts (filtered_df : frame) (req_type : option string)
  : list (Z * nat) :=
  groupby_size
    (hour <$> List.filter (λ r, cell_eq (request_type r) req_type) filtered_df).

(** The body of the loop of [update_statistics_table] for one request type.
    [idxmax] on an empty [hourly_counts] raises ValueError. *)
Definition stats_of_type (filtered_df : frame) (req_type : option string)
  : outcome stat :=
  let req_df := List.filter (λ r, cell_eq (request_type r) req_type) filtered_df in
  let hourly := hourly_counts filtered_df req_type in
  let mean_requests := mean (snd <$> hourly) in
  let std_requests := std (snd <$> hourly) in
  match idxmax (snd <$> hourly) with
  | None => Raise ValueError
  | Some i =>
      match hourly !! i with
      | Some (h, _) =>
          Ret {| stat_request_type := req_type;
                 stat_total := length req_df;
                 mean_requests := mean_requests;
                 std_requests := std_requests;
                 peak_hour := h |}
      | None => Raise KeyError
      end
  end.

Fixpoint collect {X Y} (f : X → outcome Y) (l : list X) : outcome (list Y) :=
  match l with
  | [] => Ret []
  | x :: l' =>
      match f x with
      | Raise e => Raise e
      | Ret y =>
          match collect f l' with
          | Raise e => Raise e
          | Ret ys => Ret (y :: ys)
          end
      end
  end.

(** What the statistics table shows. *)
Inductive stats_view :=
  | StatsTable (rows : list stat)
  | NoData
  | ErrorLoadingStatistics.

(** [update_statistics_table] on the filtered frame, under [handle_error]. *)
Definition update_statistics_table (filtered_df : frame) : stats_view :=
  match collect (stats_of_type filtered_df)
          (unique (request_type <$> filtered_df)) with
  | Raise _ => ErrorLoadingStatistics
  | Ret [] => NoData
  | Ret stats => StatsTable stats
  end.

(** ** Credential store, registration and login *)

Module Credentials.

(** One value of the dictionary [USERS]. *)
Record account := Account {
  acc_id : string;
  acc_username : string;
  acc_password : string;
  acc_email : option string
}.

(** The accounts of [load_users] when the file is absent or unreadable. *)
Definition default_users : gmap string account :=
  <["admin" := Account "admin" "admin" "password123" (Some "admin@example.com")]>
    (<["user" := Account "user" "user" "password124" (Some "user@example.com")]> ∅).

(** What the next [save_users] meets: the write goes through; or [open]
    fails and the file is not touched; or the file is opened for writing,
    which empties it, and the dump fails, which leaves a file that cannot be
    read back. *)
Inductive save_outcome := Saves | OpenFails | DumpFails.

(** The process state the callbacks share: the dictionary [USERS], the
    file ['users.pickle'] ([None] when absent or unreadable), and what the
    next write to it meets. *)
Record store := Store {
  USERS : gmap string account;
  users_pickle : option (gmap string account);
  next_save : save_outcome
}.

(** Whether the next write reaches the file. *)
Definition writable (st : store) : bool :=
  match next_save st with
  | Saves => true
  | OpenFails | DumpFails => false
  end.

Definition load_users (pickle : option (gmap string account)) : gmap string account :=
  default default_users pickle.

(** [save_users(users)]: the success flag and the file afterwards. *)
Definition save_users (users : gmap string account) (st : store) : bool * store :=
  match next_save st with
  | Saves =>
      (true, {| USERS := USERS st; users_pickle := Some users; next_save := Saves |})
  | OpenFails => (false, st)
  | DumpFails =>
      (false, {| USERS := USERS st; users_pickle := None; next_save := DumpFails |})
  end.

(** [not value] for the value of a text input: [None] and the empty string
    are false. *)
Definition blank (v : option string) : bool :=
  match v with
  | None => true
  | Some s => bool_decide (s = "")
  end.

(** The return statements of [register_user], in the order of the source. *)
Inductive register_result :=
  | FieldMissing
  | PasswordMismatch
  | DuplicateUsername (username : string)
  | DuplicateEmail (email : string)
  | Registered
  | SaveFailed
  | RegisterNoUpdate.

(** [for user_id, user_data in USERS.items(): if user_data.get('email') == email] *)
Definition email_registered (users : gmap string account) (email : string) : bool :=
  existsb (λ kv, bool_decide (acc_email (snd kv) = Some email)) (map_to_list users).

Definition register_user (n_clicks : Z)
    (username email password confirm_password : option string)
    (st : store) : register_result * store :=
  if 0 <? n_clicks then
    if blank username || blank email || blank password || blank confirm_password
    then (FieldMissing, st)
    else if negb (bool_decide (password = confirm_password))
    then (PasswordMismatch, st)
    else
      let username := default "" username in
      let email := default "" email in
      let password := default "" password in
      if bool_decide (is_Some (USERS st !! username))
      then (DuplicateUsername username, st)
      else if email_registered (USERS st) email
      then (DuplicateEmail email, st)
      else
        let new_user := Account username username password (Some email) in
        let users := <[username := new_user]> (USERS st) in
        let st := {| USERS := users; users_pickle := users_pickle st;
                     next_save := next_save st |} in
        match save_users users st with
        | (true, st) => (Registered, st)
        | (false, st) => (SaveFailed, st)
        end
  else (RegisterNoUpdate, st).

(** A value a callback writes to an output, or [dash.no_update]. *)
Inductive dash_value :=
  | no_update
  | Text (s : string).

(** The triple (register-error, register-success, pathname) returned for
    each outcome. *)
Definition register_outputs (r : register_result)
  : dash_value * dash_value * dash_value :=
  match r with
  | FieldMissing => (Text "All fields are required.", Text "", no_update)
  | PasswordMismatch => (Text "Passwords do not match.", Text "", no_update)
  | DuplicateUsername u =>
      (Text ("Username '" ++ u ++ "' is already taken."), Text "", no_update)
  | DuplicateEmail e =>
      (Text ("Email '" ++ e ++ "' is already registered."), Text "", no_update)
  | Registered =>
      (Text "", Text "Registration successful! You can now log in.", Text "/login")
  | SaveFailed =>
      (Text "Error saving user data. Please try again.", Text "", no_update)
  | RegisterNoUpdate => (no_update, no_update, no_update)
  end.

(** ** Sessions and page routing *)

(** What [display_page] puts in [page-content]. *)
Inductive page :=
  | login_layout
  | register_layout
  | dashboard_layout
  | page_not_found.

Definition display_page (pathname : string) : page :=
  if bool_decide (pathname = "/login" ∨ pathname = "/") then login_layout
  else if bool_decide (pathname = "/register") then register_layout
  else if bool_decide (pathname = "/dashboard") then dashboard_layout
  else page_not_found.

(** One browser session: the user Flask-Login holds for it, if any, and the
    path shown in the address bar. *)
Record session := Session {
  current_user : option string;
  pathname : string
}.

Definition new_session : session := Session None "/".

(** [login]: the outputs (pathname, login-error) and the session user,
    which [login_user] sets on success. *)
Definition login (n_clicks : Z) (username password : option string)
    (users : gmap string account) (s : session)
  : dash_value * dash_value * session :=
  if 0 <? n_clicks then
    match username with
    | Some u =>
        match users !! u with
        | Some data =>
            if bool_decide (Some (acc_password data) = password)
            then (Text "/dashboard", Text "",
                  {| current_user := Some (acc_id data); pathname := pathname s |})
            else (Text "/login", Text "Invalid username or password", s)
        | None => (Text "/login", Text "Invalid username or password", s)
        end
    | None => (Text "/login", Text "Invalid username or password", s)
    end
  else (no_update, no_update, s).

(** [logout]: the pathname output and the session, which [logout_user]
    clears. *)
Definition logout (n_clicks : option Z) (s : session) : dash_value * session :=
  match n_clicks with
  | Some n =>
      if n =? 0 then (no_update, s)
      else (Text "/login", {| current_user := None; pathname := pathname s |})
  | None => (no_update, s)
  end.

(** Writing a callback output to the address bar. *)
Definition set_pathname (v : dash_value) (s : session) : session :=
  match v with
  | Text p => {| current_user := current_user s; pathname := p |}
  | no_update => s
  end.

(** What a client can do. *)
Inductive event :=
  | Navigate (path : string)
  | SubmitLogin (n_clicks : Z) (username password : option string)
  | SubmitRegister (n_clicks : Z) (username email password confirm : option string)
  | ClickLogout (n_clicks : option Z).

Definition step (ev : event) (cfg : store * session) : store * session :=
  let '(st, s) := cfg in
  match ev with
  | Navigate path => (st, set_pathname (Text path) s)
  | SubmitLogin n u p =>
      let '(path, _, s) := login n u p (USERS st) s in
      (st, set_pathname path s)
  | SubmitRegister n u e p c =>
      let '(r, st) := register_user n u e p c st in
      (st, set_pathname (snd (register_outputs r)) s)
  | ClickLogout n =>
      let '(path, s) := logout n s in
      (st, set_pathname path s)
  end.

Definition run (evs : list event) (cfg : store * session) : store * session :=
  fold_left (λ cfg ev, step ev cfg) evs cfg.

(** The page a session sees: [display_page] runs on every change of the
    pathname. *)
Definition content (cfg : store * session) : page :=
  display_page (pathname (snd cfg)).

End Credentials.
Export Credentials.

(** ** Sample data *)

(** A record with every cell present, at the given instant. *)
Definition record_at (d : date) (hh mm ss : Z) (country age request : string) : row :=
  {| timestamp := Some (Ts d hh mm ss);
     country := Some country;
     continent := Some "Unknown";
     age_group := Some age;
     request_type := Some request;
     hour := Some hh |}.

(** A record whose timestamp did not parse. *)
Definition record_without_timestamp (country age request : string) : row :=
  {| timestamp := None;
     country := Some country;
     continent := Some "Unknown";
     age_group := Some age;
     request_type := Some request;
     hour := None |}.

(** A record whose request type is missing in the file. *)
Definition record_without_request_type (d : date) (hh : Z) : row :=
  {| timestamp := Some (Ts d hh 0 0);
     country := Some "Canada";
     continent := Some "Unknown";
     age_group := Some "35-44";
     request_type := None;
     hour := Some hh |}.

Definition jan (d : Z) : date := Date 2023 1 d.

(** The three records of the date-range scenario, at any time of day. *)
Definition scenario_store (h1 m1 s1 h2 m2 s2 h3 m3 s3 : Z) : list row :=
  [ record_at (jan 1) h1 m1 s1 "United States" "25-34" "demo";
    record_at (jan 2) h2 m2 s2 "Canada" "35-44" "job";
    record_at (jan 5) h3 m3 s3 "United States" "25-34" "demo" ].

Definition sample_store : list row := scenario_store 9 30 0 23 59 59 0 0 0.

(** Whether every parsed timestamp of the store lies in [s, e]: the range
    covers the span of the store. *)
Definition covers_span (s e : date) (rows : list row) : bool :=
  forallb (λ r, match timestamp r with
                | Some t => date_leb s (ts_date t) && date_leb (ts_date t) e
                | None => true
                end) rows.

Definition has_timestamp (r : row) : bool :=
  match timestamp r with Some _ => true | None => false end.

(** A store in which one timestamp did not parse. *)
Definition store_with_NaT : list row :=
  [ record_at (jan 1) 10 0 0 "Canada" "35-44" "job";
    record_without_timestamp "Canada" "35-44" "job" ].

(** A date bound that [to_date] cannot convert: a string that
    [strptime] rejects. *)
Definition unparseable (x : pyarg) : Prop :=
  ∃ s, x = PyStr s ∧ strptime s = None.

(** A request type that has none of the three names of the counters. *)
Definition unnamed_request (r : row) : bool :=
  negb (bool_decide (request_type r = Some "demo")
        || bool_decide (request_type r = Some "job")
        || bool_decide (request_type r = Some "ai_assistant")).

(** [len(filtered_df[filtered_df['age_group'] == g])]: the records of one
    age group. *)
Definition count_age (g : string) (filtered_df : list row) : nat :=
  length (List.filter (λ r, bool_decide (age_group r = Some g)) filtered_df).

(** The age groups that occur, in the order of [age_order], each with its
    number of records. *)
Definition ordered_age_rows (filtered_df : list row) : list (option string * nat) :=
  (λ g, (Some g, count_age g filtered_df))
    <$> List.filter (λ g, (0 <? count_age g filtered_df)%nat) age_order.

(** One record of each age group, youngest last. *)
Definition six_groups_shuffled : list row :=
  (λ g, record_at (jan 1) 8 0 0 "Canada" g "demo")
    <$> ["65+"; "35-44"; "18-24"; "55-64"; "25-34"; "45-54"; "35-44"].

(** The records of one request type in one hour of the day: the size of
    one hour bucket. *)
Definition bucket (filtered_df : list row) (req_type : string) (h : Z) : nat :=
  length
    (List.filter (λ r, bool_decide (hour r = Some h))
       (List.filter (λ r, cell_eq (request_type r) (Some req_type)) filtered_df)).

(** The state after a registration that was saved. *)
Definition registered (username email password : string) (st : store) : store :=
  let users := <[username := Account username username password (Some email)]>
                 (USERS st) in
  {| USERS := users; users_pickle := Some users; next_save := Saves |}.

(** A store in which one account was registered and saved, and in which
    the next save opens the file and fails while writing. *)
Definition store_with_failing_dump (username email password : string) : store :=
  let users := <[username := Account username username password (Some email)]>
                 default_users in
  {| USERS := users; users_pickle := Some users; next_save := DumpFails |}.

(** The store of a fresh installation: the two default accounts, no file
    yet, a directory that can be written. *)
Definition fresh_store : store :=
  {| USERS := default_users; users_pickle := None; next_save := Saves |}.

(** * The rest of the dashboard *)

(** ** Dates on the wire, the order of timestamps, [reset_filters] *)

(** [a <= b] on dates, as a relation. *)
Definition date_lte (a b : date) : Prop := date_leb a b = true.

#[global] Instance date_lte_dec : RelDecision date_lte :=
  λ a b, decide (date_leb a b = true).

(** The character of one decimal digit. *)
Definition digit_char (k : Z) : ascii := ascii_of_nat (Z.to_nat (48 + k)).

(** [date.isoformat()], that is ['%04d-%02d-%02d']: the form in which a
    [date] object returned by a callback reaches the date picker, and comes
    back as [start_date] or [end_date]. *)
Definition isoformat (d : date) : string :=
  string_of_list_ascii
    [ digit_char (year d / 1000 mod 10); digit_char (year d / 100 mod 10);
      digit_char (year d / 10 mod 10); digit_char (year d mod 10);
      "-"%char;
      digit_char (month d / 10 mod 10); digit_char (month d mod 10);
      "-"%char;
      digit_char (day d / 10 mod 10); digit_char (day d mod 10) ].

(** Timestamps are ordered by date, then by time of day. *)
Definition ts_compare (a b : Timestamp) : comparison :=
  match date_compare (ts_date a) (ts_date b) with
  | Eq => match ts_hour a ?= ts_hour b with
          | Eq => match ts_minute a ?= ts_minute b with
                  | Eq => ts_second a ?= ts_second b
                  | c => c
                  end
          | c => c
          end
  | c => c
  end.

Definition ts_leb (a b : Timestamp) : bool :=
  match ts_compare a b with Gt => false | _ => true end.

(** [Series.min()] on the timestamp column: NaT cells are skipped, and the
    result is NaT ([None]) when no cell is left. *)
Definition series_min (col : list (option Timestamp)) : option Timestamp :=
  foldr (λ t acc, match acc with
                  | None => Some t
                  | Some m => Some (if ts_leb t m then t else m)
                  end) None (dropna col).

(** [Series.max()] on the timestamp column. *)
Definition series_max (col : list (option Timestamp)) : option Timestamp :=
  foldr (λ t acc, match acc with
                  | None => Some t
                  | Some m => Some (if ts_leb m t then t else m)
                  end) None (dropna col).

(** [if n_clicks:] for a click counter that may be [None]. *)
Definition clicked (n_clicks : option Z) : bool :=
  match n_clicks with
  | Some n => negb (n =? 0)
  | None => false
  end.

(** The six outputs of [reset_filters]; a date output is NaT ([None]) when
    the store has no timestamp. *)
Inductive reset_outputs :=
  | ResetNoUpdate
  | ResetValues (continents countries age_groups request_types : list string)
                (min_date max_date : option date).

(** [reset_filters(n_clicks)] on the global [df]. *)
Definition reset_filters (n_clicks : option Z) (df : frame) : reset_outputs :=
  if clicked n_clicks then
    ResetValues [] [] [] []
      (ts_date <$> series_min (timestamp <$> df))
      (ts_date <$> series_max (timestamp <$> df))
  else ResetNoUpdate.

(** Whether a set criterion lets a cell through: an empty selection lets
    everything through. *)
Definition passes (vals : pylist) (cell : option string) : bool :=
  negb (truthy vals) || isin (values vals) cell.

(** The conjunction of the five predicates of the filter, on one row. *)
Definition matches (continents countries age_groups request_types : pylist)
    (s e : option date) (r : row) : bool :=
  date_ge (timestamp r) s && date_le (timestamp r) e
  && passes continents (continent r) && passes countries (country r)
  && passes age_groups (age_group r) && passes request_types (request_type r).

(** A timestamp cell holds a day of the calendar. *)
Definition valid_timestamp (r : row) : Prop :=
  ∀ t, timestamp r = Some t →
       valid_date (year (ts_date t)) (month (ts_date t)) (day (ts_date t)) = true.

(** ** The other charts *)

#[global] Instance date_eq_dec : EqDecision date.
Proof. solve_decision. Defined.

(** [df.groupby(key).size().reset_index(name='count')] for keys ordered by
    [R]: one row per key that occurs, in ascending order of the key; rows
    whose key is missing belong to no group. *)
Definition groupby_sorted {K} `{EqDecision K} (R : relation K) `{!RelDecision R}
    (keys : list (option K)) : list (K * nat) :=
  let ks := dropna keys in
  (λ k, (k, occurrences k ks)) <$> merge_sort R (unique ks).

(** The table of [update_time_series]:
    [filtered_df.groupby(filtered_df['timestamp'].dt.date).size()]. *)
Definition time_series_data (filtered_df : frame) : list (date * nat) :=
  groupby_sorted date_lte ((λ r, ts_date <$> timestamp r) <$> filtered_df).

(** The table of [update_hourly_chart]:
    [filtered_df.groupby('hour').size()]. *)
Definition hourly_chart_data (filtered_df : frame) : list (Z * nat) :=
  groupby_size (hour <$> filtered_df).

(** The table of [update_country_bar_chart]: the value counts of the
    countries, sorted by descending count, cut to ten rows:
    [value_counts().reset_index()], then
    [sort_values('count', ascending=False).head(10)]. *)
Definition country_counts (filtered_df : frame) : list (string * nat) :=
  take 10 (sort_values_desc (value_counts (country <$> filtered_df))).

(** [len(filtered_df[filtered_df['country'] == c])]. *)
Definition count_country (c : string) (filtered_df : frame) : nat :=
  length (List.filter (λ r, bool_decide (country r = Some c)) filtered_df).

(** The number of records in one hour of the day. *)
Definition count_hour (h : Z) (filtered_df : frame) : nat :=
  length (List.filter (λ r, bool_decide (hour r = Some h)) filtered_df).

(** The number of records on one date. *)
Definition count_date (d : date) (filtered_df : frame) : nat :=
  length
    (List.filter (λ r, bool_decide (ts_date <$> timestamp r = Some d)) filtered_df).

Definition day_order : list string :=
  ["Monday"; "Tuesday"; "Wednesday"; "Thursday"; "Friday"; "Saturday"; "Sunday"].

Definition month_order : list string :=
  ["January"; "February"; "March"; "April"; "May"; "June";
   "July"; "August"; "September"; "October"; "November"; "December"].

(** The value counts of a column, as a table sorted by a fixed order of its
    categories: the pattern shared by [update_age_group_chart],
    [update_daily_chart] and [update_monthly_chart]. *)
Definition ordered_counts (cats : list string) (col : list (option string))
  : list (option string * nat) :=
  sort_values_categorical cats
    ((λ p, (categorical cats (fst p), snd p)) <$> value_counts col).

(** The table of [update_daily_chart], from the column [filtered_df['day']]. *)
Definition daily_counts (day : list (option string)) : list (option string * nat) :=
  ordered_counts day_order day.

(** The table of [update_monthly_chart], from the column
    [filtered_df['month']]. *)
Definition monthly_counts (month : list (option string))
  : list (option string * nat) :=
  ordered_counts month_order month.

(** The categories of [cats] that occur in the column, in the order of
    [cats], each with its number of cells. *)
Definition ordered_rows (cats : list string) (col : list (option string))
  : list (option string * nat) :=
  (λ g, (Some g, occurrences (Some g) col))
    <$> List.filter (λ g, bool_decide (Some g ∈ col)) cats.

(** Python orders strings by their characters. *)
Definition string_le (a b : string) : Prop := String.leb a b = true.

#[global] Instance string_le_dec : RelDecision string_le :=
  λ a b, decide (String.leb a b = true).

(** The table of [update_world_map]: the filtered frame, cut to one request
    type when [map_request_type] is set, grouped by country. *)
Definition world_map_counts (map_request_type : option string)
    (filtered_df : frame) : list (string * nat) :=
  let filtered_df :=
    if negb (blank map_request_type)
    then List.filter (λ r, cell_eq (request_type r) map_request_type) filtered_df
    else filtered_df in
  groupby_sorted string_le (country <$> filtered_df).

(** [update_data_table]: [filtered_df.head(100)], as records. *)
Definition update_data_table (df : frame)
    (continents countries age_groups request_types : pylist)
    (start_date end_date : pyarg) : list row :=
  take 100 (filtered df continents countries age_groups request_types
              start_date end_date).

(** ** Accounts and sessions over time *)

(** [load_user(user_id)], the user loader of Flask-Login: the account
    stored under the id, if any. *)
Definition load_user (user_id : string) (users : gmap string account)
  : option account :=
  users !! user_id.

(** Every account is stored under its own id and username. *)
Definition well_keyed (users : gmap string account) : Prop :=
  ∀ k a, users !! k = Some a → acc_id a = k ∧ acc_username a = k.

(** No two accounts have the same email. *)
Definition unique_emails (users : gmap string account) : Prop :=
  ∀ k1 k2 a1 a2 e,
    users !! k1 = Some a1 → users !! k2 = Some a2 →
    acc_email a1 = Some e → acc_email a2 = Some e → k1 = k2.

(** The user of the session, if any, is an account of the store. *)
Definition session_resolves (cfg : store * session) : Prop :=
  ∀ id, current_user (snd cfg) = Some id →
        is_Some (load_user id (USERS (fst cfg))).

(** ** Navigation inside the dashboard *)

(** The five navigation buttons, the inputs of [update_navigation]. *)
Inductive nav_button := NavHome | NavMap | NavTime | NavRequests | NavData.

#[global] Instance nav_button_eq_dec : EqDecision nav_button.
Proof. solve_decision. Defined.

(** [page_mapping[button_id]]. *)
Definition page_mapping (b : nav_button) : string :=
  match b with
  | NavHome => "home"
  | NavMap => "map"
  | NavTime => "time"
  | NavRequests => "requests"
  | NavData => "data"
  end.

(** The outputs of [update_navigation]: the page stored in [current-page]
    and the class names of the five buttons. *)
Record nav_outputs := NavOutputs {
  nav_page : string;
  class_home : string;
  class_map : string;
  class_time : string;
  class_requests : string;
  class_data : string
}.

(** [styles[b]] after [styles[active] = 'nav-link active'], or with the
    default styles when nothing is active. *)
Definition style_of (active : option nav_button) (b : nav_button) : string :=
  if bool_decide (active = Some b) then "nav-link active" else "nav-link".

(** [update_navigation]: [triggered] is the button named by
    [ctx.triggered[0]], or [None] when [ctx.triggered] is empty. *)
Definition update_navigation (triggered : option nav_button) (current : string)
  : nav_outputs :=
  match triggered with
  | None =>
      {| nav_page := current;
         class_home := style_of (Some NavHome) NavHome;
         class_map := style_of (Some NavHome) NavMap;
         class_time := style_of (Some NavHome) NavTime;
         class_requests := style_of (Some NavHome) NavRequests;
         class_data := style_of (Some NavHome) NavData |}
  | Some button_id =>
      {| nav_page := page_mapping button_id;
         class_home := style_of (Some button_id) NavHome;
         class_map := style_of (Some button_id) NavMap;
         class_time := style_of (Some button_id) NavTime;
         class_requests := style_of (Some button_id) NavRequests;
         class_data := style_of (Some button_id) NavData |}
  end.

(** The five page bodies of [render_content]. *)
Inductive dashboard_body :=
  | HomeBody | MapBody | TimeBody | RequestsBody | DataBody.

(** [render_content(page)]: a page body, or [None] when no branch applies
    and the function falls off its end. *)
Definition render_content (page : string) : option dashboard_body :=
  if bool_decide (page = "home") then Some HomeBody
  else if bool_decide (page = "map") then Some MapBody
  else if bool_decide (page = "time") then Some TimeBody
  else if bool_decide (page = "requests") then Some RequestsBody
  else if bool_decide (page = "data") then Some DataBody
  else None.

(** The body that belongs to a button. *)
Definition body_of (b : nav_button) : dashboard_body :=
  match b with
  | NavHome => HomeBody
  | NavMap => MapBody
  | NavTime => TimeBody
  | NavRequests => RequestsBody
  | NavData => DataBody
  end.

(** The class names of the five buttons, in the order of the outputs. *)
Definition nav_classes (o : nav_outputs) : list string :=
  [class_home o; class_map o; class_time o; class_requests o; class_data o].

(** ** Reading a displayed count, the raw-data table and the export *)

(** A displayed count without its thousands separators. *)
Definition strip_commas (s : string) : string :=
  string_of_list_ascii
    (List.filter (λ ch, negb (Ascii.eqb ch ",")) (list_ascii_of_string s)).

(** The number that a displayed count denotes. *)
Definition parse_thousands (s : string) : option nat :=
  Nat.of_uint <$> NilEmpty.uint_of_string (strip_commas s).

(** The formats of the three export buttons. *)
Inductive export_format := ExportCSV | ExportJSON | ExportExcel.

(** What a file of the working directory holds: a complete export, or
    what is left of an export that failed while the file was written. *)
Inductive file_content :=
  | Exported (fmt : export_format) (rows : list row)
  | Incomplete.

(** What the next write meets: it goes through; it fails before the file
    is opened; or the file is opened, which creates or empties it, and the
    write fails.  A failure carries the text of its exception. *)
Inductive write_outcome :=
  | Writes
  | FailsBeforeOpen (e : string)
  | FailsAfterOpen (e : string).

(** The working directory: its files, and what the next write meets. *)
Record disk := Disk {
  files : gmap string file_content;
  next_write : write_outcome
}.

(** [export_df.to_csv(name)] and its siblings, inside the [try] block of
    [export_data]: the message returned and the disk afterwards. *)
Definition write_export (fmt : export_format) (label ext : string)
    (export_df : list row) (timestamp_now : string) (d : disk) : string * disk :=
  let name := ("dashboard_export_" ++ timestamp_now ++ ext)%string in
  match next_write d with
  | Writes =>
      (("Data exported to " ++ label ++ " successfully: " ++ name)%string,
       {| files := <[name := Exported fmt export_df]> (files d);
          next_write := Writes |})
  | FailsBeforeOpen e => (("Error exporting data: " ++ e)%string, d)
  | FailsAfterOpen e =>
      (("Error exporting data: " ++ e)%string,
       {| files := <[name := Incomplete]> (files d);
          next_write := FailsAfterOpen e |})
  end.

(** [export_data]: [triggered] is the button named by [ctx.triggered[0]],
    [timestamp_now] is [datetime.now().strftime("%Y%m%d_%H%M%S")]. *)
Definition export_data (triggered : option string) (export_option : option string)
    (df : frame) (continents countries age_groups request_types : pylist)
    (start_date end_date : pyarg) (table_data : option (list row))
    (timestamp_now : string) (d : disk) : string * disk :=
  match triggered with
  | None => ("", d)
  | Some button_id =>
      match (if bool_decide (export_option = Some "current")
             then table_data
             else Some (filtered df continents countries age_groups
                          request_types start_date end_date)) with
      | None => ("No data to export", d)
      | Some export_df =>
          if bool_decide (button_id = "export-csv")
          then write_export ExportCSV "CSV" ".csv" export_df timestamp_now d
          else if bool_decide (button_id = "export-json")
          then write_export ExportJSON "JSON" ".json" export_df timestamp_now d
          else if bool_decide (button_id = "export-excel")
          then write_export ExportExcel "Excel" ".xlsx" export_df timestamp_now d
          else ("", d)
      end
  end.

(** ** Request types by country and over time *)

(** The two keys of a record for a group-by on two columns: a record with
    a missing key belongs to no group. *)
Definition both {A B} (a : option A) (b : option B) : option (A * B) :=
  match a, b with
  | Some x, Some y => Some (x, y)
  | _, _ => None
  end.

(** Pairs of a date and a request type, ordered by date, then by type. *)
Definition date_type_le (a b : date * string) : Prop :=
  date_leb (fst a) (fst b) = true
  ∧ (date_leb (fst b) (fst a) = true → String.leb (snd a) (snd b) = true).

#[global] Instance date_type_le_dec : RelDecision date_type_le.
Proof. intros a b. unfold date_type_le. apply _. Defined.

(** The table of [update_request_time_series]:
    [groupby([filtered_df['timestamp'].dt.date, 'request_type']).size()]. *)
Definition request_time (filtered_df : frame) : list ((date * string) * nat) :=
  groupby_sorted date_type_le
    ((λ r, both (ts_date <$> timestamp r) (request_type r)) <$> filtered_df).




(** The records of one date and one request type. *)
Definition count_date_type (d : date) (t : string) (filtered_df : frame) : nat :=
  length
    (List.filter (λ r, bool_decide (ts_date <$> timestamp r = Some d)
                       && bool_decide (request_type r = Some t)) filtered_df).

(** * Properties *)

(** ** The date parser and the formatters on sample inputs *)

Example strptime_plain : strptime "2023-01-02" = Some (Date 2023 1 2).
Proof. reflexivity. Qed.

Example strptime_short_fields : strptime "2023-1-5" = Some (Date 2023 1 5).
Proof. reflexivity. Qed.

Example strptime_leap_day : strptime "2024-02-29" = Some (Date 2024 2 29).
Proof. reflexivity. Qed.

Example strptime_no_such_day : strptime "2023-02-29" = None.
Proof. reflexivity. Qed.

Example strptime_iso_instant : strptime "2023-01-01T00:00:00" = None.
Proof. reflexivity. Qed.

Example strptime_trailing : strptime "2023-01-311" = None.
Proof. reflexivity. Qed.

Example format_thousands_samples :
  format_thousands 0 = "0" ∧ format_thousands 999 = "999"
  ∧ format_thousands 1000 = "1,000" ∧ format_thousands 4321 = "4,321".
Proof. repeat split; reflexivity. Qed.

(** One record without a request type: [unique] yields NaN, no record
    equals NaN, [idxmax] raises on the empty table and the view is the
    error message of [handle_error]. *)
Example statistics_table_with_missing_type :
  update_statistics_table (sample_store ++ [record_without_request_type (jan 3) 7])
  = ErrorLoadingStatistics.
Proof. reflexivity. Qed.

Example statistics_table_empty : update_statistics_table [] = NoData.
Proof. reflexivity. Qed.

(** ** Running the filter: what each step does to the heap *)

Section FilterRun.

Implicit Types (h k : heap) (r c df : ref) (f rows : frame).

Lemma bind_ret {A B} (m : M A) (g : A → M B) h a h' :
  m h = (Ret a, h') → (m ≫= g) h = g a h'.
Proof. intros E. unfold mbind, M_bind. by rewrite E. Qed.

Lemma bind_raise {A B} (m : M A) (g : A → M B) h e h' :
  m h = (Raise e, h') → (m ≫= g) h = (Raise e, h').
Proof. intros E. unfold mbind, M_bind. by rewrite E. Qed.

Lemma deref_lookup h r f : h !! r = Some f → deref h r = f.
Proof. intros E. unfold deref. by rewrite E. Qed.

(** Objects that exist keep their rows when the heap grows. *)
Lemma lookup_grow h k r f : h !! r = Some f → (h ++ k) !! r = Some f.
Proof. intros E. by apply lookup_app_l_Some. Qed.

Lemma lookup_new h f : (h ++ [f]) !! length h = Some f.
Proof. by rewrite list_lookup_middle. Qed.

Lemma frame_copy_run h df rows :
  h !! df = Some rows →
  frame_copy df h = (Ret (length h), h ++ [rows]).
Proof.
  intros E. unfold frame_copy, read, alloc, mbind, M_bind. cbv beta iota.
  by rewrite (deref_lookup _ _ _ E).
Qed.

Lemma getitem_mask_run h r f mask :
  h !! r = Some f →
  getitem_mask r mask h = (Ret (length h), h ++ [List.filter mask f]).
Proof.
  intros E. unfold getitem_mask, read, alloc, mbind, M_bind. cbv beta iota.
  by rewrite (deref_lookup _ _ _ E).
Qed.

Lemma to_date_ret x b h : bound_of x = Some b → to_date x h = (Ret b, h).
Proof.
  destruct x as [s|d|]; simpl; intros E.
  - unfold strptime_date. destruct (strptime s); simplify_eq/=. done.
  - by simplify_eq.
  - by simplify_eq.
Qed.

Lemma to_date_raise x h : bound_of x = None → to_date x h = (Raise ValueError, h).
Proof.
  destruct x as [s|d|]; simpl; intros E; try done.
  unfold strptime_date. by destruct (strptime s).
Qed.

Lemma narrow_run h r f vals col :
  h !! r = Some f →
  ∃ r' k,
    (if truthy vals
     then getitem_mask r (λ x, isin (values vals) (col x))
     else mret r) h = (Ret r', h ++ k)
    ∧ (h ++ k) !! r' = Some (narrow vals col f).
Proof.
  intros E. unfold narrow. destruct (truthy vals).
  - eexists _, _. split; [by apply getitem_mask_run|]. apply lookup_new.
  - exists r, []. rewrite app_nil_r. done.
Qed.

Lemma filter_try_ok h c rows cs1 cs2 cs3 cs4 x y s e :
  h !! c = Some rows →
  bound_of x = Some s → bound_of y = Some e →
  ∃ r k,
    filter_try c cs1 cs2 cs3 cs4 x y h = (Ret r, h ++ k)
    ∧ (h ++ k) !! r = Some (selected cs1 cs2 cs3 cs4 s e rows).
Proof.
  intros Hc Hx Hy. unfold filter_try, selected.
  rewrite (bind_ret _ _ _ _ _ (to_date_ret _ _ _ Hx)).
  rewrite (bind_ret _ _ _ _ _ (to_date_ret _ _ _ Hy)).
  rewrite (bind_ret _ _ _ _ _ (getitem_mask_run _ _ _ _ Hc)).
  set (f0 := List.filter _ rows).
  destruct (narrow_run _ _ _ cs1 continent (lookup_new h f0)) as (r1 & k1 & E1 & L1).
  rewrite (bind_ret _ _ _ _ _ E1).
  destruct (narrow_run _ _ _ cs2 country L1) as (r2 & k2 & E2 & L2).
  rewrite (bind_ret _ _ _ _ _ E2).
  destruct (narrow_run _ _ _ cs3 age_group L2) as (r3 & k3 & E3 & L3).
  rewrite (bind_ret _ _ _ _ _ E3).
  destruct (narrow_run _ _ _ cs4 request_type L3) as (r4 & k4 & E4 & L4).
  rewrite (bind_ret _ _ _ _ _ E4).
  exists r4, ([f0] ++ k1 ++ k2 ++ k3 ++ k4).
  rewrite !app_assoc. done.
Qed.

Lemma filter_try_raise h c cs1 cs2 cs3 cs4 x y :
  bound_of x = None ∨ bound_of y = None →
  filter_try c cs1 cs2 cs3 cs4 x y h = (Raise ValueError, h).
Proof.
  intros Hxy. unfold filter_try.
  destruct (bound_of x) as [s|] eqn:Hx.
  - destruct Hxy as [?|Hy]; [done|].
    rewrite (bind_ret _ _ _ _ _ (to_date_ret _ _ _ Hx)).
    by rewrite (bind_raise _ _ _ _ _ (to_date_raise _ _ Hy)).
  - by rewrite (bind_raise _ _ _ _ _ (to_date_raise _ _ Hx)).
Qed.

Lemma filter_dataframe_run h df rows cs1 cs2 cs3 cs4 x y :
  h !! df = Some rows →
  ∃ r k,
    filter_dataframe df cs1 cs2 cs3 cs4 x y h = (Ret r, h ++ k)
    ∧ (h ++ k) !! r = Some (kept cs1 cs2 cs3 cs4 x y rows)
    ∧ (bound_of x = None ∨ bound_of y = None → r = df).
Proof.
  intros Hdf. unfold filter_dataframe, kept.
  rewrite (bind_ret _ _ _ _ _ (frame_copy_run _ _ _ Hdf)).
  unfold try_except.
  destruct (bound_of x) as [s|] eqn:Hx; [destruct (bound_of y) as [e|] eqn:Hy|].
  - destruct (filter_try_ok (h ++ [rows]) (length h) rows cs1 cs2 cs3 cs4 x y s e
                (lookup_new h rows) Hx Hy) as (r & k & E & L).
    rewrite E. exists r, ([rows] ++ k). rewrite app_assoc.
    split; [done|]. split; [done|]. intros [?|?]; done.
  - rewrite filter_try_raise by (right; done).
    exists df, [rows]. split; [done|]. split; [by apply lookup_grow|done].
  - rewrite filter_try_raise by (left; done).
    exists df, [rows]. split; [done|]. split; [by apply lookup_grow|done].
Qed.

Lemma filtered_kept rows cs1 cs2 cs3 cs4 x y :
  filtered rows cs1 cs2 cs3 cs4 x y = kept cs1 cs2 cs3 cs4 x y rows.
Proof.
  unfold filtered.
  destruct (filter_dataframe_run [rows] 0%nat rows cs1 cs2 cs3 cs4 x y eq_refl)
    as (r & k & E & L & _).
  rewrite E. simpl. by apply deref_lookup.
Qed.

End FilterRun.

(** ** The filter engine *)

Lemma filter_sublist {A} (p : A → bool) (l : list A) : List.filter p l `sublist_of` l.
Proof.
  induction l as [|a l IH]; simpl; [constructor|].
  destruct (p a); by constructor.
Qed.

Lemma narrow_sublist vals col rows : narrow vals col rows `sublist_of` rows.
Proof. unfold narrow. destruct (truthy vals); [apply filter_sublist|done]. Qed.

Lemma kept_sublist cs1 cs2 cs3 cs4 x y rows :
  kept cs1 cs2 cs3 cs4 x y rows `sublist_of` rows.
Proof.
  unfold kept. destruct (bound_of x); [destruct (bound_of y)|]; try done.
  unfold selected.
  repeat (etrans; [apply narrow_sublist|]). apply filter_sublist.
Qed.

(** C1: whatever the criteria, [filter_dataframe] returns an object whose
    rows are a subsequence of the rows of [df] (same relative order, no row
    taken twice, so no duplicate among distinct rows), and every object that
    existed before the call, [df] included, has the rows it had. *)
Theorem filter_dataframe_subsequence (h : list (list row)) (df : nat) (rows : list row)
    (continents countries age_groups request_types : pylist)
    (start_date end_date : pyarg) :
  h !! df = Some rows →
  ∃ r h' out,
    filter_dataframe df continents countries age_groups request_types
      start_date end_date h = (Ret r, h')
    ∧ (∀ r0 f0, h !! r0 = Some f0 → h' !! r0 = Some f0)
    ∧ h' !! r = Some out
    ∧ out `sublist_of` rows
    ∧ (NoDup rows → NoDup out)
    ∧ out = filtered rows continents countries age_groups request_types
              start_date end_date.
Proof.
  intros Hdf.
  destruct (filter_dataframe_run h df rows continents countries age_groups
              request_types start_date end_date Hdf) as (r & k & E & L & _).
  exists r, (h ++ k), (kept continents countries age_groups request_types
                         start_date end_date rows).
  split; [done|]. split; [intros; by apply lookup_grow|]. split; [done|].
  split; [apply kept_sublist|]. split.
  - intros ND. eapply sublist_NoDup; [exact ND|apply kept_sublist].
  - by rewrite filtered_kept.
Qed.

Lemma filter_dataframe_subsequence_witness :
  ∃ r h' out,
    filter_dataframe 0%nat None (Some ["Canada"]) None None
      (PyStr "2023-01-01") (PyStr "2023-01-31") [sample_store] = (Ret r, h')
    ∧ (∀ r0 f0, [sample_store] !! r0 = Some f0 → h' !! r0 = Some f0)
    ∧ h' !! r = Some out
    ∧ out `sublist_of` sample_store
    ∧ (NoDup sample_store → NoDup out)
    ∧ out = filtered sample_store None (Some ["Canada"]) None None
              (PyStr "2023-01-01") (PyStr "2023-01-31").
Proof.
  apply (filter_dataframe_subsequence [sample_store] 0%nat sample_store).
  reflexivity.
Defined.

Lemma date_leb_refl d : date_leb d d = true.
Proof.
  unfold date_leb, date_compare. by rewrite !Z.compare_refl.
Qed.

Lemma narrow_falsy vals col rows : truthy vals = false → narrow vals col rows = rows.
Proof. intros E. unfold narrow. by rewrite E. Qed.

Lemma unparseable_bound x : unparseable x ↔ bound_of x = None.
Proof.
  split.
  - intros (s & -> & E). simpl. by rewrite E.
  - destruct x as [s| |]; simpl; try done.
    destruct (strptime s) eqn:E; [done|]. intros _. by exists s.
Qed.

Lemma filter_all {A} (p : A → bool) (l : list A) :
  (∀ a, a ∈ l → p a = true) → List.filter p l = l.
Proof.
  induction l as [|a l IH]; intros Hp; simpl; [done|].
  rewrite Hp by constructor. f_equal. apply IH. intros b Hb. apply Hp. by constructor.
Qed.

(** Without set criteria and with both bounds computed, the rows kept are
    those the date mask keeps. *)
Lemma kept_dates_only cs1 cs2 cs3 cs4 x y s e rows :
  truthy cs1 = false → truthy cs2 = false →
  truthy cs3 = false → truthy cs4 = false →
  bound_of x = Some s → bound_of y = Some e →
  kept cs1 cs2 cs3 cs4 x y rows
  = List.filter (λ r, date_ge (timestamp r) s && date_le (timestamp r) e) rows.
Proof.
  intros H1 H2 H3 H4 Hx Hy. unfold kept, selected. rewrite Hx, Hy.
  by rewrite !narrow_falsy.
Qed.

(** C2, amended: with the four sets empty and date bounds that cover the
    span of the store, [filter_dataframe] returns the store without the
    records whose timestamp is NaT; it returns exactly the store when every
    record has a parsed timestamp. *)
Theorem filter_identity_on_timestamped (rows : list row)
    (continents countries age_groups request_types : pylist)
    (start_date end_date : pyarg) (s e : date) :
  truthy continents = false → truthy countries = false →
  truthy age_groups = false → truthy request_types = false →
  bound_of start_date = Some (Some s) → bound_of end_date = Some (Some e) →
  covers_span s e rows = true →
  filtered rows continents countries age_groups request_types start_date end_date
  = List.filter has_timestamp rows
  ∧ (Forall (λ r, timestamp r ≠ None) rows →
     filtered rows continents countries age_groups request_types
       start_date end_date = rows).
Proof.
  intros H1 H2 H3 H4 Hx Hy Hc.
  rewrite filtered_kept, (kept_dates_only _ _ _ _ _ _ _ _ _ H1 H2 H3 H4 Hx Hy).
  assert (E : List.filter
                (λ r, date_ge (timestamp r) (Some s) && date_le (timestamp r) (Some e))
                rows = List.filter has_timestamp rows).
  { apply List.filter_ext_in. intros r Hr.
    unfold covers_span in Hc. rewrite forallb_forall in Hc. specialize (Hc r Hr).
    unfold has_timestamp, date_ge, date_le. by destruct (timestamp r). }
  rewrite E. split; [done|].
  intros Hall. apply filter_all. intros r Hr.
  rewrite Forall_forall in Hall. specialize (Hall r Hr).
  unfold has_timestamp. by destruct (timestamp r).
Qed.

Lemma filter_identity_on_timestamped_witness :
  filtered sample_store None (Some []) None None
    (PyStr "2023-01-01") (PyDate (jan 5))
  = List.filter has_timestamp sample_store
  ∧ (Forall (λ r, timestamp r ≠ None) sample_store →
     filtered sample_store None (Some []) None None
       (PyStr "2023-01-01") (PyDate (jan 5)) = sample_store).
Proof.
  apply (filter_identity_on_timestamped sample_store None (Some []) None None
           (PyStr "2023-01-01") (PyDate (jan 5)) (jan 1) (jan 5));
    reflexivity.
Defined.

(** C2 as stated fails: the range covers the span of the store and every
    set is empty, yet the record without a timestamp is dropped. *)
Lemma filter_identity_fails_with_NaT :
  covers_span (jan 1) (jan 1) store_with_NaT = true
  ∧ filtered store_with_NaT None None None None (PyDate (jan 1)) (PyDate (jan 1))
    ≠ store_with_NaT.
Proof. split; [reflexivity|]. vm_compute. discriminate. Qed.

(** C3: the date predicate keeps exactly the rows whose timestamp falls, as
    a date, in the closed interval: a record at any instant of day [d]
    passes the range [d, d].  In the scenario the range 2023-01-01 to
    2023-01-02 keeps the first two records, and the metrics are 2, 1, 1, 0. *)
Theorem date_range_closed_interval :
  (∀ (rows : list row) (s e : date),
     filtered rows None None None None (PyDate s) (PyDate e)
     = List.filter
         (λ r, match timestamp r with
               | Some t => date_leb s (ts_date t) && date_leb (ts_date t) e
               | None => false
               end) rows)
  ∧ (∀ d hh mm ss c a t,
       filtered [record_at d hh mm ss c a t] None None None None
         (PyDate d) (PyDate d) = [record_at d hh mm ss c a t])
  ∧ (∀ h1 m1 s1 h2 m2 s2 h3 m3 s3,
       filtered (scenario_store h1 m1 s1 h2 m2 s2 h3 m3 s3) None None None None
         (PyStr "2023-01-01") (PyStr "2023-01-02")
       = [ record_at (jan 1) h1 m1 s1 "United States" "25-34" "demo";
           record_at (jan 2) h2 m2 s2 "Canada" "35-44" "job" ]
       ∧ metric_counts
           (filtered (scenario_store h1 m1 s1 h2 m2 s2 h3 m3 s3) None None None None
              (PyStr "2023-01-01") (PyStr "2023-01-02"))
         = {| total_requests := 2; demo_requests := 1;
              job_placements := 1; ai_assistant := 0 |}
       ∧ update_metrics (scenario_store h1 m1 s1 h2 m2 s2 h3 m3 s3)
           None None None None (PyStr "2023-01-01") (PyStr "2023-01-02")
         = ("2", "1", "1", "0")).
Proof.
  split; [|split].
  - intros rows s e. rewrite filtered_kept.
    rewrite (kept_dates_only None None None None _ _ (Some s) (Some e)) by done.
    apply List.filter_ext. intros r. unfold date_ge, date_le.
    by destruct (timestamp r).
  - intros d hh mm ss c a t. rewrite filtered_kept.
    rewrite (kept_dates_only None None None None _ _ (Some d) (Some d)) by done.
    simpl. by rewrite date_leb_refl.
  - intros. repeat split; reflexivity.
Qed.

(** C5, amended: when a date bound is a string that does not parse,
    [filter_dataframe] returns [df] itself with its rows as they were: no
    predicate is applied, whatever the other criteria. *)
Theorem filter_fails_open (h : list (list row)) (df : nat) (rows : list row)
    (continents countries age_groups request_types : pylist)
    (start_date end_date : pyarg) :
  h !! df = Some rows →
  unparseable start_date ∨ unparseable end_date →
  ∃ h',
    filter_dataframe df continents countries age_groups request_types
      start_date end_date h = (Ret df, h')
    ∧ h' !! df = Some rows
    ∧ filtered rows continents countries age_groups request_types
        start_date end_date = rows.
Proof.
  intros Hdf Hbad. rewrite !unparseable_bound in Hbad.
  destruct (filter_dataframe_run h df rows continents countries age_groups
              request_types start_date end_date Hdf) as (r & k & E & L & Hr).
  specialize (Hr Hbad). subst r.
  exists (h ++ k). split; [done|]. split; [by apply lookup_grow|].
  rewrite filtered_kept. unfold kept.
  destruct Hbad as [-> | Hy]; [done|].
  rewrite Hy. by destruct (bound_of start_date).
Qed.

Lemma filter_fails_open_witness :
  ∃ h',
    filter_dataframe 0%nat None (Some ["Canada"]) None None
      (PyStr "2023-01-01T00:00:00") (PyStr "2023-12-31") [sample_store]
    = (Ret 0%nat, h')
    ∧ h' !! 0%nat = Some sample_store
    ∧ filtered sample_store None (Some ["Canada"]) None None
        (PyStr "2023-01-01T00:00:00") (PyStr "2023-12-31") = sample_store.
Proof.
  apply (filter_fails_open [sample_store] 0%nat sample_store);
    [reflexivity|].
  left. exists "2023-01-01T00:00:00". split; reflexivity.
Defined.

(** C5 as stated fails: the start bound does not parse, the earliest date
    of the store is 2023-01-01, and the result is not the one obtained
    with that date as the bound: the country criterion is not applied and
    the record of the United States is returned. *)
Lemma unparseable_bound_skips_predicates :
  strptime "first of January" = None
  ∧ filtered sample_store None (Some ["Canada"]) None None
      (PyStr "first of January") (PyStr "2023-12-31")
    ≠ filtered sample_store None (Some ["Canada"]) None None
        (PyStr "2023-01-01") (PyStr "2023-12-31")
  ∧ record_at (jan 1) 9 30 0 "United States" "25-34" "demo"
    ∈ filtered sample_store None (Some ["Canada"]) None None
        (PyStr "first of January") (PyStr "2023-12-31").
Proof.
  split; [reflexivity|]. split.
  - vm_compute. discriminate.
  - vm_compute. constructor.
Qed.

(** C10: when the [try] block of [filter_dataframe] returns normally, every
    row of the result has a parsed timestamp, whatever the criteria; so a
    store that holds a NaT timestamp is never returned whole on that path. *)
Theorem filter_try_drops_NaT (h : list (list row)) (df : nat) (rows : list row)
    (continents countries age_groups request_types : pylist)
    (start_date end_date : pyarg) (r : nat) (h' : list (list row)) :
  h !! df = Some rows →
  filter_try (length h) continents countries age_groups request_types
    start_date end_date (h ++ [rows]) = (Ret r, h') →
  filter_dataframe df continents countries age_groups request_types
    start_date end_date h = (Ret r, h')
  ∧ ∃ out,
      h' !! r = Some out
      ∧ Forall (λ x, timestamp x ≠ None) out
      ∧ (Exists (λ x, timestamp x = None) rows → out ≠ rows).
Proof.
  intros Hdf Htry.
  assert (Hrun : filter_dataframe df continents countries age_groups request_types
                   start_date end_date h = (Ret r, h')).
  { unfold filter_dataframe.
    rewrite (bind_ret _ _ _ _ _ (frame_copy_run _ _ _ Hdf)).
    unfold try_except. by rewrite Htry. }
  split; [done|].
  destruct (bound_of start_date) as [s|] eqn:Hx;
    [destruct (bound_of end_date) as [e|] eqn:Hy|].
  - destruct (filter_try_ok (h ++ [rows]) (length h) rows continents countries
                age_groups request_types start_date end_date s e
                (lookup_new h rows) Hx Hy) as (r1 & k & E & L).
    rewrite E in Htry. simplify_eq.
    eexists. split; [exact L|].
    assert (Hsub : selected continents countries age_groups request_types s e rows
                   `sublist_of`
                   List.filter
                     (λ x, date_ge (timestamp x) s && date_le (timestamp x) e) rows).
    { unfold selected. repeat (etrans; [apply narrow_sublist|]). done. }
    assert (Hts : Forall (λ x, timestamp x ≠ None)
                    (selected continents countries age_groups request_types s e rows)).
    { rewrite Forall_forall. intros x Hx'.
      assert (Hin : x ∈ List.filter
                (λ x, date_ge (timestamp x) s && date_le (timestamp x) e) rows)
        by (eapply elem_of_sublist; eauto).
      apply list_elem_of_In, List.filter_In in Hin. destruct Hin as [_ Hm].
      destruct (timestamp x); [done|]. simpl in Hm. discriminate. }
    split; [done|].
    intros Hex Heq. rewrite Heq in Hts.
    rewrite Exists_exists in Hex. destruct Hex as (x & Hin & Hnone).
    rewrite Forall_forall in Hts. by apply (Hts x Hin).
  - rewrite filter_try_raise in Htry by (right; done). discriminate.
  - rewrite filter_try_raise in Htry by (left; done). discriminate.
Qed.

Lemma filter_try_drops_NaT_witness :
  filter_dataframe 0%nat None None None None (PyDate (jan 1)) (PyDate (jan 1))
    [store_with_NaT]
  = (Ret 2%nat, [store_with_NaT; store_with_NaT;
                 [record_at (jan 1) 10 0 0 "Canada" "35-44" "job"]])
  ∧ ∃ out,
      [store_with_NaT; store_with_NaT;
       [record_at (jan 1) 10 0 0 "Canada" "35-44" "job"]] !! 2%nat = Some out
      ∧ Forall (λ x, timestamp x ≠ None) out
      ∧ (Exists (λ x, timestamp x = None) store_with_NaT → out ≠ store_with_NaT).
Proof.
  apply (filter_try_drops_NaT [store_with_NaT] 0%nat store_with_NaT
           None None None None (PyDate (jan 1)) (PyDate (jan 1))); reflexivity.
Defined.

(** ** Counting: [unique], [occurrences], [value_counts] *)

Section Counting.

Context {A : Type} `{EqDecision A}.

Implicit Types (l L : list A) (x v : A).

Lemma elem_of_filter_bool (p : A → bool) l x :
  x ∈ List.filter p l ↔ x ∈ l ∧ p x = true.
Proof. rewrite !list_elem_of_In. apply List.filter_In. Qed.

Lemma NoDup_filter_bool (p : A → bool) l : NoDup l → NoDup (List.filter p l).
Proof. intros ND. eapply sublist_NoDup; [exact ND|apply filter_sublist]. Qed.

Lemma elem_of_unique l x : x ∈ unique l ↔ x ∈ l.
Proof.
  induction l as [|a l IH]; simpl; [done|].
  rewrite !elem_of_cons, elem_of_filter_bool, IH.
  destruct (decide (x = a)) as [->|Hne]; [intuition|].
  rewrite bool_decide_eq_false_2 by done. simpl. intuition.
Qed.

Lemma unique_NoDup l : NoDup (unique l).
Proof.
  induction l as [|a l IH]; simpl; constructor.
  - rewrite elem_of_filter_bool. intros [_ Hne].
    by rewrite bool_decide_eq_true_2 in Hne.
  - by apply NoDup_filter_bool.
Qed.

Lemma occurrences_cons v x l :
  occurrences v (x :: l)
  = ((if bool_decide (x = v) then 1 else 0) + occurrences v l)%nat.
Proof. unfold occurrences. simpl. by destruct (bool_decide (x = v)). Qed.

Lemma occurrences_pos v l : (0 < occurrences v l)%nat ↔ v ∈ l.
Proof.
  induction l as [|a l IH]; [rewrite elem_of_nil; unfold occurrences; simpl; lia|].
  rewrite occurrences_cons, elem_of_cons.
  destruct (decide (a = v)) as [->|Hne].
  - rewrite bool_decide_eq_true_2 by done. split; [by left|lia].
  - rewrite bool_decide_eq_false_2 by done. simpl. rewrite IH.
    split; [by right|]. by intros [->|?].
Qed.

Lemma sum_indicator L x :
  NoDup L → x ∈ L →
  sum_list ((λ v, if bool_decide (x = v) then 1 else 0)%nat <$> L) = 1%nat.
Proof.
  induction 1 as [|a L Hni ND IH]; [by rewrite elem_of_nil|].
  rewrite elem_of_cons. intros Hx. simpl.
  destruct (decide (x = a)) as [->|Hne].
  - rewrite bool_decide_eq_true_2 by done.
    rewrite (sum_list_fmap_same 0 L); [lia|].
    rewrite Forall_forall. intros v Hv.
    rewrite bool_decide_eq_false_2; [done|]. by intros ->.
  - rewrite bool_decide_eq_false_2 by done. simpl. apply IH. by destruct Hx.
Qed.

Lemma sum_list_fmap_plus {B} (f g : B → nat) (L : list B) :
  sum_list ((λ b, f b + g b)%nat <$> L)
  = (sum_list (f <$> L) + sum_list (g <$> L))%nat.
Proof.
  induction L as [|b L IH]; [done|].
  rewrite !fmap_cons. simpl. rewrite IH. lia.
Qed.

(** Counting every value of a column once gives the length of the column. *)
Lemma sum_occurrences L l :
  NoDup L → (∀ x, x ∈ l → x ∈ L) →
  sum_list ((λ v, occurrences v l) <$> L) = length l.
Proof.
  intros ND. induction l as [|a l IH]; intros Hin.
  - rewrite (sum_list_fmap_same 0 L); [simpl; lia|]. by rewrite Forall_forall.
  - rewrite (list_fmap_ext _ (λ v, (if bool_decide (a = v) then 1 else 0)
                                   + occurrences v l)%nat L)
      by (intros; apply occurrences_cons).
    rewrite (sum_list_fmap_plus (λ v, if bool_decide (a = v) then 1 else 0)%nat
               (λ v, occurrences v l)).
    rewrite sum_indicator, IH; simpl; try done.
    + intros x Hx. apply Hin. by right.
    + apply Hin. by left.
Qed.

End Counting.

Lemma length_dropna {A} (col : list (option A)) :
  length col
  = (length (dropna col)
     + length (List.filter (λ c, bool_decide (c = None)) col))%nat
  .
Proof.
  unfold dropna, omap. induction col as [|[a|] col IH]; simpl in *; [done| |]; lia.
Qed.

(** The sort by descending count rearranges its rows and leaves them in
    descending order of the count. *)
Lemma insert_by_count_Permutation x l : insert_by_count x l ≡ₚ x :: l.
Proof.
  induction l as [|y l IH]; [done|]. simpl.
  destruct (decide (snd x < snd y)%nat); [|done].
  rewrite IH. apply perm_swap.
Qed.

Lemma sort_values_desc_Permutation table : sort_values_desc table ≡ₚ table.
Proof.
  induction table as [|x l IH]; [done|].
  unfold sort_values_desc. cbn [foldr]. fold (sort_values_desc l).
  rewrite insert_by_count_Permutation. by apply perm_skip.
Qed.

Lemma insert_by_count_sorted x l :
  StronglySorted by_count_desc l →
  StronglySorted by_count_desc (insert_by_count x l).
Proof.
  induction 1 as [|y l Hs IH Hy]; simpl; [repeat constructor|].
  destruct (decide (snd x < snd y)%nat) as [Hlt|Hge].
  - constructor; [done|].
    rewrite insert_by_count_Permutation.
    constructor; [unfold by_count_desc; lia|done].
  - constructor; [by constructor|].
    constructor; [unfold by_count_desc; lia|].
    eapply Forall_impl; [exact Hy|]. unfold by_count_desc. intros z Hz. lia.
Qed.

Lemma sort_values_desc_sorted table :
  StronglySorted by_count_desc (sort_values_desc table).
Proof.
  induction table as [|x l IH]; [constructor|].
  unfold sort_values_desc. cbn [foldr]. by apply insert_by_count_sorted.
Qed.


(** The rows of [value_counts], up to their order. *)
Lemma value_counts_Permutation col :
  value_counts col
  ≡ₚ (λ v, (v, occurrences v (dropna col))) <$> unique (dropna col).
Proof. unfold value_counts. apply sort_values_desc_Permutation. Qed.

(** The counts of [value_counts] add up to the number of cells present. *)
Lemma value_counts_sum col :
  sum_list (snd <$> value_counts col) = length (dropna col).
Proof.
  rewrite (value_counts_Permutation col), <- list_fmap_compose.
  apply sum_occurrences; [apply unique_NoDup|].
  intros x. by rewrite elem_of_unique.
Qed.

(** ** Metrics and the request-type distribution *)

Lemma filter_fmap_length {A B} (f : A → B) (p : B → bool) (l : list A) :
  length (List.filter p (f <$> l)) = length (List.filter (λ a, p (f a)) l).
Proof.
  induction l as [|a l IH]; [done|].
  rewrite fmap_cons. simpl. destruct (p (f a)); simpl; by rewrite IH.
Qed.

(** C4, amended: the total is the sum of the counts of the request-type
    distribution plus the number of records whose request type is missing
    (NaN), which [value_counts] leaves out; the records whose request type
    is none of demo, job, ai_assistant are in the total and in none of the
    three counters. *)
Theorem total_is_counts_plus_missing (filtered_df : list row) :
  total_requests (metric_counts filtered_df)
  = (sum_list (snd <$> request_type_counts filtered_df)
     + length (List.filter (λ r, bool_decide (request_type r = None)) filtered_df))%nat
  ∧ total_requests (metric_counts filtered_df)
    = (demo_requests (metric_counts filtered_df)
       + job_placements (metric_counts filtered_df)
       + ai_assistant (metric_counts filtered_df)
       + length (List.filter unnamed_request filtered_df))%nat.
Proof.
  split.
  - unfold request_type_counts. rewrite value_counts_sum. simpl.
    rewrite <- (length_fmap request_type filtered_df) at 1.
    rewrite (length_dropna (request_type <$> filtered_df)).
    by rewrite filter_fmap_length.
  - simpl. unfold count_requests, unnamed_request.
    induction filtered_df as [|r l IH]; simpl; [done|].
    destruct (request_type r) as [t|].
    + destruct (decide (t = "demo")) as [->|H1]; [simpl; lia|].
      destruct (decide (t = "job")) as [->|H2]; [simpl; lia|].
      destruct (decide (t = "ai_assistant")) as [->|H3]; [simpl; lia|].
      rewrite !bool_decide_eq_false_2 by congruence. simpl. lia.
    + simpl. lia.
Qed.

(** C4 as stated fails: a record of the filtered subset whose request type
    is missing is in the total and in no count of the distribution. *)
Lemma total_exceeds_counts_with_missing_type :
  total_requests
    (metric_counts
       (filtered [record_without_request_type (jan 1) 3] None None None None
          (PyStr "2023-01-01") (PyStr "2023-01-01"))) = 1%nat
  ∧ sum_list
      (snd <$> request_type_counts
         (filtered [record_without_request_type (jan 1) 3] None None None None
            (PyStr "2023-01-01") (PyStr "2023-01-01"))) = 0%nat.
Proof. split; reflexivity. Qed.

(** ** The age-group distribution *)

Lemma filter_Permutation_bool {A} (p : A → bool) (l1 l2 : list A) :
  l1 ≡ₚ l2 → List.filter p l1 ≡ₚ List.filter p l2.
Proof.
  induction 1 as [|a l1 l2 _ IH|a b l|l1 l2 l3 _ IH1 _ IH2]; simpl.
  - done.
  - destruct (p a); [by constructor|done].
  - destruct (p a), (p b); try done. constructor.
  - by etrans.
Qed.

Lemma filter_cons_bool {A} (p : A → bool) (a : A) (l : list A) :
  List.filter p (a :: l) = if p a then a :: List.filter p l else List.filter p l.
Proof. done. Qed.

Lemma Forall_filter_bool {A} (P : A → Prop) (p : A → bool) (l : list A) :
  Forall P l → Forall P (List.filter p l).
Proof.
  induction 1 as [|a l Ha _ IH]; simpl; [done|].
  destruct (p a); [by constructor|done].
Qed.

Lemma StronglySorted_filter_bool {A} (R : relation A) (p : A → bool) (l : list A) :
  StronglySorted R l → StronglySorted R (List.filter p l).
Proof.
  induction 1 as [|a l _ IH Ha]; simpl; [constructor|].
  destruct (p a); [|done]. constructor; [done|]. by apply Forall_filter_bool.
Qed.

#[local] Instance by_category_trans {B} cats : Transitive (@by_category B cats).
Proof. intros a b c. unfold by_category. lia. Qed.

#[local] Instance by_category_total {B} cats : Total (@by_category B cats).
Proof. intros a b. unfold by_category. lia. Qed.

(** Two categories with the same position are the same category. *)
Lemma code_inj cats g1 g2 :
  g1 ∈ cats → code cats (Some g1) = code cats (Some g2) → g1 = g2.
Proof.
  intros Hin. unfold code.
  destruct (list_find_elem_of (eq g1) cats g1 Hin eq_refl) as [[i y] E1].
  rewrite E1. simpl.
  apply list_find_Some in E1 as (Hi & -> & _).
  pose proof (lookup_lt_Some _ _ _ Hi) as Hlt.
  destruct (list_find (eq g2) cats) as [[j z]|] eqn:E2; simpl; [|lia].
  intros <-. apply list_find_Some in E2 as (Hj & -> & _).
  congruence.
Qed.

Lemma age_order_sorted :
  StronglySorted (λ a b, (code age_order (Some a) ≤ code age_order (Some b))%nat)
    age_order.
Proof.
  unfold age_order.
  repeat (apply SSorted_cons || apply List.Forall_cons || apply List.Forall_nil
          || apply SSorted_nil); vm_compute; lia.
Qed.

Section SortedPart.

Variables (n : string → nat) (U : list string) (vc : list (string * nat)).
Hypothesis U_NoDup : NoDup U.
Hypothesis vc_rows : vc ≡ₚ (λ v, (v, n v)) <$> U.

Let table : list (option string * nat) :=
  (λ p, (categorical age_order (fst p), snd p)) <$> vc.

Lemma categories_of_table :
  List.filter (λ p, negb (is_nan_cell p)) table
  ≡ₚ (λ v, (Some v, n v)) <$> List.filter (λ v, bool_decide (v ∈ age_order)) U.
Proof.
  unfold table.
  etrans; [apply filter_Permutation_bool, fmap_Permutation, vc_rows|].
  clear vc_rows U_NoDup.
  induction U as [|v l IH]; [done|].
  rewrite !fmap_cons, !filter_cons_bool.
  unfold is_nan_cell at 1, categorical at 1 2. cbn [fst snd].
  destruct (bool_decide (v ∈ age_order)); cbn [negb fst].
  - rewrite fmap_cons. by apply perm_skip.
  - done.
Qed.

Lemma nan_rows_of_table :
  Forall (λ p, fst p = None) (List.filter is_nan_cell table).
Proof.
  rewrite Forall_forall. intros p Hp.
  apply list_elem_of_In, List.filter_In in Hp as [_ Hp].
  unfold is_nan_cell in Hp. by destruct (fst p).
Qed.

(** The rows with a category, after [sort_values]: the categories that
    occur, in the order of the categories. *)
Lemma sorted_part :
  merge_sort (by_category age_order)
    (List.filter (λ p, negb (is_nan_cell p)) table)
  = (λ g, (Some g, n g)) <$> List.filter (λ g, bool_decide (g ∈ U)) age_order.
Proof.
  assert (Hperm :
    merge_sort (by_category age_order)
      (List.filter (λ p, negb (is_nan_cell p)) table)
    ≡ₚ (λ g, (Some g, n g)) <$> List.filter (λ g, bool_decide (g ∈ U)) age_order).
  { rewrite merge_sort_Permutation, categories_of_table.
    apply fmap_Permutation, NoDup_Permutation.
    - by apply NoDup_filter_bool.
    - apply NoDup_filter_bool. unfold age_order.
      apply NoDup_ListNoDup. repeat constructor; vm_compute; intuition discriminate.
    - intros x. rewrite !elem_of_filter_bool, !bool_decide_eq_true. tauto. }
  apply (StronglySorted_unique_strong (by_category age_order)).
  - intros x1 x2 H1 H2 R12 R21.
    apply list_elem_of_fmap in H2 as (g2 & -> & H2).
    rewrite Hperm in H1.
    apply list_elem_of_fmap in H1 as (g1 & -> & H1).
    apply elem_of_filter_bool in H1 as [H1 _].
    unfold by_category in R12, R21. cbn [fst] in R12, R21.
    assert (g1 = g2) as -> by (apply (code_inj age_order); [done|lia]).
    done.
  - apply StronglySorted_merge_sort; apply _.
  - eapply StronglySorted_fmap; [|apply StronglySorted_filter_bool, age_order_sorted].
    intros x y Hxy. exact Hxy.
  - exact Hperm.
Qed.

End SortedPart.

Lemma occurrences_dropna {A} `{EqDecision A} (v : A) (col : list (option A)) :
  occurrences v (dropna col)
  = length (List.filter (λ c, bool_decide (c = Some v)) col).
Proof.
  unfold occurrences, dropna, omap.
  induction col as [|[a|] col IH]; simpl in *; [done| |done].
  destruct (decide (a = v)) as [->|Hne].
  - rewrite !bool_decide_eq_true_2 by done. simpl. by rewrite IH.
  - rewrite !bool_decide_eq_false_2 by congruence. done.
Qed.

Lemma count_age_occurrences g rows :
  count_age g rows = occurrences g (dropna (age_group <$> rows)).
Proof.
  unfold count_age. by rewrite occurrences_dropna, filter_fmap_length.
Qed.

Lemma count_age_pos g rows r :
  r ∈ rows → age_group r = Some g → (0 < count_age g rows)%nat.
Proof.
  intros Hin Hg. unfold count_age.
  assert (Hr : r ∈ List.filter (λ r, bool_decide (age_group r = Some g)) rows).
  { apply elem_of_filter_bool. split; [done|]. by apply bool_decide_eq_true. }
  destruct (List.filter _ rows); [by apply elem_of_nil in Hr|simpl; lia].
Qed.

Lemma count_age_Permutation g rows other :
  other ≡ₚ rows → count_age g other = count_age g rows.
Proof.
  intros Hp. unfold count_age.
  apply Permutation_length. by apply filter_Permutation_bool.
Qed.

(** The table of the age-group chart: the groups of [age_order] that occur,
    in that order, then the rows whose group is not in [age_order]. *)
Lemma age_group_counts_shape rows :
  ∃ nan_rows,
    age_group_counts rows = ordered_age_rows rows ++ nan_rows
    ∧ Forall (λ p, fst p = None) nan_rows.
Proof.
  unfold age_group_counts, sort_values_categorical.
  set (col := age_group <$> rows).
  eexists. split; [|apply nan_rows_of_table].
  f_equal.
  rewrite (sorted_part (λ v, occurrences v (dropna col)) (unique (dropna col)))
    by (apply unique_NoDup || apply value_counts_Permutation).
  unfold ordered_age_rows.
  rewrite (List.filter_ext (λ g, (0 <? count_age g rows)%nat)
             (λ g, bool_decide (g ∈ unique (dropna col)))).
  - apply list_fmap_ext. intros _ g _. by rewrite count_age_occurrences.
  - intros g. rewrite count_age_occurrences. fold col.
    destruct (decide (g ∈ unique (dropna col))) as [Hin|Hni].
    + rewrite bool_decide_eq_true_2 by done.
      apply Nat.ltb_lt, occurrences_pos. by apply elem_of_unique.
    + rewrite bool_decide_eq_false_2 by done.
      apply Nat.ltb_ge. rewrite elem_of_unique, <- occurrences_pos in Hni. lia.
Qed.

(** C6: the table of the age-group chart lists the age groups that occur in
    the subset in the order 18-24, 25-34, 35-44, 45-54, 55-64, 65+, each
    with its number of records, before any row for a value outside these
    groups; a group without a record has no row; when the six groups occur
    the first six rows are the six groups in that order; and the rows of
    the groups do not depend on the order of the records. *)
Theorem age_groups_in_fixed_order (filtered_df : list row) :
  (∃ nan_rows,
     age_group_counts filtered_df = ordered_age_rows filtered_df ++ nan_rows
     ∧ Forall (λ p, fst p = None) nan_rows)
  ∧ (∀ g, count_age g filtered_df = 0%nat →
       Some g ∉ (fst <$> age_group_counts filtered_df))
  ∧ ((∀ g, g ∈ age_order → ∃ r, r ∈ filtered_df ∧ age_group r = Some g) →
     fst <$> take 6 (age_group_counts filtered_df) = Some <$> age_order)
  ∧ (∀ other, other ≡ₚ filtered_df →
       ordered_age_rows other = ordered_age_rows filtered_df).
Proof.
  destruct (age_group_counts_shape filtered_df) as (nan_rows & E & Hnan).
  split; [by exists nan_rows|]. split; [|split].
  - intros g Hg.
    rewrite E, fmap_app, elem_of_app. intros [Hin|Hin].
    + unfold ordered_age_rows in Hin. rewrite <- list_fmap_compose in Hin.
      apply list_elem_of_fmap in Hin as (g' & Heq & Hin). simpl in Heq.
      injection Heq as <-.
      apply elem_of_filter_bool in Hin as [_ Hpos].
      apply Nat.ltb_lt in Hpos. lia.
    + apply list_elem_of_fmap in Hin as (p & Hp & Hin).
      rewrite Forall_forall in Hnan. rewrite (Hnan p Hin) in Hp. discriminate.
  - intros Hall. rewrite E. unfold ordered_age_rows.
    rewrite (filter_all _ age_order).
    + reflexivity.
    + intros g Hg. destruct (Hall g Hg) as (r & Hr & Hrg).
      apply Nat.ltb_lt. by apply (count_age_pos g filtered_df r).
  - intros other Hp. unfold ordered_age_rows.
    rewrite (List.filter_ext (λ g, (0 <? count_age g other)%nat)
               (λ g, (0 <? count_age g filtered_df)%nat))
      by (intros g; by rewrite (count_age_Permutation g filtered_df other)).
    apply list_fmap_ext. intros _ g _.
    by rewrite (count_age_Permutation g filtered_df other).
Qed.

Lemma age_groups_in_fixed_order_witness :
  fst <$> take 6 (age_group_counts six_groups_shuffled) = Some <$> age_order.
Proof.
  apply (proj1 (proj2 (proj2 (age_groups_in_fixed_order six_groups_shuffled)))).
  intros g Hg.
  exists (record_at (jan 1) 8 0 0 "Canada" g "demo"). split; [|reflexivity].
  unfold six_groups_shuffled. apply list_elem_of_fmap. exists g. split; [done|].
  unfold age_order in Hg.
  repeat (apply elem_of_cons in Hg as [->|Hg]); [..|by apply elem_of_nil in Hg];
    apply list_elem_of_In; simpl; tauto.
Defined.

(** ** The statistics table *)

Lemma idxmax_spec (l : list nat) :
  l ≠ [] →
  ∃ i m, idxmax l = Some i ∧ l !! i = Some m
         ∧ ∀ j x, l !! j = Some x → (x ≤ m)%nat ∧ (x = m → (i ≤ j)%nat).
Proof.
  induction l as [|x l IH]; [done|]. intros _. simpl.
  destruct l as [|y l].
  - exists 0%nat, x. simpl. split; [done|]. split; [done|].
    intros [|j] x'; simpl; [|done]. intros [= ->]. split; [lia|]. intros _. lia.
  - destruct IH as (i & m & Ei & Hi & Hmax); [done|].
    rewrite Ei. rewrite (list_lookup_total_correct _ _ _ Hi).
    destruct (Nat.leb_spec m x) as [Hle|Hgt].
    + exists 0%nat, x. split; [done|]. split; [done|].
      intros [|j] x' Hj.
      * injection Hj as ->. split; [lia|]. intros _. lia.
      * destruct (Hmax j x' Hj) as [Hx _]. split; lia.
    + exists (S i), m. split; [done|]. split; [done|].
      intros [|j] x' Hj.
      * injection Hj as ->. split; lia.
      * destruct (Hmax j x' Hj) as [Hx Heq]. split; [done|].
        intros E. specialize (Heq E). lia.
Qed.







Lemma cell_eq_Some cell t : cell_eq cell (Some t) = bool_decide (cell = Some t).
Proof.
  destruct cell as [a|]; simpl; [|done].
  destruct (decide (a = t)) as [->|Hne].
  - by rewrite !bool_decide_eq_true_2.
  - rewrite !bool_decide_eq_false_2; [done|congruence|done].
Qed.

Lemma req_df_length rows t :
  length (List.filter (λ r, cell_eq (request_type r) (Some t)) rows)
  = count_requests t rows.
Proof.
  unfold count_requests. f_equal. apply List.filter_ext.
  intros r. apply cell_eq_Some.
Qed.

(** The count of one row of [hourly_counts] is the size of its bucket. *)
Lemma occurrences_bucket rows t h :
  occurrences h
    (dropna (hour <$> List.filter (λ r, cell_eq (request_type r) (Some t)) rows))
  = bucket rows t h.
Proof. unfold bucket. by rewrite occurrences_dropna, filter_fmap_length. Qed.

Section HourlyCounts.

Variables (rows : list row) (t : string).

Let ks : list Z :=
  dropna (hour <$> List.filter (λ r, cell_eq (request_type r) (Some t)) rows).

Let hours : list Z := merge_sort Z.le (unique ks).

Lemma hourly_counts_rows :
  hourly_counts rows (Some t) = (λ h, (h, bucket rows t h)) <$> hours.
Proof.
  unfold hourly_counts, groupby_size. apply list_fmap_ext.
  intros _ h _. by rewrite occurrences_bucket.
Qed.

Lemma elem_of_hours h : h ∈ hours ↔ (0 < bucket rows t h)%nat.
Proof.
  unfold hours. rewrite merge_sort_Permutation, elem_of_unique.
  by rewrite <- occurrences_bucket, occurrences_pos.
Qed.


End HourlyCounts.


(** ** Registration *)

Lemma email_registered_spec (users : gmap string account) (email : string) :
  email_registered users email = true
  ↔ ∃ k a, users !! k = Some a ∧ acc_email a = Some email.
Proof.
  unfold email_registered. rewrite existsb_exists. split.
  - intros ([k a] & Hin & Hb). exists k, a.
    apply list_elem_of_In, elem_of_map_to_list in Hin.
    by apply bool_decide_eq_true in Hb.
  - intros (k & a & Hk & Ha). exists (k, a). split.
    + by apply list_elem_of_In, elem_of_map_to_list.
    + by apply bool_decide_eq_true.
Qed.

Lemma email_not_registered (users : gmap string account) (email : string) :
  (∀ k a, users !! k = Some a → acc_email a ≠ Some email) →
  email_registered users email = false.
Proof.
  intros Hno. destruct (email_registered users email) eqn:E; [|done].
  apply email_registered_spec in E as (k & a & Hk & Ha).
  by destruct (Hno k a Hk).
Qed.

Lemma blank_Some (s : string) : s ≠ "" → blank (Some s) = false.
Proof. intros H. simpl. by apply bool_decide_eq_false. Qed.

(** Runs [register_user] past the checks of the fields and of the two
    passwords, when the fields are filled and the passwords agree. *)
Ltac pass_validation Hn :=
  unfold register_user; rewrite Hn;
  rewrite !blank_Some by done; simpl;
  rewrite (bool_decide_eq_true_2 (Some _ = Some _)) by done; simpl.

(** What a successful registration tells about its inputs. *)
Lemma register_user_Registered n u e p c st st1 :
  register_user n u e p c st = (Registered, st1) →
  ∃ un em pw,
    u = Some un ∧ e = Some em ∧ p = Some pw ∧ c = Some pw
    ∧ un ≠ "" ∧ em ≠ "" ∧ pw ≠ ""
    ∧ st1 = registered un em pw st.
Proof.
  unfold register_user.
  destruct (0 <? n); [|discriminate].
  destruct (blank u || blank e || blank p || blank c) eqn:Hb; [discriminate|].
  apply orb_false_iff in Hb as [Hb Hc]. apply orb_false_iff in Hb as [Hb Hp].
  apply orb_false_iff in Hb as [Hu He].
  destruct u as [un|], e as [em|], p as [pw|], c as [cw|]; try discriminate.
  simpl in Hu, He, Hp. apply bool_decide_eq_false in Hu, He, Hp.
  destruct (decide (Some pw = Some cw)) as [Hpc|Hpc].
  - rewrite (bool_decide_eq_true_2 _ Hpc). simpl.
    destruct (bool_decide (is_Some (USERS st !! un))); [discriminate|].
    destruct (email_registered (USERS st) em); [discriminate|].
    unfold save_users. simpl. destruct (next_save st); [|discriminate..].
    intros [= <-]. injection Hpc as <-. by exists un, em, pw.
  - rewrite (bool_decide_eq_false_2 _ Hpc). simpl. discriminate.
Qed.

(** C8, amended: a submitted registration is checked in this order: a
    missing field gives FieldMissing; otherwise differing passwords give
    PasswordMismatch; otherwise a username already present gives
    DuplicateUsername; otherwise an email already present on some account
    gives DuplicateEmail; otherwise, when the credential file can be
    written, the new account is added, the dictionary is saved and the
    registration succeeds.  After a successful registration, the same
    username is refused with DuplicateUsername, and another username with
    the same email is refused with DuplicateEmail. *)
Theorem register_user_outcomes (n : Z) (u e p c : option string) (st : store) :
  0 < n →
  (blank u = true ∨ blank e = true ∨ blank p = true ∨ blank c = true →
   register_user n u e p c st = (FieldMissing, st))
  ∧ (∀ un em pw cw,
       u = Some un → e = Some em → p = Some pw → c = Some cw →
       un ≠ "" → em ≠ "" → pw ≠ "" → cw ≠ "" →
       (pw ≠ cw → register_user n u e p c st = (PasswordMismatch, st))
       ∧ (pw = cw → is_Some (USERS st !! un) →
          register_user n u e p c st = (DuplicateUsername un, st))
       ∧ (pw = cw → USERS st !! un = None →
          (∃ k a, USERS st !! k = Some a ∧ acc_email a = Some em) →
          register_user n u e p c st = (DuplicateEmail em, st))
       ∧ (pw = cw → USERS st !! un = None →
          (∀ k a, USERS st !! k = Some a → acc_email a ≠ Some em) →
          writable st = true →
          register_user n u e p c st = (Registered, registered un em pw st)))
  ∧ (∀ st1,
       register_user n u e p c st = (Registered, st1) →
       ∃ un em,
         u = Some un ∧ e = Some em
         ∧ (∀ em' pw', em' ≠ "" → pw' ≠ "" →
            register_user n (Some un) (Some em') (Some pw') (Some pw') st1
            = (DuplicateUsername un, st1))
         ∧ (∀ un' pw', un' ≠ "" → pw' ≠ "" → USERS st1 !! un' = None →
            register_user n (Some un') (Some em) (Some pw') (Some pw') st1
            = (DuplicateEmail em, st1))).
Proof.
  intros Hn. apply Z.ltb_lt in Hn.
  assert (Hdup : ∀ un em pw st0,
            un ≠ "" → em ≠ "" → pw ≠ "" → is_Some (USERS st0 !! un) →
            register_user n (Some un) (Some em) (Some pw) (Some pw) st0
            = (DuplicateUsername un, st0)).
  { intros un em pw st0 Hu He Hp Hin. pass_validation Hn.
    by rewrite (bool_decide_eq_true_2 _ Hin). }
  assert (Hmail : ∀ un em pw st0,
            un ≠ "" → em ≠ "" → pw ≠ "" → USERS st0 !! un = None →
            (∃ k a, USERS st0 !! k = Some a ∧ acc_email a = Some em) →
            register_user n (Some un) (Some em) (Some pw) (Some pw) st0
            = (DuplicateEmail em, st0)).
  { intros un em pw st0 Hu He Hp Hnone Hex. pass_validation Hn.
    rewrite bool_decide_eq_false_2 by (rewrite Hnone; by intros [? ?]).
    apply email_registered_spec in Hex. by rewrite Hex. }
  split; [|split].
  - intros Hb. unfold register_user. rewrite Hn.
    assert (E : blank u || blank e || blank p || blank c = true).
    { destruct Hb as [-> | [-> | [-> | ->]]]; by rewrite ?orb_true_r. }
    by rewrite E.
  - intros un em pw cw -> -> -> -> Hu He Hp Hc.
    split; [|split; [|split]].
    + intros Hne. unfold register_user. rewrite Hn.
      rewrite !blank_Some by done. simpl.
      by rewrite bool_decide_eq_false_2 by congruence.
    + intros <- Hin. by apply Hdup.
    + intros <- Hnone Hex. by apply Hmail.
    + intros <- Hnone Hno Hw. pass_validation Hn.
      rewrite bool_decide_eq_false_2 by (rewrite Hnone; by intros [? ?]).
      rewrite (email_not_registered _ _ Hno).
      unfold writable in Hw. unfold save_users. simpl.
      by destruct (next_save st).
  - intros st1 Hreg.
    apply register_user_Registered in Hreg
      as (un & em & pw & -> & -> & -> & -> & Hu & He & Hp & ->).
    exists un, em. split; [done|]. split; [done|]. split.
    + intros em' pw' He' Hp'. apply Hdup; try done.
      simpl. rewrite lookup_insert_eq. by eexists.
    + intros un' pw' Hu' Hp' Hnone. apply Hmail; try done.
      exists un, (Account un un pw (Some em)). simpl.
      by rewrite lookup_insert_eq.
Qed.

Lemma register_user_outcomes_witness :
  register_user 1 (Some "alice") (Some "alice@example.com")
    (Some "secret") (Some "secret") fresh_store
  = (Registered, registered "alice" "alice@example.com" "secret" fresh_store)
  ∧ register_user 1 (Some "alice") (Some "alice@example.com")
      (Some "secret") (Some "secret")
      (registered "alice" "alice@example.com" "secret" fresh_store)
    = (DuplicateUsername "alice",
       registered "alice" "alice@example.com" "secret" fresh_store)
  ∧ register_user 1 (Some "bob") (Some "alice@example.com")
      (Some "hunter2") (Some "hunter2")
      (registered "alice" "alice@example.com" "secret" fresh_store)
    = (DuplicateEmail "alice@example.com",
       registered "alice" "alice@example.com" "secret" fresh_store).
Proof.
  assert (H1 : (0 < 1)%Z) by lia.
  assert (Hreg :
    register_user 1 (Some "alice") (Some "alice@example.com")
      (Some "secret") (Some "secret") fresh_store
    = (Registered, registered "alice" "alice@example.com" "secret" fresh_store)).
  { apply (proj1 (proj2 (register_user_outcomes 1 (Some "alice")
             (Some "alice@example.com") (Some "secret") (Some "secret")
             fresh_store H1)) "alice" "alice@example.com" "secret" "secret");
      try done.
    intros k a Hk. unfold fresh_store, default_users in Hk. simpl in Hk.
    apply lookup_insert_Some in Hk as [[_ <-]|[_ Hk]]; [done|].
    apply lookup_insert_Some in Hk as [[_ <-]|[_ Hk]]; [done|].
    by rewrite lookup_empty in Hk. }
  split; [exact Hreg|].
  destruct (proj2 (proj2 (register_user_outcomes 1 (Some "alice")
             (Some "alice@example.com") (Some "secret") (Some "secret")
             fresh_store H1)) _ Hreg) as (un & em & Eu & Ee & Hsame & Hother).
  injection Eu as <-. injection Ee as <-.
  split.
  - by apply Hsame.
  - by apply Hother.
Defined.

(** C8 as stated fails: the username is already present, yet the answer is
    PasswordMismatch, not DuplicateUsername: the passwords are compared
    before the username is looked up. *)
Lemma register_taken_username_mismatch :
  is_Some (USERS fresh_store !! "admin")
  ∧ register_user 1 (Some "admin") (Some "new@example.com")
      (Some "secret") (Some "secrte") fresh_store
    = (PasswordMismatch, fresh_store)
  ∧ fst (register_user 1 (Some "admin") (Some "new@example.com")
           (Some "secret") (Some "secrte") fresh_store)
    ≠ DuplicateUsername "admin".
Proof.
  split; [by eexists|]. split; [reflexivity|]. simpl. discriminate.
Qed.

(** ** Page routing and login *)

Lemma run_app evs1 evs2 cfg : run (evs1 ++ evs2) cfg = run evs2 (run evs1 cfg).
Proof. unfold run. apply fold_left_app. Qed.

(** C9, amended: a login with matching credentials records the user and
    sends the session to the dashboard page, a login without them sends it
    to the login page; but the dashboard is not gated: after any sequence
    of events, going to the path /dashboard shows the dashboard content,
    and does so without changing who is authenticated, if anyone. *)
Theorem dashboard_not_gated (st : store) (s : session) :
  (∀ evs,
     content (run (evs ++ [Navigate "/dashboard"]) (st, s)) = dashboard_layout
     ∧ current_user (snd (run (evs ++ [Navigate "/dashboard"]) (st, s)))
       = current_user (snd (run evs (st, s))))
  ∧ (∀ n u p a,
       0 < n → USERS st !! u = Some a → acc_password a = p →
       step (SubmitLogin n (Some u) (Some p)) (st, s)
       = (st, {| current_user := Some (acc_id a); pathname := "/dashboard" |}))
  ∧ (∀ n u p,
       0 < n →
       (∀ un a, u = Some un → USERS st !! un = Some a → Some (acc_password a) ≠ p) →
       step (SubmitLogin n u p) (st, s)
       = (st, {| current_user := current_user s; pathname := "/login" |})).
Proof.
  split; [|split].
  - intros evs. rewrite run_app.
    destruct (run evs (st, s)) as [st' s']. done.
  - intros n u p a Hn Hu Hp. apply Z.ltb_lt in Hn.
    simpl. unfold login. rewrite Hn, Hu.
    by rewrite bool_decide_eq_true_2 by congruence.
  - intros n u p Hn Hbad. apply Z.ltb_lt in Hn.
    simpl. unfold login. rewrite Hn.
    destruct u as [un|]; [|by destruct s].
    destruct (USERS st !! un) as [a|] eqn:Ha; [|by destruct s].
    rewrite bool_decide_eq_false_2 by (by apply (Hbad un a)).
    by destruct s.
Qed.

Lemma dashboard_not_gated_witness :
  step (SubmitLogin 1 (Some "admin") (Some "password123")) (fresh_store, new_session)
  = (fresh_store, {| current_user := Some "admin"; pathname := "/dashboard" |})
  ∧ step (SubmitLogin 1 (Some "admin") (Some "letmein")) (fresh_store, new_session)
    = (fresh_store, {| current_user := None; pathname := "/login" |}).
Proof.
  split.
  - apply (proj1 (proj2 (dashboard_not_gated fresh_store new_session))
             1 "admin" "password123"
             (Account "admin" "admin" "password123" (Some "admin@example.com")));
      [lia|reflexivity|reflexivity].
  - apply (proj2 (proj2 (dashboard_not_gated fresh_store new_session))
             1 (Some "admin") (Some "letmein")); [lia|].
    intros un a [= <-] Ha. vm_compute in Ha. injection Ha as <-. discriminate.
Defined.

(** C9 as stated fails: a new session that never logged in goes to the
    path /dashboard and is shown the dashboard content. *)
Lemma dashboard_without_login :
  current_user (snd (run [Navigate "/dashboard"] (fresh_store, new_session))) = None
  ∧ content (run [Navigate "/dashboard"] (fresh_store, new_session))
    = dashboard_layout.
Proof. split; reflexivity. Qed.

(** * Further properties *)

(** ** The order of dates *)

Lemma date_leb_spec (a b : date) :
  date_leb a b = true
  ↔ year a < year b
    ∨ (year a = year b
       ∧ (month a < month b ∨ (month a = month b ∧ day a ≤ day b))).
Proof.
  unfold date_leb, date_compare.
  destruct (Z.compare_spec (year a) (year b));
    destruct (Z.compare_spec (month a) (month b));
    destruct (Z.compare_spec (day a) (day b)); split; intros; try done; lia.
Qed.

Lemma date_leb_trans (a b c : date) :
  date_leb a b = true → date_leb b c = true → date_leb a c = true.
Proof. rewrite !date_leb_spec. lia. Qed.

Lemma date_leb_total (a b : date) : date_leb a b = true ∨ date_leb b a = true.
Proof. rewrite !date_leb_spec. lia. Qed.

Lemma date_leb_antisym (a b : date) :
  date_leb a b = true → date_leb b a = true → a = b.
Proof.
  rewrite !date_leb_spec. destruct a, b. simpl. intros H1 H2.
  f_equal; lia.
Qed.

#[local] Instance date_lte_trans : Transitive date_lte.
Proof. intros a b c. apply date_leb_trans. Qed.

#[local] Instance date_lte_total : Total date_lte.
Proof. intros a b. apply date_leb_total. Qed.

#[local] Instance date_lte_refl : Reflexive date_lte.
Proof. intros a. apply date_leb_refl. Qed.

(** ** The filter in one pass *)

Lemma filter_filter_bool {A} (f g : A → bool) (l : list A) :
  List.filter f (List.filter g l) = List.filter (λ x, g x && f x) l.
Proof.
  induction l as [|a l IH]; [done|].
  rewrite !filter_cons_bool. destruct (g a); cbn [andb].
  - rewrite filter_cons_bool. destruct (f a); by rewrite IH.
  - done.
Qed.

Lemma filter_sublist_impl {A} (f g : A → bool) (l : list A) :
  (∀ x, f x = true → g x = true) →
  List.filter f l `sublist_of` List.filter g l.
Proof.
  intros Hfg. induction l as [|a l IH]; [done|].
  rewrite !filter_cons_bool. destruct (f a) eqn:Ef.
  - rewrite (Hfg a Ef). by constructor.
  - destruct (g a); [by constructor|done].
Qed.

Lemma narrow_passes vals col rows :
  narrow vals col rows = List.filter (λ r, passes vals (col r)) rows.
Proof.
  unfold narrow, passes. destruct (truthy vals); simpl; [done|].
  symmetry. by apply filter_all.
Qed.

Lemma selected_matches c1 c2 c3 c4 s e rows :
  selected c1 c2 c3 c4 s e rows = List.filter (matches c1 c2 c3 c4 s e) rows.
Proof.
  unfold selected. rewrite !narrow_passes, !filter_filter_bool.
  apply List.filter_ext. intros r. unfold matches.
  by rewrite !andb_assoc.
Qed.

(** X1: filtering the result of a filter with the same criteria changes
    nothing, on the normal path and on the fail-open path alike. *)
Theorem filtered_idempotent (rows : list row)
    (continents countries age_groups request_types : pylist)
    (start_date end_date : pyarg) :
  filtered
    (filtered rows continents countries age_groups request_types
       start_date end_date)
    continents countries age_groups request_types start_date end_date
  = filtered rows continents countries age_groups request_types
      start_date end_date.
Proof.
  rewrite !filtered_kept. unfold kept.
  destruct (bound_of start_date) as [s|]; [|done].
  destruct (bound_of end_date) as [e|]; [|done].
  rewrite !selected_matches, filter_filter_bool.
  apply List.filter_ext. intros r. by destruct (matches _ _ _ _ _ _ r).
Qed.

(** X2: when both date bounds are computed, the five successive masks of
    [filter_dataframe] amount to one pass with the conjunction of the five
    predicates, so the order in which they are applied does not matter: a
    row is returned exactly when it is in [df] and passes all five. *)
Theorem filter_single_pass (rows : list row)
    (continents countries age_groups request_types : pylist)
    (start_date end_date : pyarg) (s e : option date) :
  bound_of start_date = Some s → bound_of end_date = Some e →
  filtered rows continents countries age_groups request_types
    start_date end_date
  = List.filter (matches continents countries age_groups request_types s e) rows
  ∧ ∀ r, r ∈ filtered rows continents countries age_groups request_types
               start_date end_date
         ↔ r ∈ rows
           ∧ date_ge (timestamp r) s = true ∧ date_le (timestamp r) e = true
           ∧ passes continents (continent r) = true
           ∧ passes countries (country r) = true
           ∧ passes age_groups (age_group r) = true
           ∧ passes request_types (request_type r) = true.
Proof.
  intros Hx Hy.
  assert (E : filtered rows continents countries age_groups request_types
                start_date end_date
              = List.filter
                  (matches continents countries age_groups request_types s e) rows).
  { rewrite filtered_kept. unfold kept. rewrite Hx, Hy. apply selected_matches. }
  split; [done|]. intros r. rewrite E, elem_of_filter_bool. unfold matches.
  rewrite !andb_true_iff. tauto.
Qed.

Lemma filter_single_pass_witness :
  filtered sample_store None (Some ["Canada"]) None None
    (PyStr "2023-01-01") (PyDate (jan 31))
  = List.filter
      (matches None (Some ["Canada"]) None None (Some (jan 1)) (Some (jan 31)))
      sample_store
  ∧ ∀ r, r ∈ filtered sample_store None (Some ["Canada"]) None None
               (PyStr "2023-01-01") (PyDate (jan 31))
         ↔ r ∈ sample_store
           ∧ date_ge (timestamp r) (Some (jan 1)) = true
           ∧ date_le (timestamp r) (Some (jan 31)) = true
           ∧ passes None (continent r) = true
           ∧ passes (Some ["Canada"]) (country r) = true
           ∧ passes None (age_group r) = true
           ∧ passes None (request_type r) = true.
Proof.
  apply (filter_single_pass sample_store None (Some ["Canada"]) None None
           (PyStr "2023-01-01") (PyDate (jan 31))); reflexivity.
Defined.

Lemma passes_falsy vals cell : truthy vals = false → passes vals cell = true.
Proof. intros E. unfold passes. by rewrite E. Qed.

(** X3: relaxing the criteria can only add rows: a wider date range, and any
    set criterion replaced by an empty selection, give a result of which
    the former result is a subsequence. *)
Theorem filter_monotone (rows : list row) (c1 c2 c3 c4 d1 d2 d3 d4 : pylist)
    (s e s' e' : date) :
  date_lte s' s → date_lte e e' →
  (d1 = c1 ∨ truthy d1 = false) → (d2 = c2 ∨ truthy d2 = false) →
  (d3 = c3 ∨ truthy d3 = false) → (d4 = c4 ∨ truthy d4 = false) →
  filtered rows c1 c2 c3 c4 (PyDate s) (PyDate e)
  `sublist_of` filtered rows d1 d2 d3 d4 (PyDate s') (PyDate e').
Proof.
  intros Hs He H1 H2 H3 H4.
  rewrite !filtered_kept. unfold kept. simpl. rewrite !selected_matches.
  apply filter_sublist_impl. intros r. unfold matches.
  rewrite !andb_true_iff. intros (((((Hge & Hle) & P1) & P2) & P3) & P4).
  assert (Hp : ∀ c d cell, (d = c ∨ truthy d = false) →
                 passes c cell = true → passes d cell = true).
  { intros c d cell [->|Hd] Hc; [done|by apply passes_falsy]. }
  repeat split; eauto.
  - unfold date_ge in *. destruct (timestamp r); [|done].
    by apply (date_leb_trans s' s).
  - unfold date_le in *. destruct (timestamp r); [|done].
    by apply (date_leb_trans _ e e').
Qed.

Lemma filter_monotone_witness :
  filtered sample_store None (Some ["Canada"]) None None
    (PyDate (jan 2)) (PyDate (jan 3))
  `sublist_of` filtered sample_store None None None None
                 (PyDate (jan 1)) (PyDate (jan 5)).
Proof.
  apply (filter_monotone sample_store None (Some ["Canada"]) None None
           None None None None (jan 2) (jan 3) (jan 1) (jan 5));
    first [reflexivity | by left | by right].
Defined.

(** ** Dates sent as text and parsed again *)

(** Case analysis on an integer between 0 and [n]. *)
Ltac small_Z k n :=
  let m := fresh "m" in
  replace k with (Z.of_nat (Z.to_nat k)) by lia;
  remember (Z.to_nat k) as m;
  assert (m ≤ n)%nat by lia;
  do 32 (try (destruct m as [|m]; [try reflexivity; try lia|]));
  try lia.

Lemma mod_10_range (x : Z) : 0 ≤ x mod 10 ≤ 9.
Proof. pose proof (Z.mod_pos_bound x 10). lia. Qed.

Lemma digit_digit_char (k : Z) : 0 ≤ k ≤ 9 → digit (digit_char k) = Some k.
Proof. intros H. small_Z k 9%nat. Qed.

Lemma digit_char_not_dash (k : Z) :
  0 ≤ k ≤ 9 → Ascii.eqb (digit_char k) "-" = false.
Proof. intros H. small_Z k 9%nat. Qed.

Lemma split_dash_digit (k : Z) (cs : list ascii) :
  0 ≤ k ≤ 9 →
  split_dash (digit_char k :: cs)
  = match split_dash cs with
    | Some (l, r) => Some (digit_char k :: l, r)
    | None => None
    end.
Proof. intros H. cbn [split_dash]. by rewrite digit_char_not_dash. Qed.

Lemma split_dash_two (a b : Z) (rest : list ascii) :
  0 ≤ a ≤ 9 → 0 ≤ b ≤ 9 →
  split_dash (digit_char a :: digit_char b :: "-"%char :: rest)
  = Some ([digit_char a; digit_char b], rest).
Proof. intros Ha Hb. by rewrite !split_dash_digit. Qed.

Lemma split_dash_four (a b c d : Z) (rest : list ascii) :
  0 ≤ a ≤ 9 → 0 ≤ b ≤ 9 → 0 ≤ c ≤ 9 → 0 ≤ d ≤ 9 →
  split_dash (digit_char a :: digit_char b :: digit_char c :: digit_char d
              :: "-"%char :: rest)
  = Some ([digit_char a; digit_char b; digit_char c; digit_char d], rest).
Proof. intros Ha Hb Hc Hd. by rewrite !split_dash_digit. Qed.

Lemma directive_m_two_digits (m : Z) :
  1 ≤ m ≤ 12 →
  directive_m [digit_char (m / 10 mod 10); digit_char (m mod 10)] = Some m.
Proof. intros H. small_Z m 12%nat. Qed.

Lemma directive_d_two_digits (d : Z) :
  1 ≤ d ≤ 31 →
  directive_d [digit_char (d / 10 mod 10); digit_char (d mod 10)] = Some d.
Proof. intros H. small_Z d 31%nat. Qed.

Lemma directive_Y_four_digits (y : Z) :
  0 ≤ y ≤ 9999 →
  directive_Y [ digit_char (y / 1000 mod 10); digit_char (y / 100 mod 10);
                digit_char (y / 10 mod 10); digit_char (y mod 10) ] = Some y.
Proof.
  intros H. unfold directive_Y.
  rewrite !digit_digit_char by apply mod_10_range.
  f_equal. Z.div_mod_to_equations. lia.
Qed.

Lemma days_in_month_le (y m : Z) : days_in_month y m ≤ 31.
Proof.
  unfold days_in_month.
  repeat match goal with |- context [if ?b then _ else _] => destruct b end; lia.
Qed.

Lemma isoformat_parses (d : date) :
  valid_date (year d) (month d) (day d) = true →
  strptime (isoformat d) = Some d.
Proof.
  destruct d as [y m dd]. cbn [year month day]. intros Hv.
  pose proof Hv as Hb. unfold valid_date in Hb.
  rewrite !andb_true_iff, !Z.leb_le in Hb.
  destruct Hb as (((((Hy1 & Hy2) & Hm1) & Hm2) & Hd1) & Hd2).
  pose proof (days_in_month_le y m) as Hdm.
  unfold strptime, isoformat. cbn [year month day].
  rewrite list_ascii_of_string_of_list_ascii.
  rewrite split_dash_four by apply mod_10_range. cbv iota beta.
  rewrite split_dash_two by apply mod_10_range. cbv iota beta.
  rewrite directive_Y_four_digits, directive_m_two_digits,
    directive_d_two_digits by lia.
  by rewrite Hv.
Qed.

Lemma strptime_valid (s : string) (d : date) :
  strptime s = Some d → valid_date (year d) (month d) (day d) = true.
Proof.
  unfold strptime.
  destruct (split_dash (list_ascii_of_string s)) as [[ys rest]|]; [|done].
  destruct (split_dash rest) as [[ms ds]|]; [|done].
  destruct (directive_Y ys) as [y|]; [|done].
  destruct (directive_m ms) as [m|]; [|done].
  destruct (directive_d ds) as [dd|]; [|done].
  destruct (valid_date y m dd) eqn:E; [|done].
  by intros [= <-].
Qed.

(** X4: a date of the calendar, written the way a [date] object is sent to
    the date picker, is read back by [strptime] as the same date, so such a
    bound never takes the fail-open path; and whatever [strptime] accepts
    is a date of the calendar. *)
Theorem strptime_isoformat (d : date) :
  (valid_date (year d) (month d) (day d) = true →
   strptime (isoformat d) = Some d)
  ∧ (∀ s, strptime s = Some d →
          valid_date (year d) (month d) (day d) = true).
Proof. split; [apply isoformat_parses|intros s; apply strptime_valid]. Qed.

Lemma strptime_isoformat_witness :
  strptime (isoformat (Date 2024 2 29)) = Some (Date 2024 2 29).
Proof. apply (proj1 (strptime_isoformat (Date 2024 2 29))). reflexivity. Defined.

(** ** [reset_filters] followed by the filter *)

Lemma date_compare_antisym (a b : date) :
  date_compare b a = CompOpp (date_compare a b).
Proof.
  unfold date_compare.
  rewrite (Z.compare_antisym (year a) (year b)),
    (Z.compare_antisym (month a) (month b)), (Z.compare_antisym (day a) (day b)).
  destruct (year a ?= year b), (month a ?= month b), (day a ?= day b); done.
Qed.

Lemma ts_leb_date (a b : Timestamp) :
  ts_leb a b = true → date_leb (ts_date a) (ts_date b) = true.
Proof.
  unfold ts_leb, ts_compare, date_leb.
  by destruct (date_compare (ts_date a) (ts_date b)).
Qed.

Lemma ts_leb_false_date (a b : Timestamp) :
  ts_leb a b = false → date_leb (ts_date b) (ts_date a) = true.
Proof.
  unfold ts_leb, ts_compare, date_leb. rewrite (date_compare_antisym (ts_date a)).
  by destruct (date_compare (ts_date a) (ts_date b)).
Qed.

Lemma elem_of_dropna {A} (x : A) (col : list (option A)) :
  x ∈ dropna col ↔ Some x ∈ col.
Proof.
  unfold dropna. rewrite list_elem_of_omap. split.
  - intros (y & Hy & E). unfold id in E. by subst.
  - intros H. by exists (Some x).
Qed.

(** The earliest timestamp: a cell of the column, no later in date than any
    other. *)
Lemma series_min_spec (col : list (option Timestamp)) :
  match series_min col with
  | None => dropna col = []
  | Some m =>
      m ∈ dropna col
      ∧ ∀ t, t ∈ dropna col → date_leb (ts_date m) (ts_date t) = true
  end.
Proof.
  unfold series_min. induction (dropna col) as [|t l IH]; [done|].
  cbn [foldr]. destruct (foldr _ None l) as [m|].
  - destruct IH as [Hm Hall]. destruct (ts_leb t m) eqn:E.
    + split; [by left|]. intros t' [->|Ht']%elem_of_cons.
      * apply date_leb_refl.
      * eapply date_leb_trans; [by apply ts_leb_date|by apply Hall].
    + split; [by right|]. intros t' [->|Ht']%elem_of_cons.
      * by apply ts_leb_false_date.
      * by apply Hall.
  - subst l. split; [by left|]. intros t' Ht'%list_elem_of_singleton. subst.
    apply date_leb_refl.
Qed.

(** The latest timestamp. *)
Lemma series_max_spec (col : list (option Timestamp)) :
  match series_max col with
  | None => dropna col = []
  | Some m =>
      m ∈ dropna col
      ∧ ∀ t, t ∈ dropna col → date_leb (ts_date t) (ts_date m) = true
  end.
Proof.
  unfold series_max. induction (dropna col) as [|t l IH]; [done|].
  cbn [foldr]. destruct (foldr _ None l) as [m|].
  - destruct IH as [Hm Hall]. destruct (ts_leb m t) eqn:E.
    + split; [by left|]. intros t' [->|Ht']%elem_of_cons.
      * apply date_leb_refl.
      * eapply date_leb_trans; [by apply Hall|by apply ts_leb_date].
    + split; [by right|]. intros t' [->|Ht']%elem_of_cons.
      * by apply ts_leb_false_date.
      * by apply Hall.
  - subst l. split; [by left|]. intros t' Ht'%list_elem_of_singleton. subst.
    apply date_leb_refl.
Qed.

(** X5: when the reset button was clicked and the store has a parsed
    timestamp, [reset_filters] returns four empty selections and the dates
    of the earliest and of the latest timestamp: each of the two dates is
    the date of a record, and no record is dated before the first or after
    the second.  This range covers the store, and filtering with these
    values, given as dates or as the text they are sent as, returns the
    store without its NaT records. *)
Theorem reset_filters_then_filter (n : Z) (df : list row) :
  n ≠ 0 →
  Exists (λ r, timestamp r ≠ None) df →
  Forall valid_timestamp df →
  ∃ s e,
    reset_filters (Some n) df = ResetValues [] [] [] [] (Some s) (Some e)
    ∧ (∃ r, r ∈ df ∧ ts_date <$> timestamp r = Some s)
    ∧ (∃ r, r ∈ df ∧ ts_date <$> timestamp r = Some e)
    ∧ (∀ r t, r ∈ df → timestamp r = Some t →
              date_leb s (ts_date t) = true ∧ date_leb (ts_date t) e = true)
    ∧ covers_span s e df = true
    ∧ filtered df (Some []) (Some []) (Some []) (Some []) (PyDate s) (PyDate e)
      = List.filter has_timestamp df
    ∧ filtered df (Some []) (Some []) (Some []) (Some [])
        (PyStr (isoformat s)) (PyStr (isoformat e))
      = List.filter has_timestamp df.
Proof.
  intros Hn Hex Hvalid.
  pose proof (series_min_spec (timestamp <$> df)) as Hmin.
  pose proof (series_max_spec (timestamp <$> df)) as Hmax.
  assert (Hne : dropna (timestamp <$> df) ≠ []).
  { apply Exists_exists in Hex as (r & Hr & Ht).
    destruct (timestamp r) as [t|] eqn:E; [|done].
    assert (Hin : t ∈ dropna (timestamp <$> df)).
    { apply elem_of_dropna, list_elem_of_fmap. exists r. by rewrite E. }
    intros Hnil. rewrite Hnil in Hin. by apply elem_of_nil in Hin. }
  destruct (series_min (timestamp <$> df)) as [tmin|] eqn:Emin; [|done].
  destruct (series_max (timestamp <$> df)) as [tmax|] eqn:Emax; [|done].
  destruct Hmin as [Hmin_in Hmin], Hmax as [Hmax_in Hmax].
  assert (Hval : ∀ t, t ∈ dropna (timestamp <$> df) →
            valid_date (year (ts_date t)) (month (ts_date t)) (day (ts_date t))
            = true).
  { intros t Ht. apply elem_of_dropna, list_elem_of_fmap in Ht as (r & Hr & Hin).
    rewrite Forall_forall in Hvalid. by apply (Hvalid r Hin). }
  assert (Hcov : covers_span (ts_date tmin) (ts_date tmax) df = true).
  { unfold covers_span. apply forallb_forall. intros r Hr.
    destruct (timestamp r) as [t|] eqn:E; [|done].
    assert (Hin : t ∈ dropna (timestamp <$> df)).
    { apply elem_of_dropna, list_elem_of_fmap. exists r.
      split; [done|]. by apply list_elem_of_In. }
    by rewrite (Hmin t Hin), (Hmax t Hin). }
  assert (Hdates : ∀ x y,
            bound_of x = Some (Some (ts_date tmin)) →
            bound_of y = Some (Some (ts_date tmax)) →
            filtered df (Some []) (Some []) (Some []) (Some []) x y
            = List.filter has_timestamp df).
  { intros x y Hx Hy. rewrite filtered_kept.
    rewrite (kept_dates_only (Some []) (Some []) (Some []) (Some []) x y _ _ df
               eq_refl eq_refl eq_refl eq_refl Hx Hy).
    apply List.filter_ext_in. intros r Hr.
    unfold covers_span in Hcov. rewrite forallb_forall in Hcov.
    specialize (Hcov r Hr). unfold has_timestamp, date_ge, date_le.
    by destruct (timestamp r). }
  assert (Hrec : ∀ t, t ∈ dropna (timestamp <$> df) →
            ∃ r, r ∈ df ∧ ts_date <$> timestamp r = Some (ts_date t)).
  { intros t Ht. apply elem_of_dropna, list_elem_of_fmap in Ht as (r & Hr & Hin).
    exists r. split; [done|]. by rewrite <- Hr. }
  exists (ts_date tmin), (ts_date tmax).
  split; [|split; [by apply Hrec|split; [by apply Hrec|split; [|split; [done|split]]]]].
  - unfold reset_filters, clicked.
    rewrite (proj2 (Z.eqb_neq n 0) Hn). simpl. by rewrite Emin, Emax.
  - intros r t Hr Ht.
    assert (Hin : t ∈ dropna (timestamp <$> df)).
    { apply elem_of_dropna, list_elem_of_fmap. exists r. by rewrite Ht. }
    by rewrite (Hmin t Hin), (Hmax t Hin).
  - by apply Hdates.
  - apply Hdates; simpl; by rewrite isoformat_parses by (by apply Hval).
Qed.

Lemma reset_filters_then_filter_witness :
  ∃ s e,
    reset_filters (Some 1) store_with_NaT
    = ResetValues [] [] [] [] (Some s) (Some e)
    ∧ (∃ r, r ∈ store_with_NaT ∧ ts_date <$> timestamp r = Some s)
    ∧ (∃ r, r ∈ store_with_NaT ∧ ts_date <$> timestamp r = Some e)
    ∧ (∀ r t, r ∈ store_with_NaT → timestamp r = Some t →
              date_leb s (ts_date t) = true ∧ date_leb (ts_date t) e = true)
    ∧ covers_span s e store_with_NaT = true
    ∧ filtered store_with_NaT (Some []) (Some []) (Some []) (Some [])
        (PyDate s) (PyDate e)
      = List.filter has_timestamp store_with_NaT
    ∧ filtered store_with_NaT (Some []) (Some []) (Some []) (Some [])
        (PyStr (isoformat s)) (PyStr (isoformat e))
      = List.filter has_timestamp store_with_NaT.
Proof.
  apply (reset_filters_then_filter 1 store_with_NaT).
  - lia.
  - apply Exists_cons_hd. discriminate.
  - repeat constructor; intros t [= <-]; reflexivity.
Defined.

(** ** Group-by tables *)

Lemma StronglySorted_weaken {A} (R1 R2 : relation A) (l : list A) :
  (∀ x y, R1 x y → R2 x y) → StronglySorted R1 l → StronglySorted R2 l.
Proof.
  intros Himp Hs. rewrite <- (list_fmap_id l).
  by apply (StronglySorted_fmap id R1 R2).
Qed.

(** A sorted list without duplicates is strictly sorted. *)
Lemma StronglySorted_strict {A} (R : relation A) (l : list A) :
  StronglySorted R l → NoDup l → StronglySorted (λ a b, R a b ∧ a ≠ b) l.
Proof.
  induction 1 as [|a l _ IH Ha]; intros ND; [constructor|].
  apply NoDup_cons in ND as [Hni ND]. constructor; [by apply IH|].
  rewrite Forall_forall in *. intros b Hb. split; [by apply Ha|].
  by intros ->.
Qed.

Lemma occurrences_Some {A} `{EqDecision A} (v : A) (col : list (option A)) :
  occurrences v (dropna col) = occurrences (Some v) col.
Proof. by rewrite occurrences_dropna. Qed.

Section GroupBy.

Context {K : Type} `{EqDecision K} (R : relation K) `{!RelDecision R}.

Implicit Types (keys : list (option K)) (k : K).

Lemma groupby_sorted_keys keys :
  fst <$> groupby_sorted R keys = merge_sort R (unique (dropna keys)).
Proof.
  unfold groupby_sorted. rewrite <- list_fmap_compose. apply list_fmap_id.
Qed.

Lemma groupby_sorted_NoDup keys : NoDup (fst <$> groupby_sorted R keys).
Proof.
  rewrite groupby_sorted_keys, merge_sort_Permutation. apply unique_NoDup.
Qed.

Lemma elem_of_groupby_sorted keys k n :
  (k, n) ∈ groupby_sorted R keys
  ↔ (0 < n)%nat ∧ n = occurrences (Some k) keys.
Proof.
  unfold groupby_sorted. rewrite list_elem_of_fmap. split.
  - intros (k' & [= <- ->] & Hin).
    rewrite merge_sort_Permutation, elem_of_unique in Hin.
    rewrite occurrences_Some. split; [|done].
    rewrite <- occurrences_Some. by apply occurrences_pos.
  - intros [Hpos ->]. exists k. rewrite occurrences_Some. split; [done|].
    rewrite merge_sort_Permutation, elem_of_unique.
    apply occurrences_pos. by rewrite occurrences_Some.
Qed.

Lemma groupby_sorted_sum keys :
  sum_list (snd <$> groupby_sorted R keys) = length (dropna keys).
Proof.
  unfold groupby_sorted. rewrite <- list_fmap_compose.
  apply sum_occurrences.
  - rewrite merge_sort_Permutation. apply unique_NoDup.
  - intros x. by rewrite merge_sort_Permutation, elem_of_unique.
Qed.

Lemma groupby_sorted_strict `{!Transitive R} `{!Total R} keys :
  StronglySorted (λ a b, R a b ∧ a ≠ b) (fst <$> groupby_sorted R keys).
Proof.
  apply StronglySorted_strict; [|apply groupby_sorted_NoDup].
  rewrite groupby_sorted_keys. apply StronglySorted_merge_sort; apply _.
Qed.

End GroupBy.

Lemma groupby_size_sorted keys : groupby_size keys = groupby_sorted Z.le keys.
Proof. reflexivity. Qed.

Lemma missing_cells_length {A B} (f : A → option B) (l : list A) :
  (length (dropna (f <$> l))
   + length (List.filter (λ a, bool_decide (f a = None)) l))%nat
  = length l.
Proof.
  rewrite <- (length_fmap f l), (length_dropna (f <$> l)).
  by rewrite filter_fmap_length.
Qed.

(** X6: the table of the hourly chart has one row for each hour of the day
    in which a record falls and none for the other hours, in strictly
    ascending order of the hour; each row counts the records of its hour,
    and the counts add up to the number of records that have an hour. *)
Theorem hourly_chart_table (filtered_df : list row) :
  StronglySorted Z.lt (fst <$> hourly_chart_data filtered_df)
  ∧ (∀ h n, (h, n) ∈ hourly_chart_data filtered_df
            ↔ (0 < n)%nat ∧ n = count_hour h filtered_df)
  ∧ (sum_list (snd <$> hourly_chart_data filtered_df)
     + length (List.filter (λ r, bool_decide (hour r = None)) filtered_df))%nat
    = length filtered_df.
Proof.
  unfold hourly_chart_data. rewrite groupby_size_sorted. split; [|split].
  - eapply StronglySorted_weaken; [|apply groupby_sorted_strict; apply _].
    intros x y [Hle Hne]. simpl in *. lia.
  - intros h n. rewrite elem_of_groupby_sorted. unfold count_hour, occurrences.
    by rewrite filter_fmap_length.
  - rewrite groupby_sorted_sum. apply missing_cells_length.
Qed.

(** X7: the table of the time series has one row for each date on which a
    record falls and no row for a date without records, in strictly
    ascending order of the date; each row counts the records of its date,
    and the counts add up to the number of records with a parsed
    timestamp. *)
Theorem time_series_table (filtered_df : list row) :
  StronglySorted (λ a b, date_leb a b = true ∧ a ≠ b)
    (fst <$> time_series_data filtered_df)
  ∧ (∀ d n, (d, n) ∈ time_series_data filtered_df
            ↔ (0 < n)%nat ∧ n = count_date d filtered_df)
  ∧ (sum_list (snd <$> time_series_data filtered_df)
     + length (List.filter (λ r, bool_decide (timestamp r = None)) filtered_df))%nat
    = length filtered_df.
Proof.
  unfold time_series_data. split; [|split].
  - apply (groupby_sorted_strict date_lte).
  - intros d n. rewrite elem_of_groupby_sorted. unfold count_date, occurrences.
    by rewrite filter_fmap_length.
  - rewrite groupby_sorted_sum.
    rewrite <- (missing_cells_length (λ r, ts_date <$> timestamp r) filtered_df).
    f_equal. f_equal. apply List.filter_ext. intros r.
    destruct (timestamp r); simpl; intuition congruence.
Qed.

(** X8: on the normal path of the filter, every date of the time series
    lies in the selected range, and the counts of the series add up to the
    number of rows returned by the filter. *)
Theorem time_series_of_filtered (rows : list row)
    (continents countries age_groups request_types : pylist)
    (start_date end_date : pyarg) (s e : date) :
  bound_of start_date = Some (Some s) → bound_of end_date = Some (Some e) →
  Forall (λ p, date_leb s (fst p) = true ∧ date_leb (fst p) e = true)
    (time_series_data
       (filtered rows continents countries age_groups request_types
          start_date end_date))
  ∧ sum_list
      (snd <$> time_series_data
         (filtered rows continents countries age_groups request_types
            start_date end_date))
    = length (filtered rows continents countries age_groups request_types
                start_date end_date).
Proof.
  intros Hx Hy.
  set (out := filtered rows continents countries age_groups request_types
                start_date end_date).
  assert (Hout : ∀ r, r ∈ out →
            ∃ t, timestamp r = Some t
                 ∧ date_leb s (ts_date t) = true ∧ date_leb (ts_date t) e = true).
  { intros r Hr. unfold out in Hr.
    rewrite filtered_kept in Hr. unfold kept in Hr. rewrite Hx, Hy in Hr.
    rewrite selected_matches in Hr. apply elem_of_filter_bool in Hr as [_ Hm].
    unfold matches in Hm. rewrite !andb_true_iff in Hm.
    destruct Hm as (((((Hge & Hle) & _) & _) & _) & _).
    unfold date_ge, date_le in *. destruct (timestamp r) as [t|]; [|done].
    by exists t. }
  split.
  - rewrite Forall_forall. intros [d n] Hin. simpl.
    unfold time_series_data in Hin. apply elem_of_groupby_sorted in Hin as [Hpos ->].
    apply occurrences_pos, list_elem_of_fmap in Hpos as (r & Hd & Hr).
    destruct (Hout r Hr) as (t & Ht & Hs & He). rewrite Ht in Hd. simpl in Hd.
    by injection Hd as ->.
  - unfold time_series_data. rewrite groupby_sorted_sum.
    rewrite <- (length_fmap (λ r, ts_date <$> timestamp r) out).
    rewrite (length_dropna ((λ r, ts_date <$> timestamp r) <$> out)).
    rewrite filter_fmap_length.
    rewrite (List.filter_ext_in _ (λ _, false)); last first.
    { intros r Hr. apply list_elem_of_In in Hr.
      destruct (Hout r Hr) as (t & Ht & _). by rewrite Ht. }
    assert (E : ∀ l : list row, List.filter (λ _, false) l = []).
    { induction l; simpl; done. }
    rewrite E. simpl. lia.
Qed.

Lemma time_series_of_filtered_witness :
  Forall (λ p, date_leb (jan 1) (fst p) = true ∧ date_leb (fst p) (jan 2) = true)
    (time_series_data
       (filtered sample_store None None None None
          (PyStr "2023-01-01") (PyDate (jan 2))))
  ∧ sum_list
      (snd <$> time_series_data
         (filtered sample_store None None None None
            (PyStr "2023-01-01") (PyDate (jan 2))))
    = length (filtered sample_store None None None None
                (PyStr "2023-01-01") (PyDate (jan 2))).
Proof.
  apply (time_series_of_filtered sample_store None None None None
           (PyStr "2023-01-01") (PyDate (jan 2)) (jan 1) (jan 2)); reflexivity.
Defined.

(** ** Value counts: the pie chart and the bar chart *)

#[local] Instance by_count_desc_trans : Transitive by_count_desc.
Proof. intros a b c. unfold by_count_desc. lia. Qed.

#[local] Instance by_count_desc_total : Total by_count_desc.
Proof. intros a b. unfold by_count_desc. lia. Qed.

Lemma elem_of_value_counts (col : list (option string)) (v : string) (n : nat) :
  (v, n) ∈ value_counts col ↔ (0 < n)%nat ∧ n = occurrences (Some v) col.
Proof.
  rewrite value_counts_Permutation, list_elem_of_fmap. split.
  - intros (v' & [= <- ->] & Hin). rewrite elem_of_unique in Hin.
    rewrite occurrences_Some. split; [|done].
    rewrite <- occurrences_Some. by apply occurrences_pos.
  - intros [Hpos ->]. exists v. rewrite occurrences_Some. split; [done|].
    rewrite elem_of_unique. apply occurrences_pos. by rewrite occurrences_Some.
Qed.

Lemma value_counts_NoDup (col : list (option string)) :
  NoDup (fst <$> value_counts col).
Proof.
  rewrite value_counts_Permutation, <- list_fmap_compose.
  rewrite (list_fmap_id (unique (dropna col))). apply unique_NoDup.
Qed.

Lemma value_counts_sorted (col : list (option string)) :
  StronglySorted by_count_desc (value_counts col).
Proof. unfold value_counts. apply sort_values_desc_sorted. Qed.

(** X9: the table of the request-type pie chart has one row for each
    request type that occurs, with the number of its records, and no row
    with a count of zero; the rows are in descending order of the count. *)
Theorem request_type_distribution (filtered_df : list row) :
  NoDup (fst <$> request_type_counts filtered_df)
  ∧ (∀ t n, (t, n) ∈ request_type_counts filtered_df
            ↔ (0 < n)%nat ∧ n = count_requests t filtered_df)
  ∧ StronglySorted (λ a b, (snd b ≤ snd a)%nat) (request_type_counts filtered_df).
Proof.
  unfold request_type_counts. split; [apply value_counts_NoDup|]. split.
  - intros t n. rewrite elem_of_value_counts. unfold count_requests, occurrences.
    by rewrite filter_fmap_length.
  - apply value_counts_sorted.
Qed.

(** X10: the table of the country bar chart has at most ten rows, for
    distinct countries, each with the number of its records, in descending
    order of the count; a country that is left out has no more records
    than any country listed, and no country is left out when at most ten
    countries occur. *)
Theorem country_top_ten (filtered_df : list row) :
  (length (country_counts filtered_df) ≤ 10)%nat
  ∧ NoDup (fst <$> country_counts filtered_df)
  ∧ StronglySorted (λ a b, (snd b ≤ snd a)%nat) (country_counts filtered_df)
  ∧ (∀ c n, (c, n) ∈ country_counts filtered_df →
            (0 < n)%nat ∧ n = count_country c filtered_df)
  ∧ (∀ c n c', (c, n) ∈ country_counts filtered_df →
               c' ∉ (fst <$> country_counts filtered_df) →
               (count_country c' filtered_df ≤ n)%nat)
  ∧ ((length (unique (dropna (country <$> filtered_df))) ≤ 10)%nat →
     ∀ c, (0 < count_country c filtered_df)%nat →
          (c, count_country c filtered_df) ∈ country_counts filtered_df).
Proof.
  unfold country_counts.
  set (vc := value_counts (country <$> filtered_df)).
  set (full := sort_values_desc vc).
  assert (Hperm : full ≡ₚ vc) by apply sort_values_desc_Permutation.
  assert (Hsorted : StronglySorted by_count_desc full)
    by apply sort_values_desc_sorted.
  assert (Hcount : ∀ c, count_country c filtered_df
                        = occurrences (Some c) (country <$> filtered_df)).
  { intros c. unfold count_country, occurrences. by rewrite filter_fmap_length. }
  assert (Hfull : ∀ c n, (c, n) ∈ full
                         ↔ (0 < n)%nat ∧ n = count_country c filtered_df).
  { intros c n. rewrite Hperm, Hcount. apply elem_of_value_counts. }
  rewrite <- (take_drop 10 full) in Hsorted.
  split; [rewrite length_take; lia|]. split; [|split; [|split; [|split]]].
  - rewrite fmap_take. eapply sublist_NoDup; [|apply sublist_take].
    rewrite Hperm. apply value_counts_NoDup.
  - by apply StronglySorted_app_1_l in Hsorted.
  - intros c n Hin. apply Hfull. eapply elem_of_sublist; [exact Hin|].
    apply sublist_take.
  - intros c n c' Hin Hout.
    destruct (Nat.eq_dec (count_country c' filtered_df) 0%nat) as [->|Hpos]; [lia|].
    assert (Hc' : (c', count_country c' filtered_df) ∈ full)
      by (apply Hfull; lia).
    rewrite <- (take_drop 10 full), elem_of_app in Hc'.
    destruct Hc' as [Hc'|Hc'].
    + destruct Hout. apply list_elem_of_fmap. by eexists (_, _).
    + by apply (StronglySorted_app_1_elem_of _ _ _ _ _ Hsorted Hin Hc').
  - intros Hlen c Hpos.
    assert (Hl : (length full ≤ 10)%nat).
    { rewrite Hperm. unfold vc. rewrite value_counts_Permutation.
      by rewrite length_fmap. }
    rewrite take_ge by done. apply Hfull. done.
Qed.

Lemma country_top_ten_witness :
  (length (unique (dropna (country <$> sample_store))) ≤ 10)%nat
  ∧ (0 < count_country "Canada" sample_store)%nat
  ∧ ("Canada", count_country "Canada" sample_store) ∈ country_counts sample_store.
Proof.
  split; [vm_compute; lia|]. split; [vm_compute; lia|].
  apply (proj2 (proj2 (proj2 (proj2 (proj2 (country_top_ten sample_store)))))).
  - vm_compute. lia.
  - vm_compute. lia.
Defined.

(** ** Tables sorted by a fixed order of categories *)

Section OrderedCounts.

Variable cats : list string.
Hypothesis cats_NoDup : NoDup cats.
Hypothesis cats_sorted :
  StronglySorted (λ a b, (code cats (Some a) ≤ code cats (Some b))%nat) cats.

Variable col : list (option string).

Let table : list (option string * nat) :=
  (λ p, (categorical cats (fst p), snd p)) <$> value_counts col.

Lemma categories_of_counts :
  List.filter (λ p, negb (is_nan_cell p)) table
  ≡ₚ (λ v, (Some v, occurrences (Some v) col))
       <$> List.filter (λ v, bool_decide (v ∈ cats)) (unique (dropna col)).
Proof.
  unfold table.
  etrans; [apply filter_Permutation_bool, fmap_Permutation,
             value_counts_Permutation|].
  induction (unique (dropna col)) as [|v l IH]; [done|].
  rewrite !fmap_cons, !filter_cons_bool.
  unfold is_nan_cell at 1, categorical at 1 2. cbn [fst snd].
  destruct (bool_decide (v ∈ cats)); cbn [negb fst].
  - rewrite fmap_cons, occurrences_Some. by apply perm_skip.
  - done.
Qed.

Lemma ordered_counts_shape :
  ∃ nan_rows,
    ordered_counts cats col = ordered_rows cats col ++ nan_rows
    ∧ Forall (λ p, fst p = None) nan_rows
    ∧ (Forall (λ c, ∀ g, c = Some g → g ∈ cats) col → nan_rows = []).
Proof.
  exists (List.filter is_nan_cell table). split; [|split].
  - unfold ordered_counts, sort_values_categorical. fold table. f_equal.
    assert (Hperm :
      merge_sort (by_category cats)
        (List.filter (λ p, negb (is_nan_cell p)) table)
      ≡ₚ ordered_rows cats col).
    { rewrite merge_sort_Permutation, categories_of_counts.
      unfold ordered_rows. apply fmap_Permutation, NoDup_Permutation.
      - apply NoDup_filter_bool, unique_NoDup.
      - by apply NoDup_filter_bool.
      - intros x.
        rewrite !elem_of_filter_bool, !bool_decide_eq_true, elem_of_unique,
          elem_of_dropna. tauto. }
    apply (StronglySorted_unique_strong (by_category cats)).
    + intros x1 x2 H1 H2 R12 R21.
      unfold ordered_rows in H2.
      apply list_elem_of_fmap in H2 as (g2 & -> & H2).
      rewrite Hperm in H1. unfold ordered_rows in H1.
      apply list_elem_of_fmap in H1 as (g1 & -> & H1).
      apply elem_of_filter_bool in H1 as [H1 _].
      unfold by_category in R12, R21. cbn [fst] in R12, R21.
      assert (g1 = g2) as -> by (apply (code_inj cats); [done|lia]).
      done.
    + apply StronglySorted_merge_sort; apply _.
    + unfold ordered_rows.
      eapply StronglySorted_fmap; [|apply StronglySorted_filter_bool, cats_sorted].
      intros x y Hxy. exact Hxy.
    + exact Hperm.
  - rewrite Forall_forall. intros p Hp.
    apply list_elem_of_In, List.filter_In in Hp as [_ Hp].
    unfold is_nan_cell in Hp. by destruct (fst p).
  - intros Hall.
    assert (E : ∀ l : list (option string * nat),
              Forall (λ p, is_nan_cell p = false) l → List.filter is_nan_cell l = []).
    { induction 1 as [|a l Ha _ IH]; simpl; [done|]. by rewrite Ha. }
    apply E. unfold table. rewrite Forall_fmap, Forall_forall.
    intros [v n] Hin. simpl. unfold is_nan_cell, categorical. simpl.
    apply elem_of_value_counts in Hin as [Hpos ->].
    apply occurrences_pos in Hpos.
    rewrite Forall_forall in Hall.
    by rewrite (bool_decide_eq_true_2 _ (Hall _ Hpos v eq_refl)).
Qed.

End OrderedCounts.

Ltac order_by_computation :=
  repeat (apply SSorted_cons || apply List.Forall_cons || apply List.Forall_nil
          || apply SSorted_nil); vm_compute; lia.

Lemma day_order_sorted :
  StronglySorted (λ a b, (code day_order (Some a) ≤ code day_order (Some b))%nat)
    day_order.
Proof. unfold day_order. order_by_computation. Qed.

Lemma month_order_sorted :
  StronglySorted
    (λ a b, (code month_order (Some a) ≤ code month_order (Some b))%nat)
    month_order.
Proof. unfold month_order. order_by_computation. Qed.

Lemma day_order_NoDup : NoDup day_order.
Proof.
  unfold day_order. apply NoDup_ListNoDup.
  repeat constructor; vm_compute; intuition discriminate.
Qed.

Lemma month_order_NoDup : NoDup month_order.
Proof.
  unfold month_order. apply NoDup_ListNoDup.
  repeat constructor; vm_compute; intuition discriminate.
Qed.

(** X11: the table of the daily chart lists the days that occur in the
    order Monday to Sunday, and the table of the monthly chart the months
    that occur in the order January to December, each with its number of
    records; a day or month without a record has no row; values outside
    the names come after, and there are none when the column holds names
    only. *)
Theorem days_and_months_in_calendar_order (day month : list (option string)) :
  (∃ nan_rows,
     daily_counts day = ordered_rows day_order day ++ nan_rows
     ∧ Forall (λ p, fst p = None) nan_rows
     ∧ (Forall (λ c, ∀ g, c = Some g → g ∈ day_order) day → nan_rows = []))
  ∧ (∃ nan_rows,
       monthly_counts month = ordered_rows month_order month ++ nan_rows
       ∧ Forall (λ p, fst p = None) nan_rows
       ∧ (Forall (λ c, ∀ g, c = Some g → g ∈ month_order) month →
          nan_rows = [])).
Proof.
  split.
  - apply ordered_counts_shape; [apply day_order_NoDup|apply day_order_sorted].
  - apply ordered_counts_shape; [apply month_order_NoDup|apply month_order_sorted].
Qed.

Lemma days_and_months_in_calendar_order_witness :
  daily_counts [Some "Sunday"; Some "Monday"; None; Some "Sunday"]
  = [(Some "Monday", 1%nat); (Some "Sunday", 2%nat)].
Proof.
  destruct (proj1 (days_and_months_in_calendar_order
                     [Some "Sunday"; Some "Monday"; None; Some "Sunday"] []))
    as (nan_rows & E & _ & Hnil).
  rewrite E, Hnil; [reflexivity|].
  repeat (apply List.Forall_cons;
          [intros g Hg; try discriminate; injection Hg as <-;
           apply list_elem_of_In; simpl; tauto|]).
  apply List.Forall_nil.
Defined.

(** ** The world map *)

(** X12: the table of the world map has one row for each country that
    occurs among the records it keeps, with the number of these records:
    all the filtered records when no request type is chosen on the map,
    the filtered records of the chosen request type otherwise. *)
Theorem world_map_table (map_request_type : option string) (filtered_df : list row) :
  NoDup (fst <$> world_map_counts map_request_type filtered_df)
  ∧ (blank map_request_type = true →
     ∀ c n, (c, n) ∈ world_map_counts map_request_type filtered_df
            ↔ (0 < n)%nat ∧ n = count_country c filtered_df)
  ∧ (∀ t, map_request_type = Some t → t ≠ "" →
     ∀ c n, (c, n) ∈ world_map_counts map_request_type filtered_df
            ↔ (0 < n)%nat
              ∧ n = length
                      (List.filter
                         (λ r, bool_decide (country r = Some c)
                               && bool_decide (request_type r = Some t))
                         filtered_df)).
Proof.
  split; [apply groupby_sorted_NoDup|]. split.
  - intros Hb c n. unfold world_map_counts. rewrite Hb. cbn [negb].
    rewrite elem_of_groupby_sorted. unfold count_country, occurrences.
    by rewrite filter_fmap_length.
  - intros t -> Ht c n. unfold world_map_counts.
    rewrite (blank_Some t Ht). cbn [negb].
    rewrite elem_of_groupby_sorted. unfold occurrences.
    rewrite filter_fmap_length, filter_filter_bool.
    rewrite (List.filter_ext
               (λ x, cell_eq (request_type x) (Some t)
                     && bool_decide (country x = Some c))
               (λ r, bool_decide (country r = Some c)
                     && bool_decide (request_type r = Some t))); [done|].
    intros r. rewrite cell_eq_Some. apply andb_comm.
Qed.

Lemma world_map_table_witness :
  ("United States", 2%nat) ∈ world_map_counts (Some "demo") sample_store.
Proof.
  apply (proj2 (proj2 (world_map_table (Some "demo") sample_store)) "demo");
    [done|done|].
  split; [lia|reflexivity].
Defined.

(** ** The statistics table as a whole *)

Lemma collect_Raise {X Y} (f : X → outcome Y) (l : list X) (x : X) (e : exn) :
  x ∈ l → f x = Raise e → ∃ e', collect f l = Raise e'.
Proof.
  induction l as [|a l IH]; [by intros ?%elem_of_nil|].
  intros [->|Hin]%elem_of_cons Hx; simpl.
  - rewrite Hx. by eexists.
  - destruct (f a); [|by eexists].
    destruct (IH Hin Hx) as [e' ->]. by eexists.
Qed.

Lemma collect_Ret {X Y} (f : X → outcome Y) (l : list X) :
  (∀ x, x ∈ l → ∃ y, f x = Ret y) →
  ∃ ys, collect f l = Ret ys ∧ Forall2 (λ x y, f x = Ret y) l ys.
Proof.
  induction l as [|a l IH]; intros Hall; [by exists []|].
  destruct (Hall a) as [y Hy]; [by left|].
  destruct IH as (ys & E & HF); [intros x Hx; apply Hall; by right|].
  exists (y :: ys). simpl. rewrite Hy, E. split; [done|]. by constructor.
Qed.

Lemma Forall2_fmap_eq {X Y Z} (P : X → Y → Prop) (g : Y → Z) (h : X → Z)
    (l : list X) (ys : list Y) :
  Forall2 P l ys → (∀ x y, x ∈ l → P x y → g y = h x) → g <$> ys = h <$> l.
Proof.
  induction 1 as [|x y l ys Hxy _ IH]; intros Hgh; [done|].
  rewrite !fmap_cons. f_equal.
  - apply Hgh; [by left|done].
  - apply IH. intros x' y' Hx'. apply Hgh. by right.
Qed.

Lemma filter_none {A} (p : A → bool) (l : list A) :
  (∀ a, a ∈ l → p a = false) → List.filter p l = [].
Proof.
  induction l as [|a l IH]; intros Hp; simpl; [done|].
  rewrite Hp by (by left). apply IH. intros b Hb. apply Hp. by right.
Qed.

Lemma dropna_all_None {A} (col : list (option A)) :
  Forall (λ c, c = None) col → dropna col = [].
Proof. unfold dropna, omap. induction 1 as [|c l -> _ IH]; simpl; done. Qed.

(** No record equals NaN: the loop body raises on a missing request type. *)
Lemma stats_of_type_NaN rows : stats_of_type rows None = Raise ValueError.
Proof.
  unfold stats_of_type, hourly_counts.
  rewrite filter_none; [done|]. intros r _. unfold cell_eq. by destruct (request_type r).
Qed.

(** A request type whose records have no hour: the loop body raises. *)
Lemma stats_of_type_no_hour rows t :
  (∀ r, r ∈ rows → request_type r = Some t → hour r = None) →
  stats_of_type rows (Some t) = Raise ValueError.
Proof.
  intros Hall. unfold stats_of_type, hourly_counts, groupby_size.
  rewrite dropna_all_None; [done|].
  rewrite Forall_fmap, Forall_forall. intros r Hr.
  apply elem_of_filter_bool in Hr as [Hr Hc].
  rewrite cell_eq_Some, bool_decide_eq_true in Hc. simpl. by apply Hall.
Qed.

(** A request type with a record that has an hour: the loop body returns
    the row of the type, with the number of its records. *)
Lemma stats_of_type_Ret rows t :
  (∃ r, r ∈ rows ∧ request_type r = Some t ∧ hour r ≠ None) →
  ∃ s, stats_of_type rows (Some t) = Ret s
       ∧ stat_request_type s = Some t
       ∧ stat_total s = count_requests t rows.
Proof.
  intros (r0 & Hr0 & Ht0 & Hh0).
  destruct (hour r0) as [h1|] eqn:Eh1; [clear Hh0|done].
  assert (Hpos : (0 < bucket rows t h1)%nat).
  { unfold bucket.
    assert (Hin : r0 ∈ List.filter (λ r, bool_decide (hour r = Some h1))
              (List.filter (λ r, cell_eq (request_type r) (Some t)) rows)).
    { rewrite !elem_of_filter_bool, cell_eq_Some, !bool_decide_eq_true. done. }
    destruct (List.filter _ (List.filter _ _));
      [by apply elem_of_nil in Hin|simpl; lia]. }
  apply elem_of_hours in Hpos.
  unfold stats_of_type. rewrite hourly_counts_rows.
  set (hours := merge_sort Z.le _) in *.
  destruct (idxmax_spec (snd <$> ((λ h, (h, bucket rows t h)) <$> hours)))
    as (i & m & Ei & Hi & _).
  { destruct hours; [by apply elem_of_nil in Hpos|done]. }
  rewrite Ei. rewrite !list_lookup_fmap in Hi.
  destruct (hours !! i) as [p|] eqn:Ep; [|done].
  rewrite list_lookup_fmap, Ep. simpl.
  eexists. split; [done|]. simpl. split; [done|]. apply req_df_length.
Qed.



(** X13: when every record has a request type and every request type has
    a record with an hour, the statistics table has one row for each
    request type, in order of first appearance, and the totals of its rows
    add up to the number of records. *)
Theorem statistics_table_rows (filtered_df : list row) :
  filtered_df ≠ [] →
  (∀ r, r ∈ filtered_df →
        ∃ t, request_type r = Some t
             ∧ ∃ r', r' ∈ filtered_df ∧ request_type r' = Some t ∧ hour r' ≠ None) →
  ∃ stats,
    update_statistics_table filtered_df = StatsTable stats
    ∧ stat_request_type <$> stats = unique (request_type <$> filtered_df)
    ∧ sum_list (stat_total <$> stats) = length filtered_df.
Proof.
  intros Hne Hgood.
  set (col := request_type <$> filtered_df).
  assert (Hty : ∀ x, x ∈ unique col →
            ∃ t, x = Some t
                 ∧ ∃ r', r' ∈ filtered_df ∧ request_type r' = Some t ∧ hour r' ≠ None).
  { intros x Hx. apply elem_of_unique, list_elem_of_fmap in Hx as (r & -> & Hr).
    destruct (Hgood r Hr) as (t & Ht & Hr'). exists t. by rewrite Ht. }
  destruct (collect_Ret (stats_of_type filtered_df) (unique col)) as (stats & E & HF).
  { intros x Hx. destruct (Hty x Hx) as (t & -> & Hr').
    destruct (stats_of_type_Ret filtered_df t Hr') as (s & Hs & _). by exists s. }
  assert (Hfacts : ∀ x y, x ∈ unique col → stats_of_type filtered_df x = Ret y →
            stat_request_type y = x ∧ stat_total y = occurrences x col).
  { intros x y Hx Hy. destruct (Hty x Hx) as (t & -> & Hr').
    destruct (stats_of_type_Ret filtered_df t Hr') as (s & Hs & Hs1 & Hs2).
    rewrite Hs in Hy. injection Hy as <-. split; [done|].
    rewrite Hs2. unfold count_requests, col, occurrences.
    by rewrite filter_fmap_length. }
  exists stats. split; [|split].
  - unfold update_statistics_table. fold col. rewrite E.
    destruct stats as [|s stats]; [|done].
    apply Forall2_nil_inv_r in HF.
    destruct filtered_df as [|r l]; [done|]. discriminate.
  - rewrite (Forall2_fmap_eq _ stat_request_type id _ _ HF).
    + apply list_fmap_id.
    + intros x y Hx Hy. by apply Hfacts.
  - rewrite (Forall2_fmap_eq _ stat_total (λ v, occurrences v col) _ _ HF).
    + rewrite sum_occurrences; [unfold col; by rewrite length_fmap|apply unique_NoDup|].
      intros x. by rewrite elem_of_unique.
    + intros x y Hx Hy. by apply Hfacts.
Qed.

Lemma statistics_table_rows_witness :
  ∃ stats,
    update_statistics_table sample_store = StatsTable stats
    ∧ stat_request_type <$> stats = unique (request_type <$> sample_store)
    ∧ sum_list (stat_total <$> stats) = length sample_store.
Proof.
  apply (statistics_table_rows sample_store); [discriminate|].
  intros r Hr. apply list_elem_of_In in Hr. simpl in Hr.
  destruct Hr as [<-|[<-|[<-|[]]]].
  - exists "demo". split; [done|]. eexists. split; [by left|]. done.
  - exists "job". split; [done|]. eexists. split; [right; by left|]. done.
  - exists "demo". split; [done|]. eexists. split; [by left|]. done.
Defined.

(** X14: the statistics table shows "no data" exactly for an empty frame,
    and the error message of [handle_error] as soon as one record has no
    request type, or one request type has no record with an hour: a single
    such record takes the whole table down. *)
Theorem statistics_table_fails (filtered_df : list row) :
  (update_statistics_table filtered_df = NoData ↔ filtered_df = [])
  ∧ (∀ r, r ∈ filtered_df →
          request_type r = None
          ∨ (∀ r', r' ∈ filtered_df → request_type r' = request_type r →
                   hour r' = None) →
          update_statistics_table filtered_df = ErrorLoadingStatistics).
Proof.
  split.
  - split; [|by intros ->].
    intros E. destruct filtered_df as [|r l]; [done|].
    unfold update_statistics_table in E. rewrite fmap_cons in E.
    cbn [unique collect] in E.
    destruct (stats_of_type (r :: l) (request_type r)); [|done].
    by destruct (collect _ _).
  - intros r Hr Hbad.
    assert (Hraise : ∃ e, stats_of_type filtered_df (request_type r) = Raise e).
    { destruct (request_type r) as [t|] eqn:Et.
      - destruct Hbad as [?|Hbad]; [done|].
        exists ValueError. by apply stats_of_type_no_hour.
      - exists ValueError. apply stats_of_type_NaN. }
    destruct Hraise as [e He].
    destruct (collect_Raise (stats_of_type filtered_df)
                (unique (request_type <$> filtered_df)) (request_type r) e)
      as [e' E]; [|done|].
    + apply elem_of_unique, list_elem_of_fmap. by exists r.
    + unfold update_statistics_table. by rewrite E.
Qed.

Lemma statistics_table_fails_witness :
  update_statistics_table (sample_store ++ [record_without_request_type (jan 3) 7])
  = ErrorLoadingStatistics.
Proof.
  apply (proj2 (statistics_table_fails
                  (sample_store ++ [record_without_request_type (jan 3) 7]))
           (record_without_request_type (jan 3) 7)).
  - apply list_elem_of_In. simpl. tauto.
  - by left.
Defined.




(** ** Accounts over time *)

(** What a registration that reached the dictionary tells about its inputs
    and about the store. *)
Lemma register_user_added n u e p c st r st1 :
  register_user n u e p c st = (r, st1) →
  r = Registered ∨ r = SaveFailed →
  ∃ un em pw,
    u = Some un ∧ e = Some em ∧ p = Some pw ∧ c = Some pw
    ∧ USERS st !! un = None
    ∧ (∀ k a, USERS st !! k = Some a → acc_email a ≠ Some em)
    ∧ USERS st1 = <[un := Account un un pw (Some em)]> (USERS st)
    ∧ (r = Registered →
       next_save st = Saves ∧ users_pickle st1 = Some (USERS st1))
    ∧ (r = SaveFailed →
       (next_save st = OpenFails ∧ users_pickle st1 = users_pickle st)
       ∨ (next_save st = DumpFails ∧ users_pickle st1 = None)).
Proof.
  unfold register_user.
  destruct (0 <? n); [|intros [= <- <-] [?|?]; done].
  destruct (blank u || blank e || blank p || blank c) eqn:Hb;
    [intros [= <- <-] [?|?]; done|].
  apply orb_false_iff in Hb as [Hb Hc]. apply orb_false_iff in Hb as [Hb Hp].
  apply orb_false_iff in Hb as [Hu He].
  destruct u as [un|], e as [em|], p as [pw|], c as [cw|]; try discriminate.
  destruct (decide (Some pw = Some cw)) as [Hpc|Hpc].
  - rewrite (bool_decide_eq_true_2 _ Hpc). simpl. injection Hpc as <-.
    destruct (bool_decide (is_Some (USERS st !! un))) eqn:Hin;
      [intros [= <- <-] [?|?]; done|].
    apply bool_decide_eq_false in Hin.
    destruct (email_registered (USERS st) em) eqn:Hem;
      [intros [= <- <-] [?|?]; done|].
    assert (Hnone : USERS st !! un = None).
    { destruct (USERS st !! un) eqn:E; [|done]. destruct Hin. by eexists. }
    assert (Hno : ∀ k a, USERS st !! k = Some a → acc_email a ≠ Some em).
    { intros k a Hk Ha.
      assert (email_registered (USERS st) em = true)
        by (apply email_registered_spec; eauto).
      congruence. }
    unfold save_users. simpl. destruct (next_save st) eqn:Hs;
      intros [= <- <-] _; exists un, em, pw;
      (do 7 (split; [done|])); simpl; (split; [try done|try done]).
    + intros _. by left.
    + intros _. by right.
  - rewrite (bool_decide_eq_false_2 _ Hpc). simpl. intros [= <- <-] [?|?]; done.
Qed.

(** Every other answer leaves the store as it was. *)
Lemma register_user_refused n u e p c st r st1 :
  register_user n u e p c st = (r, st1) →
  r ≠ Registered → r ≠ SaveFailed → st1 = st.
Proof.
  unfold register_user.
  destruct (0 <? n); [|by intros [= <- <-]].
  destruct (blank u || blank e || blank p || blank c); [by intros [= <- <-]|].
  destruct (negb (bool_decide (p = c))); [by intros [= <- <-]|].
  destruct (bool_decide (is_Some _)); [by intros [= <- <-]|].
  destruct (email_registered _ _); [by intros [= <- <-]|].
  unfold save_users. simpl. destruct (next_save st); by intros [= <- <-].
Qed.

Lemma register_user_cases n u e p c st :
  ∃ r st1, register_user n u e p c st = (r, st1)
           ∧ ((r = Registered ∨ r = SaveFailed)
              ∨ (r ≠ Registered ∧ r ≠ SaveFailed ∧ st1 = st)).
Proof.
  destruct (register_user n u e p c st) as [r st1] eqn:E. exists r, st1.
  split; [done|].
  destruct r; try (left; by auto);
    right; (split; [done|split; [done|]]);
    by apply (register_user_refused _ _ _ _ _ _ _ _ E).
Qed.

(** One event keeps every account of the store. *)
Lemma step_keeps_accounts ev st s k a :
  USERS st !! k = Some a → USERS (fst (step ev (st, s))) !! k = Some a.
Proof.
  intros Hk. destruct ev as [path|n u p|n u e p c|n]; simpl.
  - done.
  - by destruct (login n u p (USERS st) s) as [[? ?] ?].
  - destruct (register_user_cases n u e p c st) as (r & st1 & E & Hr).
    rewrite E. simpl. destruct Hr as [Hr|(_ & _ & ->)]; [|done].
    destruct (register_user_added _ _ _ _ _ _ _ _ E Hr)
      as (un & em & pw & _ & _ & _ & _ & Hnone & _ & -> & _).
    rewrite lookup_insert_ne; [done|]. intros <-. congruence.
  - by destruct (logout n s) as [? ?].
Qed.

Lemma run_keeps_accounts evs st s k a :
  USERS st !! k = Some a → USERS (fst (run evs (st, s))) !! k = Some a.
Proof.
  revert st s. induction evs as [|ev evs IH]; intros st s Hk; [done|].
  change (run (ev :: evs) (st, s)) with (run evs (step ev (st, s))).
  destruct (step ev (st, s)) as [st' s'] eqn:E. apply IH.
  change st' with (fst (st', s')). rewrite <- E. by apply step_keeps_accounts.
Qed.

(** X15: no sequence of logins, registrations, logouts and navigations
    removes or changes an account: credentials that open the dashboard
    keep doing so. *)
Theorem accounts_are_kept (evs : list event) (st : store) (s : session) :
  (∀ k a, USERS st !! k = Some a → USERS (fst (run evs (st, s))) !! k = Some a)
  ∧ (∀ n u p s1 s2,
       fst (fst (login n u p (USERS st) s1)) = Text "/dashboard" →
       fst (fst (login n u p (USERS (fst (run evs (st, s)))) s2))
       = Text "/dashboard").
Proof.
  split; [intros k a; apply run_keeps_accounts|].
  intros n u p s1 s2. unfold login.
  destruct (0 <? n); [|done].
  destruct u as [un|]; [|done].
  destruct (USERS st !! un) as [a|] eqn:Ha; [|done].
  rewrite (run_keeps_accounts evs st s un a Ha).
  by destruct (bool_decide (Some (acc_password a) = p)).
Qed.

Lemma accounts_are_kept_witness :
  fst (fst (login 1 (Some "admin") (Some "password123")
              (USERS (fst (run [SubmitRegister 1 (Some "admin") (Some "x@example.com")
                                  (Some "other") (Some "other");
                                ClickLogout (Some 1)]
                             (fresh_store, new_session))))
              new_session))
  = Text "/dashboard".
Proof.
  apply (proj2 (accounts_are_kept _ fresh_store new_session)
           1 (Some "admin") (Some "password123") new_session new_session).
  reflexivity.
Defined.

Lemma step_keeps_well_formed ev st s :
  well_keyed (USERS st) → unique_emails (USERS st) →
  well_keyed (USERS (fst (step ev (st, s))))
  ∧ unique_emails (USERS (fst (step ev (st, s)))).
Proof.
  intros Hwk Hue. destruct ev as [path|n u p|n u e p c|n]; simpl.
  - done.
  - by destruct (login n u p (USERS st) s) as [[? ?] ?].
  - destruct (register_user_cases n u e p c st) as (r & st1 & E & Hr).
    rewrite E. simpl. destruct Hr as [Hr|(_ & _ & ->)]; [|done].
    destruct (register_user_added _ _ _ _ _ _ _ _ E Hr)
      as (un & em & pw & _ & _ & _ & _ & Hnone & Hno & -> & _).
    split.
    + intros k a Hk. apply lookup_insert_Some in Hk as [[<- <-]|[_ Hk]]; [done|].
      by apply Hwk.
    + intros k1 k2 a1 a2 e' H1 H2 E1 E2.
      apply lookup_insert_Some in H1 as [[<- <-]|[Hn1 H1]];
        apply lookup_insert_Some in H2 as [[<- <-]|[Hn2 H2]].
      * done.
      * simpl in E1. injection E1 as <-. by destruct (Hno k2 a2 H2).
      * simpl in E2. injection E2 as <-. by destruct (Hno k1 a1 H1).
      * by apply (Hue k1 k2 a1 a2 e').
  - by destruct (logout n s) as [? ?].
Qed.

(** X16: the store keeps its shape through any sequence of events: every
    account stays filed under its own id and username, and no two accounts
    ever share an email. *)
Theorem store_stays_well_formed (evs : list event) (st : store) (s : session) :
  well_keyed (USERS st) → unique_emails (USERS st) →
  well_keyed (USERS (fst (run evs (st, s))))
  ∧ unique_emails (USERS (fst (run evs (st, s)))).
Proof.
  revert st s. induction evs as [|ev evs IH]; intros st s Hwk Hue; [done|].
  change (run (ev :: evs) (st, s)) with (run evs (step ev (st, s))).
  destruct (step_keeps_well_formed ev st s Hwk Hue) as [Hwk' Hue'].
  destruct (step ev (st, s)) as [st' s']. by apply IH.
Qed.

Lemma default_users_well_keyed : well_keyed default_users.
Proof.
  intros k a Hk. unfold default_users in Hk.
  apply lookup_insert_Some in Hk as [[<- <-]|[_ Hk]]; [done|].
  apply lookup_insert_Some in Hk as [[<- <-]|[_ Hk]]; [done|].
  by rewrite lookup_empty in Hk.
Qed.

Lemma default_users_unique_emails : unique_emails default_users.
Proof.
  intros k1 k2 a1 a2 e H1 H2 E1 E2. unfold default_users in H1, H2.
  apply lookup_insert_Some in H1 as [[<- <-]|[_ H1]];
    apply lookup_insert_Some in H2 as [[<- <-]|[_ H2]]; try done.
  - apply lookup_insert_Some in H2 as [[<- <-]|[_ H2]];
      [simpl in *; congruence|by rewrite lookup_empty in H2].
  - apply lookup_insert_Some in H1 as [[<- <-]|[_ H1]];
      [simpl in *; congruence|by rewrite lookup_empty in H1].
  - apply lookup_insert_Some in H1 as [[<- <-]|[_ H1]];
      [|by rewrite lookup_empty in H1].
    apply lookup_insert_Some in H2 as [[<- <-]|[_ H2]];
      [done|by rewrite lookup_empty in H2].
Qed.

Lemma store_stays_well_formed_witness :
  well_keyed
    (USERS (fst (run [SubmitRegister 1 (Some "alice") (Some "alice@example.com")
                        (Some "secret") (Some "secret")]
                   (fresh_store, new_session))))
  ∧ unique_emails
      (USERS (fst (run [SubmitRegister 1 (Some "alice") (Some "alice@example.com")
                          (Some "secret") (Some "secret")]
                     (fresh_store, new_session)))).
Proof.
  apply (store_stays_well_formed _ fresh_store new_session).
  - apply default_users_well_keyed.
  - apply default_users_unique_emails.
Defined.

Lemma step_keeps_session ev st s :
  well_keyed (USERS st) → session_resolves (st, s) →
  session_resolves (step ev (st, s)).
Proof.
  intros Hwk Hs. unfold session_resolves, load_user in *. simpl in Hs.
  destruct ev as [path|n u p|n u e p c|n]; simpl.
  - done.
  - unfold login. destruct (0 <? n); [|done].
    destruct u as [un|]; [|by intros id; simpl; apply Hs].
    destruct (USERS st !! un) as [a|] eqn:Ha; [|by intros id; simpl; apply Hs].
    destruct (bool_decide (Some (acc_password a) = p));
      [|by intros id; simpl; apply Hs].
    simpl. intros id [= <-]. destruct (Hwk un a Ha) as [-> _]. by eexists.
  - destruct (register_user n u e p c st) as [r st1] eqn:E. simpl.
    intros id Hid.
    assert (Hcur : current_user (set_pathname (register_outputs r).2 s)
                   = current_user s).
    { by destruct (register_outputs r).2. }
    rewrite Hcur in Hid. destruct (Hs id Hid) as [a Ha]. exists a.
    pose proof (step_keeps_accounts (SubmitRegister n u e p c) st s id a Ha) as Ha'.
    simpl in Ha'. by rewrite E in Ha'.
  - unfold logout. destruct n as [n|]; [|done].
    destruct (n =? 0); [done|]. simpl. by intros id.
Qed.

(** X17: in a store where accounts are filed under their id, the user
    recorded for a session is always an account that [load_user] finds,
    whatever the session does: logins record the id of an existing
    account, and accounts are never removed. *)
Theorem session_user_resolves (evs : list event) (st : store) (s : session) :
  well_keyed (USERS st) → unique_emails (USERS st) →
  session_resolves (st, s) →
  session_resolves (run evs (st, s)).
Proof.
  revert st s. induction evs as [|ev evs IH]; intros st s Hwk Hue Hs; [done|].
  change (run (ev :: evs) (st, s)) with (run evs (step ev (st, s))).
  pose proof (step_keeps_session ev st s Hwk Hs) as Hs'.
  destruct (step_keeps_well_formed ev st s Hwk Hue) as [Hwk' Hue'].
  destruct (step ev (st, s)) as [st' s']. by apply IH.
Qed.

Lemma session_user_resolves_witness :
  session_resolves
    (run [SubmitRegister 1 (Some "alice") (Some "alice@example.com")
            (Some "secret") (Some "secret");
          SubmitLogin 1 (Some "alice") (Some "secret")]
       (fresh_store, new_session)).
Proof.
  apply (session_user_resolves _ fresh_store new_session).
  - apply default_users_well_keyed.
  - apply default_users_unique_emails.
  - intros id Hid. discriminate.
Defined.

(** X18: an account that a registration added to the dictionary, saved or
    not, opens the dashboard with the password it was registered with, and
    with no other password. *)
Theorem register_then_login (n m : Z) (u e p c : option string)
    (st st1 : store) (r : register_result) (s : session) :
  register_user n u e p c st = (r, st1) →
  r = Registered ∨ r = SaveFailed →
  0 < m →
  ∃ un,
    u = Some un
    ∧ step (SubmitLogin m u p) (st1, s)
      = (st1, {| current_user := Some un; pathname := "/dashboard" |})
    ∧ ∀ q, q ≠ p →
           step (SubmitLogin m u q) (st1, s)
           = (st1, {| current_user := current_user s; pathname := "/login" |}).
Proof.
  intros E Hr Hm. apply Z.ltb_lt in Hm.
  destruct (register_user_added _ _ _ _ _ _ _ _ E Hr)
    as (un & em & pw & -> & -> & -> & -> & Hnone & Hno & HU & _).
  exists un. split; [done|]. split.
  - simpl. unfold login. rewrite Hm, HU, lookup_insert_eq. simpl.
    by rewrite bool_decide_eq_true_2.
  - intros q Hq. simpl. unfold login. rewrite Hm, HU, lookup_insert_eq. simpl.
    rewrite bool_decide_eq_false_2 by congruence. by destruct s.
Qed.

Lemma register_then_login_witness :
  ∃ un,
    Some "alice" = Some un
    ∧ step (SubmitLogin 1 (Some "alice") (Some "secret"))
        (registered "alice" "alice@example.com" "secret" fresh_store, new_session)
      = (registered "alice" "alice@example.com" "secret" fresh_store,
         {| current_user := Some un; pathname := "/dashboard" |})
    ∧ ∀ q, q ≠ Some "secret" →
           step (SubmitLogin 1 (Some "alice") q)
             (registered "alice" "alice@example.com" "secret" fresh_store,
              new_session)
           = (registered "alice" "alice@example.com" "secret" fresh_store,
              {| current_user := current_user new_session; pathname := "/login" |}).
Proof.
  apply (register_then_login 1 1 (Some "alice") (Some "alice@example.com")
           (Some "secret") (Some "secret") fresh_store _ Registered new_session).
  - reflexivity.
  - by left.
  - lia.
Defined.

(** X19: a registration that succeeds leaves in the file exactly the
    dictionary in memory, so a restart reloads every account.  One whose
    save fails keeps the new account in memory only: when the file could
    not be opened it is left as it was; when it was opened and the dump
    failed it is left unreadable, so that a restart falls back to the
    default accounts and the accounts saved before are lost.  Every other
    answer leaves dictionary and file untouched. *)
Theorem registration_and_the_file (n : Z) (u e p c : option string)
    (st st1 : store) (r : register_result) :
  register_user n u e p c st = (r, st1) →
  (r = Registered →
   next_save st = Saves
   ∧ users_pickle st1 = Some (USERS st1)
   ∧ load_users (users_pickle st1) = USERS st1)
  ∧ (r = SaveFailed →
     (∃ un a, u = Some un ∧ USERS st !! un = None ∧ USERS st1 !! un = Some a)
     ∧ (next_save st = OpenFails ∨ next_save st = DumpFails)
     ∧ (next_save st = OpenFails → users_pickle st1 = users_pickle st)
     ∧ (next_save st = DumpFails →
        users_pickle st1 = None
        ∧ load_users (users_pickle st1) = default_users))
  ∧ (r ≠ Registered → r ≠ SaveFailed → st1 = st).
Proof.
  intros E. split; [|split].
  - intros ->.
    destruct (register_user_added _ _ _ _ _ _ _ _ E (or_introl eq_refl))
      as (un & em & pw & _ & _ & _ & _ & _ & _ & _ & Hfile & _).
    destruct (Hfile eq_refl) as [Hs Hf]. by rewrite Hf.
  - intros ->.
    destruct (register_user_added _ _ _ _ _ _ _ _ E (or_intror eq_refl))
      as (un & em & pw & -> & _ & _ & _ & Hnone & _ & HU & _ & Hfile).
    split.
    { exists un. eexists. split; [done|]. split; [done|].
      rewrite HU. apply lookup_insert_eq. }
    destruct (Hfile eq_refl) as [[Hs Hf]|[Hs Hf]]; rewrite Hs, Hf.
    + split; [by left|]. split; [done|]. discriminate.
    + split; [by right|]. split; [discriminate|]. done.
  - by apply (register_user_refused n u e p c).
Qed.

Lemma registration_and_the_file_witness :
  load_users
    (users_pickle (registered "alice" "alice@example.com" "secret" fresh_store))
  = USERS (registered "alice" "alice@example.com" "secret" fresh_store)
  ∧ load_users
      (users_pickle
         (snd (register_user 1 (Some "bob") (Some "bob@example.com")
                 (Some "hunter2") (Some "hunter2")
                 (store_with_failing_dump "alice" "alice@example.com" "secret"))))
    = default_users.
Proof.
  split.
  - apply (proj1 (registration_and_the_file 1 (Some "alice")
                    (Some "alice@example.com") (Some "secret") (Some "secret")
                    fresh_store _ Registered eq_refl)).
    reflexivity.
  - apply (proj1 (proj2 (registration_and_the_file 1 (Some "bob")
                           (Some "bob@example.com") (Some "hunter2")
                           (Some "hunter2")
                           (store_with_failing_dump "alice" "alice@example.com"
                              "secret")
                           _ SaveFailed eq_refl))); reflexivity.
Defined.

(** ** Navigation inside the dashboard *)

(** X20: [update_navigation] always marks exactly one of the five buttons
    as active.  After a click it is the clicked button, the page stored is
    the page of that button and [render_content] shows the body of that
    page; without a click the stored page is kept and the Home button is
    the one marked, whatever the stored page is. *)
Theorem navigation_marks_one_button (triggered : option nav_button)
    (current : string) :
  length (List.filter (λ cl, bool_decide (cl = "nav-link active"))
            (nav_classes (update_navigation triggered current))) = 1%nat
  ∧ Forall (λ cl, cl = "nav-link active" ∨ cl = "nav-link")
      (nav_classes (update_navigation triggered current))
  ∧ (∀ b, triggered = Some b →
          nav_classes (update_navigation triggered current)
          = style_of (Some b) <$> [NavHome; NavMap; NavTime; NavRequests; NavData]
          ∧ render_content (nav_page (update_navigation triggered current))
            = Some (body_of b))
  ∧ (triggered = None →
     nav_page (update_navigation triggered current) = current
     ∧ class_home (update_navigation triggered current) = "nav-link active").
Proof.
  split; [|split; [|split]].
  - destruct triggered as [[]|]; reflexivity.
  - destruct triggered as [[]|]; unfold nav_classes;
      repeat (apply List.Forall_cons;
              [first [left; reflexivity | right; reflexivity]|]);
      apply List.Forall_nil.
  - intros b ->. by destruct b.
  - by intros ->.
Qed.

Lemma navigation_marks_one_button_witness :
  nav_classes (update_navigation (Some NavTime) "home")
  = style_of (Some NavTime) <$> [NavHome; NavMap; NavTime; NavRequests; NavData]
  ∧ render_content (nav_page (update_navigation (Some NavTime) "home"))
    = Some (body_of NavTime).
Proof.
  apply (proj1 (proj2 (proj2 (navigation_marks_one_button (Some NavTime) "home")))
           NavTime).
  reflexivity.
Defined.

(** ** The raw-data table and the export *)

(** X21: the raw-data table shows the first hundred rows of the filter
    result.  When both date bounds are computed, these are the first
    hundred records of the store, in its order, that pass the five
    predicates; with a date bound that does not parse they are the first
    hundred records of the store, filtered or not.  The table has 100 rows
    when the filter returns more, and all the rows of the filter result
    otherwise. *)
Theorem data_table_rows (df : list row)
    (continents countries age_groups request_types : pylist)
    (start_date end_date : pyarg) :
  (∀ s e, bound_of start_date = Some s → bound_of end_date = Some e →
     update_data_table df continents countries age_groups request_types
       start_date end_date
     = take 100
         (List.filter
            (matches continents countries age_groups request_types s e) df))
  ∧ (unparseable start_date ∨ unparseable end_date →
     update_data_table df continents countries age_groups request_types
       start_date end_date = take 100 df)
  ∧ update_data_table df continents countries age_groups request_types
      start_date end_date
    `prefix_of` filtered df continents countries age_groups request_types
                  start_date end_date
  ∧ length (update_data_table df continents countries age_groups request_types
              start_date end_date)
    = (100 `min` length (filtered df continents countries age_groups
                           request_types start_date end_date))%nat
  ∧ ((length (filtered df continents countries age_groups request_types
                start_date end_date) ≤ 100)%nat →
     update_data_table df continents countries age_groups request_types
       start_date end_date
     = filtered df continents countries age_groups request_types
         start_date end_date)
  ∧ update_data_table df continents countries age_groups request_types
      start_date end_date `sublist_of` df.
Proof.
  unfold update_data_table. split; [|split; [|split; [|split; [|split]]]].
  - intros s e Hs He. rewrite filtered_kept. unfold kept.
    by rewrite Hs, He, selected_matches.
  - intros Hbad. rewrite !unparseable_bound in Hbad.
    rewrite filtered_kept. unfold kept.
    destruct Hbad as [-> | Hy]; [done|].
    rewrite Hy. by destruct (bound_of start_date).
  - eexists. symmetry. apply take_drop.
  - apply length_take.
  - intros Hlen. by apply take_ge.
  - etrans; [apply sublist_take|]. rewrite filtered_kept. apply kept_sublist.
Qed.

Lemma data_table_rows_witness :
  update_data_table sample_store None (Some ["Canada"]) None None
    (PyStr "2023-01-01") (PyDate (jan 31))
  = take 100
      (List.filter
         (matches None (Some ["Canada"]) None None (Some (jan 1)) (Some (jan 31)))
         sample_store).
Proof.
  apply (proj1 (data_table_rows sample_store None (Some ["Canada"]) None None
                  (PyStr "2023-01-01") (PyDate (jan 31))));
    reflexivity.
Defined.

Lemma write_export_files fmt label ext export_df now d name :
  (snd (write_export fmt label ext export_df now d)).(files) !! name
  = if bool_decide (name = ("dashboard_export_" ++ now ++ ext)%string)
    then match next_write d with
         | Writes => Some (Exported fmt export_df)
         | FailsBeforeOpen _ => files d !! name
         | FailsAfterOpen _ => Some Incomplete
         end
    else files d !! name.
Proof.
  unfold write_export.
  destruct (decide (name = ("dashboard_export_" ++ now ++ ext)%string)) as [->|Hne].
  - rewrite bool_decide_eq_true_2 by done.
    destruct (next_write d); cbn [snd files]; [|done|]; apply lookup_insert_eq.
  - rewrite bool_decide_eq_false_2 by done.
    destruct (next_write d); cbn [snd files]; [|done|]; by apply lookup_insert_ne.
Qed.

Lemma export_data_all (export_option : option string)
    (df : list row) (continents countries age_groups request_types : pylist)
    (start_date end_date : pyarg) (table_data : option (list row))
    (now : string) (d : disk) (button : string) (fmt : export_format)
    (ext : string) :
  (button, fmt, ext) ∈ [("export-csv", ExportCSV, ".csv");
                        ("export-json", ExportJSON, ".json");
                        ("export-excel", ExportExcel, ".xlsx")] →
  export_option ≠ Some "current" →
  ∃ label,
    export_data (Some button) export_option df continents countries age_groups
      request_types start_date end_date table_data now d
    = write_export fmt label ext
        (filtered df continents countries age_groups request_types
           start_date end_date) now d.
Proof.
  intros Hin Hopt. unfold export_data. rewrite bool_decide_eq_false_2 by done.
  apply elem_of_cons in Hin as [Hin|Hin]; [injection Hin as -> -> ->|].
  { by exists "CSV". }
  apply elem_of_cons in Hin as [Hin|Hin]; [injection Hin as -> -> ->|].
  { by exists "JSON". }
  apply elem_of_cons in Hin as [Hin|Hin]; [injection Hin as -> -> ->|].
  { by exists "Excel". }
  by apply elem_of_nil in Hin.
Qed.

(** X22: an export of "all filtered data" with the CSV, JSON or Excel
    button touches one file only, the one named after the time stamp with
    the extension of the button.  When the write succeeds the file holds
    every row the filter returns; when it fails after the file was opened,
    the file is left incomplete, whatever it held before; when it fails
    before, the disk is left as it was.  The disk is also left as it was
    when nothing triggered the callback, and when the current view is asked
    for without table data. *)
Theorem export_writes_filtered_rows (export_option : option string)
    (df : list row) (continents countries age_groups request_types : pylist)
    (start_date end_date : pyarg) (table_data : option (list row))
    (now : string) (d : disk) :
  (∀ button fmt ext,
     (button, fmt, ext) ∈ [("export-csv", ExportCSV, ".csv");
                           ("export-json", ExportJSON, ".json");
                           ("export-excel", ExportExcel, ".xlsx")] →
     export_option ≠ Some "current" →
     ∀ d', d' = snd (export_data (Some button) export_option df continents
                       countries age_groups request_types start_date end_date
                       table_data now d) →
       (∀ name, name ≠ ("dashboard_export_" ++ now ++ ext)%string →
                files d' !! name = files d !! name)
       ∧ (next_write d = Writes →
          files d' !! ("dashboard_export_" ++ now ++ ext)%string
          = Some (Exported fmt
                    (filtered df continents countries age_groups request_types
                       start_date end_date)))
       ∧ (∀ e, next_write d = FailsAfterOpen e →
               files d' !! ("dashboard_export_" ++ now ++ ext)%string
               = Some Incomplete)
       ∧ (∀ e, next_write d = FailsBeforeOpen e → d' = d))
  ∧ (∀ button e,
       next_write d = FailsBeforeOpen e →
       snd (export_data button export_option df continents countries
              age_groups request_types start_date end_date table_data now d)
       = d)
  ∧ (∀ button,
       export_option = Some "current" → table_data = None →
       snd (export_data button export_option df continents countries
              age_groups request_types start_date end_date table_data now d)
       = d)
  ∧ snd (export_data None export_option df continents countries age_groups
           request_types start_date end_date table_data now d) = d.
Proof.
  assert (Hbefore : ∀ e fmt label ext rows,
            next_write d = FailsBeforeOpen e →
            snd (write_export fmt label ext rows now d) = d).
  { intros e fmt label ext rows Hw. unfold write_export. by rewrite Hw. }
  split; [|split; [|split]].
  - intros button fmt ext Hin Hopt d' ->.
    destruct (export_data_all export_option df continents countries age_groups
                request_types start_date end_date table_data now d
                button fmt ext Hin Hopt) as [label ->].
    split; [|split; [|split]].
    + intros name Hne. rewrite write_export_files.
      by rewrite bool_decide_eq_false_2.
    + intros Hw. rewrite write_export_files, Hw.
      by rewrite bool_decide_eq_true_2.
    + intros e Hw. rewrite write_export_files, Hw.
      by rewrite bool_decide_eq_true_2.
    + intros e Hw. by apply (Hbefore e).
  - intros button e Hw. unfold export_data.
    destruct button as [button_id|]; [|done].
    destruct (if bool_decide (export_option = Some "current") then _ else _);
      [|done].
    repeat match goal with
           | |- context [if bool_decide ?P then _ else _] =>
               destruct (bool_decide P)
           end; try apply (Hbefore e); done.
  - intros button -> ->. unfold export_data.
    destruct button as [button_id|]; [|done].
    by rewrite bool_decide_eq_true_2.
  - done.
Qed.

Lemma export_writes_filtered_rows_witness :
  files
    (snd (export_data (Some "export-json") (Some "all") sample_store
            None None None None (PyStr "2023-01-01") (PyStr "2023-01-02") None
            "20230106_101500" (Disk ∅ Writes)))
  !! ("dashboard_export_" ++ "20230106_101500" ++ ".json")%string
  = Some (Exported ExportJSON
            (filtered sample_store None None None None
               (PyStr "2023-01-01") (PyStr "2023-01-02"))).
Proof.
  assert (Hin : ("export-json", ExportJSON, ".json")
                ∈ [("export-csv", ExportCSV, ".csv");
                   ("export-json", ExportJSON, ".json");
                   ("export-excel", ExportExcel, ".xlsx")])
    by (apply list_elem_of_In; simpl; tauto).
  assert (Hopt : Some "all" ≠ Some "current") by discriminate.
  exact (proj1 (proj2 (proj1 (export_writes_filtered_rows (Some "all")
                                sample_store None None None None
                                (PyStr "2023-01-01") (PyStr "2023-01-02") None
                                "20230106_101500" (Disk ∅ Writes))
                         "export-json" ExportJSON ".json" Hin Hopt _ eq_refl))
           eq_refl).
Defined.

(** ** Displayed counts *)

Lemma commas_four (a b c d : ascii) (m : list ascii) :
  commas (a :: b :: c :: d :: m) = a :: b :: c :: ","%char :: commas (d :: m).
Proof. reflexivity. Qed.

Lemma keep_not_comma (a : ascii) :
  a ≠ ","%char → negb (Ascii.eqb a ",") = true.
Proof. intros H. apply negb_true_iff. by apply Ascii.eqb_neq. Qed.

Lemma commas_strip_upto (n : nat) (l : list ascii) :
  (length l ≤ n)%nat → Forall (λ ch, ch ≠ ","%char) l →
  List.filter (λ ch, negb (Ascii.eqb ch ",")) (commas l) = l.
Proof.
  revert l. induction n as [|n IH]; intros l Hlen Hall.
  - destruct l; [done|simpl in Hlen; lia].
  - destruct l as [|a [|b [|c [|d m]]]];
      try (apply filter_all; intros x Hx; apply keep_not_comma;
           rewrite Forall_forall in Hall; by apply Hall).
    rewrite commas_four.
    apply Forall_cons in Hall as [Ha Hall].
    apply Forall_cons in Hall as [Hb Hall].
    apply Forall_cons in Hall as [Hc Hall].
    rewrite !filter_cons_bool.
    rewrite !keep_not_comma by done.
    change (negb (Ascii.eqb "," ",")) with false. cbv iota.
    rewrite IH; [done| |done]. simpl in *. lia.
Qed.

Lemma digits_without_comma (u : Decimal.uint) :
  Forall (λ ch, ch ≠ ","%char)
    (list_ascii_of_string (NilEmpty.string_of_uint u)).
Proof.
  induction u; simpl; [constructor|..]; (constructor; [discriminate|done]).
Qed.

Lemma Forall_rev_iff {A} (P : A → Prop) (l : list A) : Forall P l → Forall P (rev l).
Proof.
  rewrite !Forall_forall. intros H x Hx. apply H.
  apply list_elem_of_In. apply list_elem_of_In in Hx. by apply in_rev.
Qed.

Lemma strip_commas_format (n : nat) :
  strip_commas (format_thousands n) = NilEmpty.string_of_uint (Nat.to_uint n).
Proof.
  unfold strip_commas, format_thousands.
  rewrite list_ascii_of_string_of_list_ascii, filter_rev.
  rewrite (commas_strip_upto _ _ (le_n _))
    by apply Forall_rev_iff, digits_without_comma.
  by rewrite rev_involutive, string_of_list_ascii_of_string.
Qed.

Lemma parse_format_thousands (n : nat) :
  parse_thousands (format_thousands n) = Some n.
Proof.
  unfold parse_thousands. rewrite strip_commas_format, NilEmpty.usu. simpl.
  by rewrite Unsigned.of_to.
Qed.

(** X23: a count displayed with thousands separators reads back as the
    same number, so different counts are displayed differently; the four
    figures that [update_metrics] shows read back as the total and the
    three named counts of the filter result. *)
Theorem displayed_metrics_read_back (df : list row)
    (continents countries age_groups request_types : pylist)
    (start_date end_date : pyarg) :
  (∀ n, parse_thousands (format_thousands n) = Some n)
  ∧ (∀ n m, format_thousands n = format_thousands m → n = m)
  ∧ parse_thousands
      <$> [ (update_metrics df continents countries age_groups request_types
               start_date end_date).1.1.1;
            (update_metrics df continents countries age_groups request_types
               start_date end_date).1.1.2;
            (update_metrics df continents countries age_groups request_types
               start_date end_date).1.2;
            (update_metrics df continents countries age_groups request_types
               start_date end_date).2 ]
    = Some
        <$> [ length (filtered df continents countries age_groups request_types
                        start_date end_date);
              count_requests "demo"
                (filtered df continents countries age_groups request_types
                   start_date end_date);
              count_requests "job"
                (filtered df continents countries age_groups request_types
                   start_date end_date);
              count_requests "ai_assistant"
                (filtered df continents countries age_groups request_types
                   start_date end_date) ].
Proof.
  split; [apply parse_format_thousands|]. split.
  - intros n m E.
    assert (H : parse_thousands (format_thousands n)
                = parse_thousands (format_thousands m)) by by rewrite E.
    rewrite !parse_format_thousands in H. by injection H.
  - unfold update_metrics, metric_counts. cbn [fst snd total_requests
      demo_requests job_placements ai_assistant fmap list_fmap].
    by rewrite !parse_format_thousands.
Qed.

Lemma displayed_metrics_read_back_witness :
  format_thousands 1234 = format_thousands 1234 ∧ 1234%nat = 1234%nat.
Proof.
  split; [reflexivity|].
  apply (proj1 (proj2 (displayed_metrics_read_back sample_store None None None
                         None PyNone PyNone)) 1234%nat 1234%nat).
  reflexivity.
Defined.

(** ** Request types over time and by country *)

Lemma both_Some {A B} (a : option A) (b : option B) (x : A) (y : B) :
  both a b = Some (x, y) ↔ a = Some x ∧ b = Some y.
Proof.
  destruct a, b; simpl; split; intros H; try done;
    try (destruct H; congruence); try (split; congruence).
Qed.

Lemma both_None {A B} (a : option A) (b : option B) :
  both a b = None ↔ a = None ∨ b = None.
Proof.
  destruct a, b; simpl; split; intros H; try done; auto;
    destruct H; congruence.
Qed.

Lemma occurrences_both {A B C} `{EqDecision A} `{EqDecision B}
    (f : C → option A) (g : C → option B) (x : A) (y : B) (l : list C) :
  occurrences (Some (x, y)) ((λ r, both (f r) (g r)) <$> l)
  = length (List.filter (λ r, bool_decide (f r = Some x)
                              && bool_decide (g r = Some y)) l).
Proof.
  unfold occurrences. rewrite filter_fmap_length. f_equal.
  apply List.filter_ext. intros r.
  rewrite <- bool_decide_and. apply bool_decide_ext, both_Some.
Qed.

(** X24: the table of the chart of request types over time has one row for
    each pair of a date and a request type that occurs, with the number of
    records of that type on that date, and no row for a pair that does not
    occur; the counts add up to the number of records that have both a
    timestamp and a request type. *)
Theorem request_types_over_time (filtered_df : list row) :
  NoDup (fst <$> request_time filtered_df)
  ∧ (∀ d t n, ((d, t), n) ∈ request_time filtered_df
              ↔ (0 < n)%nat ∧ n = count_date_type d t filtered_df)
  ∧ (sum_list (snd <$> request_time filtered_df)
     + length (List.filter
                 (λ r, bool_decide (timestamp r = None ∨ request_type r = None))
                 filtered_df))%nat
    = length filtered_df.
Proof.
  unfold request_time. split; [apply groupby_sorted_NoDup|]. split.
  - intros d t n. rewrite elem_of_groupby_sorted. unfold count_date_type.
    by rewrite occurrences_both.
  - rewrite groupby_sorted_sum.
    rewrite <- (missing_cells_length
                  (λ r, both (ts_date <$> timestamp r) (request_type r))
                  filtered_df).
    f_equal. f_equal. apply List.filter_ext. intros r.
    apply bool_decide_ext. rewrite both_None.
    destruct (timestamp r); simpl; intuition congruence.
Qed.



(** *** The ten countries with the most records *)






Section TopCountries.

Variable df : list row.

Let vc : list (string * nat) := value_counts (country <$> df).











End TopCountries.

(** *** The heat map *)

Section Heatmap.

Variable df : list row.













End Heatmap.


